(** * Content generation layer of gemini-cli: model resolver and
      OpenAI-compatible provider adapters

    A shallow embedding of
    - [packages/core/src/config/models.ts] ([getEffectiveModel]),
    - [packages/core/src/core/kimiClient.ts] ([KimiClient]),
    - [packages/core/src/core/hunyuanContentGenerator.ts]
      ([HunyuanContentGenerator]),
    - the two DeepSeek adapters ([DeepSeekContentGenerator], one with a
      process-wide proxy dispatcher and one with a finish-reason table),
    - the DeepSeek adapter that returns at the end-of-stream sentinel
      ([DeepseekContentGenerator]),
    followed by the properties of these functions.

    Conventions.  A JavaScript string is the sequence of its UTF-16 code
    units; the development works with code units below 256, so a string is
    a [string] of Rocq and [String.length] is the [.length] of JavaScript.
    [undefined] and [null] of an optional field are [None].  A JavaScript
    number that holds a count is a [Z]; sums of counts are sums of
    integers, which is what JavaScript computes on safe integers (up to
    2^53 - 1), and the statements about such sums assume counts in that
    range.  An exception is a value of [Completion]. *)

From stdpp Require Import base option list strings gmap pretty.
From Stdlib Require Import Ascii ZArith QArith Qround Lia.

Local Open Scope Z_scope.
Local Open Scope stdpp_scope.

(** ** JavaScript strings *)

Module JS.

Definition code (c : ascii) : N := Ascii.N_of_ascii c.

(** The line feed, ['\n']. *)
Definition LF : ascii := Ascii.ascii_of_N 10.
Definition LINE_FEED : string := String LF EmptyString.

(** [s.startsWith(search)]. *)
Fixpoint startsWith (s search : string) {struct search} : bool :=
  match search with
  | EmptyString => true
  | String a search' =>
      match s with
      | EmptyString => false
      | String b s' => if decide (a = b) then startsWith s' search' else false
      end
  end.

(** [s.includes(search)]: [search] occurs at some position of [s]. *)
Fixpoint includes (s search : string) : bool :=
  startsWith s search ||
  match s with
  | EmptyString => false
  | String _ s' => includes s' search
  end.

(** [s.slice(n)] for [n >= 0]: drop the first [n] code units. *)
Fixpoint slice (s : string) (n : nat) : string :=
  match n, s with
  | O, _ => s
  | S _, EmptyString => EmptyString
  | S n', String _ s' => slice s' n'
  end.

(** White space and line terminators of ECMAScript among the code units
    below 256: TAB, LF, VT, FF, CR, SP and NBSP. *)
Definition isWhiteSpace (c : ascii) : bool :=
  let n := code c in
  ((9 <=? n)%N && (n <=? 13)%N) || (n =? 32)%N || (n =? 160)%N.

Fixpoint trimStart (s : string) : string :=
  match s with
  | EmptyString => EmptyString
  | String c s' => if isWhiteSpace c then trimStart s' else s
  end.

(** [s.trim()]. *)
Definition trim (s : string) : string :=
  String.rev (trimStart (String.rev (trimStart s))).

(** [s.toLowerCase()] on code units below 256: A-Z and the Latin-1
    capitals U+00C0-U+00DE (but the multiplication sign U+00D7). *)
Definition lowerChar (c : ascii) : ascii :=
  let n := code c in
  if ((65 <=? n)%N && (n <=? 90)%N)
     || ((192 <=? n)%N && (n <=? 222)%N && negb (n =? 215)%N)
  then Ascii.ascii_of_N (n + 32) else c.

Fixpoint toLowerCase (s : string) : string :=
  match s with
  | EmptyString => EmptyString
  | String c s' => String (lowerChar c) (toLowerCase s')
  end.

(** [parts.join(sep)]. *)
Definition join (sep : string) (parts : list string) : string :=
  String.concat sep parts.

(** [s.split('\n')]: never empty; [''.split('\n')] is [['']]. *)
Fixpoint split_LF (s : string) : list string :=
  match s with
  | EmptyString => [EmptyString]
  | String c s' =>
      if decide (c = LF) then EmptyString :: split_LF s'
      else match split_LF s' with
           | h :: t => String c h :: t
           | [] => [String c EmptyString]
           end
  end.

(** Truthiness of an optional string: [undefined], [null] and [''] are
    falsy. [truthy o] is the string when it is truthy. *)
Definition truthy (o : option string) : option string :=
  match o with
  | Some s => if decide (s = "") then None else Some s
  | None => None
  end.

(** [a || b] on numbers that hold counts: [0] is falsy. *)
Definition orNumber (a b : Z) : Z := if decide (a = 0) then b else a.

(** [o || d] on optional strings. *)
Definition orString (o : option string) (d : string) : string :=
  default d (truthy o).

End JS.

(** ** packages/core/src/config/models.ts *)

Module Models.

Definition DEFAULT_GEMINI_MODEL : string := "gemini-2.5-pro".
Definition DEFAULT_GEMINI_FLASH_MODEL : string := "gemini-2.5-flash".
Definition DEFAULT_GEMINI_FLASH_LITE_MODEL : string := "gemini-2.5-flash-lite".
Definition DEFAULT_HUNYUAN_MODEL : string := "hunyuan-pro".
Definition DEFAULT_HUNYUAN_STANDARD_MODEL : string := "hunyuan-standard".
Definition DEFAULT_HUNYUAN_LITE_MODEL : string := "hunyuan-lite".

Definition getEffectiveModel (isInFallbackMode : bool)
    (requestedModel : string) : string :=
  if negb isInFallbackMode then requestedModel
  else if JS.includes requestedModel "lite" then requestedModel
  else if JS.includes requestedModel "hunyuan" then DEFAULT_HUNYUAN_STANDARD_MODEL
  else DEFAULT_GEMINI_FLASH_MODEL.

End Models.

(** ** Exceptions, generators and the state of the process *)

(** The completion of a call: it returns a value or throws
    [new Error(message)]. *)
Inductive Completion (A : Type) : Type :=
| Normal (value : A)
| Throw (message : string).
Arguments Normal {A} value.
Arguments Throw {A} message.

(** What a consumer of an async generator observes: the responses yielded,
    in order, and how the generator ended. *)
Record Run (R : Type) : Type := MkRun {
  emitted : list R;
  outcome : Completion unit
}.
Arguments MkRun {R} emitted outcome.
Arguments emitted {R} r.
Arguments outcome {R} r.

(** undici keeps one dispatcher for the whole process; [fetch] uses it for
    every request that names no dispatcher of its own. *)
Inductive Dispatcher : Type :=
| DefaultAgent
| ProxyAgent (uri : string).

(** A request, as far as the adapters differ in it: where it goes and
    the headers it carries (a later header of the same name wins, as in
    an object spread). The body is left out. *)
Record HttpRequest : Type := MkHttpRequest {
  url : string;
  headers : list (string * string)
}.

(** State shared by everything that runs in the process: the global
    dispatcher, and the requests sent so far, each with the dispatcher
    that carried it. *)
Record Process : Type := MkProcess {
  globalDispatcher : Dispatcher;
  sent : list (HttpRequest * Dispatcher)
}.

(** A computation that may read and write the state of the process and
    may throw. *)
Definition Eff (A : Type) : Type := Process -> Completion A * Process.

Global Instance Eff_ret : MRet Eff := fun A a w => (Normal a, w).

Global Instance Eff_bind : MBind Eff := fun A B k m w =>
  match m w with
  | (Normal a, w') => k a w'
  | (Throw e, w') => (Throw e, w')
  end.

(** [throw new Error(message)]. *)
Global Instance Eff_throw : MThrow string Eff := fun A message w =>
  (Throw message, w).

(** Lifting a call that touches no state. *)
Definition lift {A : Type} (c : Completion A) : Eff A := fun w => (c, w).

(** [setGlobalDispatcher(agent)] of undici. *)
Definition setGlobalDispatcher (agent : Dispatcher) : Eff unit :=
  fun w => (Normal tt, {| globalDispatcher := agent; sent := sent w |}).

(** ** The unified types of @google/genai that the adapters use *)

(** Structured data, as [JSON.parse] returns it. A number keeps its
    literal. *)
#[local] Unset Elimination Schemes.
Inductive Json : Type :=
| JNull
| JBool (b : bool)
| JNumber (literal : string)
| JString (s : string)
| JArray (items : list Json)
| JObject (members : list (string * Json)).
#[local] Set Elimination Schemes.

Record Blob : Type := MkBlob { mimeType : option string; data : string }.
Record FunctionCall : Type := MkFunctionCall { fcName : string; fcArgs : Json }.
Record FunctionResponse : Type :=
  MkFunctionResponse { frName : string; frResponse : Json }.

(** [Part]: an object whose optional fields say which variant it is. *)
Record Part : Type := MkPart {
  text : option string;
  inlineData : option Blob;
  functionCall : option FunctionCall;
  functionResponse : option FunctionResponse
}.

Definition textPart (t : string) : Part :=
  {| text := Some t; inlineData := None; functionCall := None;
     functionResponse := None |}.

Definition functionCallPart (name : string) (args : Json) : Part :=
  {| text := None; inlineData := None;
     functionCall := Some (MkFunctionCall name args);
     functionResponse := None |}.

Definition inlineDataPart (mime b64 : string) : Part :=
  {| text := None; inlineData := Some (MkBlob (Some mime) b64);
     functionCall := None; functionResponse := None |}.

(** [Content]: one turn, [{ role?: string, parts?: Part[] }]. *)
Record Content : Type := MkContent {
  role : option string;
  parts : option (list Part)
}.

Definition turn (r : string) (ps : list Part) : Content :=
  {| role := Some r; parts := Some ps |}.

(** The string enum [FinishReason]. *)
Inductive FinishReason : Type :=
| STOP | MAX_TOKENS | SAFETY | RECITATION | OTHER.

Definition FinishReason_value (r : FinishReason) : string :=
  match r with
  | STOP => "STOP"
  | MAX_TOKENS => "MAX_TOKENS"
  | SAFETY => "SAFETY"
  | RECITATION => "RECITATION"
  | OTHER => "OTHER"
  end.

Record UsageMetadata : Type := MkUsage {
  promptTokenCount : Z;
  candidatesTokenCount : Z;
  totalTokenCount : Z
}.

(** A candidate; [finishReason] is a string because one adapter stores the
    provider's own string there ([as any]). *)
Record Candidate : Type := MkCandidate {
  content : Content;
  finishReason : option string;
  index : option Z
}.

Record GenerateContentResponse : Type := MkResponse {
  candidates : list Candidate;
  usageMetadata : option UsageMetadata;
  modelVersion : option string
}.

(** The text a response carries: the text parts of its first candidate,
    concatenated (the [text] accessor of [GenerateContentResponse]). *)
Definition partsText (ps : list Part) : string :=
  JS.join "" (omap text ps).

Definition responseText (r : GenerateContentResponse) : string :=
  match candidates r !! 0%nat with
  | Some c => partsText (default [] (parts (content c)))
  | None => ""
  end.

(** [Math.ceil(n / d)] and [Math.floor(n / d)] on an integer [n] and a
    positive integer [d]; the quotient is taken in the rationals. *)
Definition Math_ceil (q : Q) : Z := Qceiling q.
Definition Math_floor (q : Q) : Z := Qfloor q.
Definition quotient (n d : Z) : Q := (inject_Z n / inject_Z d)%Q.

(** The HTTP response that [fetch] resolved to. [body] lists the pieces
    of text that the reader delivers (each already decoded) before it
    reports [done]; [None] is a missing body. *)
Record HttpResponse : Type := MkHttpResponse {
  ok : bool;
  status : Z;
  statusText : string;
  errorText : string;
  body : option (list string)
}.

(** [fetch(url, { headers, ... })] with no dispatcher of its own: the
    request goes out through the global dispatcher, and [server] answers
    it. *)
Definition fetch (server : HttpRequest -> HttpResponse) (request : HttpRequest)
    : Eff HttpResponse :=
  fun w =>
    (Normal (server request),
     {| globalDispatcher := globalDispatcher w;
        sent := sent w ++ [(request, globalDispatcher w)] |}).

(** [lines.pop() || ''] and what [pop] leaves in [lines]. *)
Definition popOrEmpty (lines : list string) : string := List.last lines "".
Definition afterPop (lines : list string) : list string := List.removelast lines.

(** The reading loop that the streaming adapters share, word for word:
    [while (true)], read a value and stop when the reader is done, append
    the decoded value to [buffer], split [buffer] at the line feeds, keep
    the last piece as the new [buffer], and run the body of the [for] on
    the other pieces. [pieces] are the decoded values that [reader.read()]
    delivers, [processLine] is the body of the [for], [st] holds the
    other variables of the adapter. The result is the final [buffer] with
    the final state. *)
Fixpoint readLines {S : Type} (processLine : S -> string -> S)
    (pieces : list string) (buffer : string) (st : S) : string * S :=
  match pieces with
  | [] => (buffer, st)
  | value :: rest =>
      let lines := JS.split_LF (buffer +:+ value) in
      readLines processLine rest (popOrEmpty lines)
        (foldl processLine st (afterPop lines))
  end.

(** Messages of the OpenAI chat dialect. *)
Inductive ChatRole : Type := system | user | assistant.

Record ChatMessage : Type := MkMessage {
  msgRole : ChatRole;
  msgContent : string
}.

(** [systemInstruction?: string | Part | Part[] | Content]. An element of
    the array may be a bare string. *)
Inductive SystemInstruction : Type :=
| SIString (s : string)
| SIArray (items : list (string + Part))
| SIPart (p : Part)
| SIContent (c : Content).

(** [GenerateContentParameters], the fields that the adapters read for
    more than copying them into the request body. *)
Record GenerateContentParameters : Type := MkRequest {
  reqModel : string;
  reqContents : list Content;
  reqSystemInstruction : option SystemInstruction
}.

(** [CountTokensParameters]: [contents] is iterated as a [Content[]];
    [None] is an absent field. *)
Record CountTokensParameters : Type := MkCountRequest {
  ctModel : string;
  ctContents : option (list Content)
}.

Record CountTokensResponse : Type := MkCount { totalTokens : Z }.

(** ** packages/core/src/core/kimiClient.ts *)

Module KimiClient.

Definition KIMI_API_BASE_URL : string := "https://api.moonshot.cn/v1".

Record KimiDelta : Type := MkDelta {
  deltaRole : option string;
  deltaContent : option string
}.

Record KimiChoice : Type := MkChoice {
  delta : option KimiDelta;
  finish_reason : option string
}.

Record KimiStreamChunk : Type := MkChunk {
  model : string;
  choices : list KimiChoice
}.

Definition systemText (si : SystemInstruction) : string :=
  match si with
  | SIString s => s
  | SIArray items =>
      JS.join "" (map (fun item =>
                         match item with
                         | inl s => s
                         | inr p => JS.orString (text p) ""
                         end) items)
  | SIPart p => JS.orString (text p) ""
  | SIContent c =>
      JS.join "" (map (fun p => JS.orString (text p) "")
                      (default [] (parts c)))
  end.

(** The text of one turn (lines 101-109 and 114-121): every part gives
    its text or [''], the empty strings are filtered out, and the rest
    is joined with ['']. *)
Definition turnText (c : Content) : string :=
  JS.join ""
    (filter (fun t => (0 < String.length t)%nat)
       (map (fun p => JS.orString (text p) "") (default [] (parts c)))).

(** One iteration of [for (const content of contents)]: the messages
    after it, given the messages before it. *)
Definition pushTurn (messages : list ChatMessage) (c : Content)
    : list ChatMessage :=
  if decide (role c = Some "user") then
    match JS.truthy (Some (turnText c)) with
    | Some userText => messages ++ [MkMessage user userText]
    | None => messages
    end
  else if decide (role c = Some "model") then
    match JS.truthy (Some (turnText c)) with
    | Some assistantText => messages ++ [MkMessage assistant assistantText]
    | None => messages
    end
  else messages.

(** An empty string is the only falsy [systemInstruction], and its text
    is empty too, so one test of [systemText] covers both [if]s. *)
Definition convertContentsToKimiMessages (contents : list Content)
    (systemInstruction : option SystemInstruction) : list ChatMessage :=
  let messages :=
    match systemInstruction with
    | Some si =>
        match JS.truthy (Some (systemText si)) with
        | Some t => [MkMessage system t]
        | None => []
        end
    | None => []
    end in
  foldl pushTurn messages contents.

(** The instance: its three private fields. *)
Record Instance : Type := MkInstance {
  apiKey : string;
  baseUrl : string;
  httpOptions : option (list (string * string))
}.

Definition constructor (apiKey : option string)
    (httpOptions : option (list (string * string))) : Eff Instance :=
  match JS.truthy apiKey with
  | None => mthrow "KIMI_API_KEY is required"
  | Some key => mret (MkInstance key KIMI_API_BASE_URL httpOptions)
  end.

(** The object literal [modelMap] of [mapModelToKimi]. *)
Definition modelMap : gmap string string :=
  list_to_map
    [ ("kimi-1", "moonshot-v1-8k");
      ("kimi-2", "moonshot-v1-32k");
      ("kimi-3", "moonshot-v1-128k");
      ("kimi-pro", "moonshot-v1-8k");
      ("kimi-plus", "moonshot-v1-32k");
      ("kimi-max", "moonshot-v1-128k");
      ("moonshot-v1-8k", "moonshot-v1-8k");
      ("moonshot-v1-32k", "moonshot-v1-32k");
      ("moonshot-v1-128k", "moonshot-v1-128k") ].

(** [modelMap] is an object literal, so reading a key that the table does
    not have falls through to [Object.prototype]. *)
Definition Object_prototype_keys : list string :=
  [ "constructor"; "__proto__"; "hasOwnProperty"; "isPrototypeOf";
    "propertyIsEnumerable"; "toLocaleString"; "toString"; "valueOf";
    "__defineGetter__"; "__defineSetter__"; "__lookupGetter__";
    "__lookupSetter__" ].

(** What [mapModelToKimi] returns: a model name, or, for a key that only
    [Object.prototype] has, that inherited member (not a string). *)
Inductive Mapped : Type :=
| ModelName (name : string)
| PrototypeMember (key : string).

(** [modelMap[key]], when it is truthy. *)
Definition readModelMap (key : string) : option Mapped :=
  match modelMap !! key with
  | Some name => ModelName <$> JS.truthy (Some name)
  | None =>
      if bool_decide (key ∈ Object_prototype_keys)
      then Some (PrototypeMember key) else None
  end.

Definition mapModelToKimi (model : string) : Mapped :=
  match readModelMap (JS.toLowerCase model) with
  | Some known => known
  | None =>
      let lowerModel := JS.toLowerCase model in
      if JS.startsWith lowerModel "kimi-" || JS.startsWith lowerModel "moonshot-"
      then ModelName model
      else ModelName "moonshot-v1-32k"
  end.

(** [modelVersion: kimiModel] of the final response, when it is a
    string. *)
Definition mappedName (m : Mapped) : option string :=
  match m with
  | ModelName name => Some name
  | PrototypeMember _ => None
  end.

(** *** [generateContentStream] *)

(** The variables of the reading loop, and the responses yielded so
    far. *)
Record StreamState : Type := MkState {
  accumulatedContent : string;
  usage : option UsageMetadata;
  yields : list GenerateContentResponse
}.

Definition initialState : StreamState := MkState "" None [].

Definition incremental (accumulated : string) (choice : KimiChoice)
    (chunk : KimiStreamChunk) : GenerateContentResponse :=
  {| candidates :=
       [ {| content := turn "model" [textPart accumulated];
            finishReason := finish_reason choice;
            index := None |} ];
     usageMetadata := None;
     modelVersion := Some (model chunk) |}.

(** [choice?.delta?.content] and [choice?.finish_reason]. *)
Definition contentOf (choice : option KimiChoice) : option string :=
  match choice with
  | Some c => match delta c with
              | Some d => deltaContent d
              | None => None
              end
  | None => None
  end.

Definition finishOf (choice : option KimiChoice) : option string :=
  match choice with
  | Some c => finish_reason c
  | None => None
  end.

(** The body of the [try] after [JSON.parse] returned [chunk]
    (lines 313-339). *)
Definition processChunk (st : StreamState) (chunk : KimiStreamChunk)
    : StreamState :=
  let choice := choices chunk !! 0%nat in
  let st1 :=
    match choice, JS.truthy (contentOf choice) with
    | Some c, Some fragment =>
        let accumulated := accumulatedContent st +:+ fragment in
        {| accumulatedContent := accumulated;
           usage := usage st;
           yields := yields st ++ [incremental accumulated c chunk] |}
    | _, _ => st
    end in
  match JS.truthy (finishOf choice) with
  | Some _ =>
      let estimate :=
        Math_floor (quotient (Z.of_nat (String.length (accumulatedContent st1))) 4) in
      {| accumulatedContent := accumulatedContent st1;
         usage := Some (MkUsage 0 estimate estimate);
         yields := yields st1 |}
  | None => st1
  end.

Section Stream.

(** [JSON.parse(data)] read at the type [KimiStreamChunk]. [None] is
    every way in which the [try] fails before it changes anything:
    [JSON.parse] throws, or its value has no array [choices], so that
    reading [chunk.choices[0]] throws. *)
Variable JSON_parse : string -> option KimiStreamChunk.

(** One iteration of [for (const line of lines)] (lines 303-344). *)
Definition processLine (st : StreamState) (line : string) : StreamState :=
  if decide (JS.trim line = "") then st
  else if JS.startsWith line "data: " then
    let data := JS.slice line 6 in
    if decide (data = "[DONE]") then st
    else match JSON_parse data with
         | Some chunk => processChunk st chunk
         | None => st
         end
  else st.

(** The [while (true)] loop (lines 295-345). *)
Definition readLoop (pieces : list string) : string * StreamState :=
  readLines processLine pieces "" initialState.

(** The final response (lines 347-362). *)
Definition finalResponses (kimiModel : Mapped) (st : StreamState)
    : list GenerateContentResponse :=
  match JS.truthy (Some (accumulatedContent st)) with
  | Some accumulated =>
      [ {| candidates :=
             [ {| content := turn "model" [textPart accumulated];
                  finishReason := Some "STOP";
                  index := None |} ];
           usageMetadata := usage st;
           modelVersion := mappedName kimiModel |} ]
  | None => []
  end.

Definition generateContentStream (request : GenerateContentParameters)
    (response : HttpResponse) : Run GenerateContentResponse :=
  let kimiModel := mapModelToKimi (reqModel request) in
  if negb (ok response) then
    MkRun [] (Throw ("Kimi API error: " +:+ pretty (status response) +:+ " "
                     +:+ statusText response +:+ " - " +:+ errorText response))
  else
    match body response with
    | None => MkRun [] (Throw "No response body")
    | Some pieces =>
        let st := snd (readLoop pieces) in
        MkRun (yields st ++ finalResponses kimiModel st) (Normal tt)
    end.

(** The request that [generateContentStream] sends first
    (lines 264-275), and the whole call: [response] above is what
    [fetch] resolves to. *)
Definition streamRequest (self : Instance) : HttpRequest :=
  {| url := baseUrl self +:+ "/chat/completions";
     headers := [ ("Content-Type", "application/json");
                  ("Authorization", "Bearer " +:+ apiKey self) ]
                ++ default [] (httpOptions self) |}.

Definition sendAndStream (server : HttpRequest -> HttpResponse)
    (self : Instance) (request : GenerateContentParameters)
    : Eff (Run GenerateContentResponse) :=
  response ← fetch server (streamRequest self);
  mret (generateContentStream request response).

End Stream.

(** *** [countTokens] and [embedContent] *)

Definition countTokens (request : CountTokensParameters)
    : Completion CountTokensResponse :=
  let contents := default [] (ctContents request) in
  let totalChars :=
    foldl (fun total c =>
             let t := JS.join "" (map (fun part => JS.orString (text part) "")
                                      (default [] (parts c))) in
             total + Z.of_nat (String.length t))
          0 contents in
  Normal (MkCount (Math_ceil (quotient totalChars 4))).

Definition embedContent : Completion unit :=
  Throw "Embeddings are not supported by Kimi API".

(** *** [convertKimiResponseToGemini], [makeRequest] and
        [generateContent] *)

Record KimiUsage : Type := MkKimiUsage {
  prompt_tokens : Z;
  completion_tokens : Z;
  total_tokens : Z
}.

Record KimiResponseChoice : Type := MkResponseChoice {
  choiceMessage : ChatMessage;
  choiceFinishReason : string
}.

Record KimiChatCompletionResponse : Type := MkKimiResponse {
  responseModel : string;
  responseChoices : list KimiResponseChoice;
  responseUsage : KimiUsage
}.

(** The parameter [model] is not used. *)
Definition convertKimiResponseToGemini
    (kimiResponse : KimiChatCompletionResponse) (_model : string)
    : Completion GenerateContentResponse :=
  match responseChoices kimiResponse !! 0%nat with
  | None => Throw "No choice in Kimi API response"
  | Some choice =>
      Normal
        {| candidates :=
             [ {| content :=
                    turn "model"
                      [textPart (JS.orString
                                   (Some (msgContent (choiceMessage choice))) "")];
                  finishReason := Some (choiceFinishReason choice);
                  index := None |} ];
           usageMetadata :=
             Some (MkUsage (prompt_tokens (responseUsage kimiResponse))
                           (completion_tokens (responseUsage kimiResponse))
                           (total_tokens (responseUsage kimiResponse)));
           modelVersion := Some (responseModel kimiResponse) |}
  end.

(** The body of the request, [requestBody] of [generateContent] and of
    [generateContentStream], without the sampling options that are
    copied from [config]. *)
Record KimiChatCompletionRequest : Type := MkKimiRequest {
  requestModel : Mapped;
  requestMessages : list ChatMessage;
  requestStream : bool
}.

Definition requestBody (request : GenerateContentParameters) (stream : bool)
    : KimiChatCompletionRequest :=
  {| requestModel := mapModelToKimi (reqModel request);
     requestMessages :=
       convertContentsToKimiMessages (reqContents request)
         (reqSystemInstruction request);
     requestStream := stream |}.

Section Requests.

(** [response.json()] read at the type [KimiChatCompletionResponse]; it
    rejects when the body is no JSON text. *)
Variable json : HttpResponse -> Completion KimiChatCompletionResponse.

(** [optionHeaders] are the [headers] of [options]; they come last in
    the spread. *)
Definition makeRequest (server : HttpRequest -> HttpResponse)
    (self : Instance) (endpoint : string)
    (optionHeaders : list (string * string))
    : Eff KimiChatCompletionResponse :=
  response ← fetch server
    {| url := baseUrl self +:+ endpoint;
       headers := [ ("Content-Type", "application/json");
                    ("Authorization", "Bearer " +:+ apiKey self) ]
                  ++ default [] (httpOptions self) ++ optionHeaders |};
  if negb (ok response) then
    mthrow ("Kimi API error: " +:+ pretty (status response) +:+ " "
            +:+ statusText response +:+ " - " +:+ errorText response)
  else lift (json response).

Definition generateContent (server : HttpRequest -> HttpResponse)
    (self : Instance) (request : GenerateContentParameters)
    : Eff GenerateContentResponse :=
  response ← makeRequest server self "/chat/completions" [];
  lift (convertKimiResponseToGemini response (reqModel request)).

End Requests.

End KimiClient.

(** ** packages/core/src/core/hunyuanContentGenerator.ts *)

Module HunyuanContentGenerator.

Definition HUNYUAN_BASE_URL : string :=
  "https://api.hunyuan.cloud.tencent.com/v1".

(** The options object given to [new OpenAI(...)]. *)
Record ClientOptions : Type := MkOptions {
  optApiKey : option string;
  optBaseURL : string
}.

Section Client.

(** The client class of the [openai] package, which is not part of
    this repository: its instances, and what its constructor does
    with the options. *)
Variable OpenAI : Type.
Variable newOpenAI : ClientOptions -> Completion OpenAI.

Record Instance : Type := MkInstance { client : OpenAI }.

Definition constructor (apiKey : option string) (baseURL : option string)
    : Eff Instance :=
  c ← lift (newOpenAI (MkOptions apiKey (JS.orString baseURL HUNYUAN_BASE_URL)));
  mret (MkInstance c).

End Client.

(** The chunks that the client's stream delivers. *)
Record ChunkDelta : Type := MkDelta { deltaContent : option string }.

Record ChunkChoice : Type := MkChoice {
  delta : option ChunkDelta;
  finish_reason : option string
}.

Record CompletionUsage : Type := MkCompletionUsage {
  prompt_tokens : Z;
  completion_tokens : Z;
  total_tokens : Z
}.

Record ChatCompletionChunk : Type := MkChunk {
  choices : list ChunkChoice;
  chunkUsage : option CompletionUsage
}.

Definition createGenerateContentResponse (t : string)
    (usage : UsageMetadata) (version : string) : GenerateContentResponse :=
  {| candidates :=
       [ {| content := turn "model" [textPart t];
            finishReason := None;
            index := Some 0 |} ];
     usageMetadata := Some usage;
     modelVersion := Some version |}.

(** The variables of [streamGenerator], and the responses yielded so
    far. *)
Record StreamState : Type := MkState {
  accumulatedText : string;
  totalTokens' : Z;
  promptTokens : Z;
  candidatesTokenCount' : Z;
  yields : list GenerateContentResponse
}.

Definition initialState : StreamState := MkState "" 0 0 0 [].

(** [chunk.choices[0]?.delta] followed by [delta?.content]. *)
Definition contentOf (chunk : ChatCompletionChunk) : option string :=
  match choices chunk !! 0%nat with
  | Some c => match delta c with
              | Some d => deltaContent d
              | None => None
              end
  | None => None
  end.

(** One iteration of [for await (const chunk of stream)]
    (lines 83-107). *)
Definition step (version : string) (st : StreamState)
    (chunk : ChatCompletionChunk) : StreamState :=
  let '(accumulated, candidatesCount) :=
    match JS.truthy (contentOf chunk) with
    | Some fragment =>
        (accumulatedText st +:+ fragment, candidatesTokenCount' st + 1)
    | None => (accumulatedText st, candidatesTokenCount' st)
    end in
  let '(total, prompt) :=
    match chunkUsage chunk with
    | Some u => (JS.orNumber (total_tokens u) 0, JS.orNumber (prompt_tokens u) 0)
    | None => (totalTokens' st, promptTokens st)
    end in
  let usage :=
    {| promptTokenCount := prompt;
       candidatesTokenCount := candidatesCount;
       totalTokenCount := JS.orNumber total (prompt + candidatesCount) |} in
  {| accumulatedText := accumulated;
     totalTokens' := total;
     promptTokens := prompt;
     candidatesTokenCount' := candidatesCount;
     yields := yields st ++ [createGenerateContentResponse accumulated usage version] |}.

(** [streamGenerator]; [created] is what awaiting
    [client.chat.completions.create] gave: the chunks of the stream, or
    a rejection. *)
Definition streamGenerator (request : GenerateContentParameters)
    (created : Completion (list ChatCompletionChunk))
    : Run GenerateContentResponse :=
  match created with
  | Throw e => MkRun [] (Throw e)
  | Normal stream =>
      MkRun (yields (foldl (step (reqModel request)) initialState stream))
            (Normal tt)
  end.

Definition countTokens (_request : CountTokensParameters)
    : Completion CountTokensResponse :=
  Normal (MkCount 0).

Definition embedContent : Completion unit :=
  Throw "Embedding is not supported for Hunyuan models".

(** The text of one turn (lines 181-184 and 193-196); [None] is the
    [undefined] that [content.parts?.] gives for a turn without
    [parts]. *)
Definition turnText (c : Content) : option string :=
  match parts c with
  | Some ps =>
      Some (JS.join JS.LINE_FEED
              (omap (fun p => JS.truthy (text p)) ps))
  | None => None
  end.

Definition pushTurn (messages : list ChatMessage) (c : Content)
    : list ChatMessage :=
  if decide (role c = Some "user") then
    match JS.truthy (turnText c) with
    | Some textParts => messages ++ [MkMessage user textParts]
    | None => messages
    end
  else if decide (role c = Some "model") then
    match JS.truthy (turnText c) with
    | Some textParts => messages ++ [MkMessage assistant textParts]
    | None => messages
    end
  else messages.

(** [convertToOpenAIMessages] from line 177 on, after [contents] has
    been brought to the form of a [Content[]]. *)
Definition convertToOpenAIMessages (contentsArray : list Content)
    : list ChatMessage :=
  foldl pushTurn [] contentsArray.

(** *** [convertToOpenAIMessages] from its first line, and
        [generateContent] *)

(** [ContentListUnion]: a [Content], a [Content[]], a [PartUnion] (a
    [Part] or a string) or a [PartUnion[]]. *)
Inductive ContentListUnion : Type :=
| CLString (s : string)
| CLContents (contents : list Content)
| CLPartUnions (items : list (string + Part))
| CLContent (c : Content)
| CLPart (p : Part).

(** A [Content] that is read as a [Part]: it has none of the fields of
    a part. *)
Definition contentAsPart (_ : Content) : Part :=
  {| text := None; inlineData := None; functionCall := None;
     functionResponse := None |}.

(** The first bare string of a [PartUnion[]], if there is one. *)
Definition firstString (items : list (string + Part)) : option string :=
  head (omap (fun item => match item with inl s => Some s | inr _ => None end)
             items).

Definition partsOf (items : list (string + Part)) : list Part :=
  omap (fun item => match item with inl _ => None | inr p => Some p end) items.

(** Lines 132-175: [contentsArray]. An array is taken for a [Content[]]
    when its first element has a [role]. The parts of the array that is
    wrapped in a user turn go through the [filter] of line 182, whose
    callback evaluates ['text' in p]: on a string this throws the
    [TypeError] of the engine whose message V8 words as below, before
    any message is pushed. *)
Definition contentsArray (contents : ContentListUnion)
    : Completion (list Content) :=
  match contents with
  | CLString s => Normal [turn "user" [textPart s]]
  | CLContents cs =>
      match cs with
      | first :: _ =>
          if decide (is_Some (role first)) then Normal cs
          else Normal [turn "user" (map contentAsPart cs)]
      | [] => Normal [turn "user" []]
      end
  | CLPartUnions items =>
      match firstString items with
      | Some s =>
          Throw ("Cannot use 'in' operator to search for 'text' in " +:+ s)
      | None => Normal [turn "user" (partsOf items)]
      end
  | CLContent c =>
      if decide (is_Some (role c)) then Normal [c]
      else Normal [turn "user" [contentAsPart c]]
  | CLPart p => Normal [turn "user" [p]]
  end.

(** The whole of [convertToOpenAIMessages] (lines 128-208). *)
Definition convertContentListUnion (contents : ContentListUnion)
    : Completion (list ChatMessage) :=
  match contentsArray contents with
  | Normal cs => Normal (convertToOpenAIMessages cs)
  | Throw e => Throw e
  end.

(** A complete response of the client. *)
Record ChatCompletionMessage : Type := MkCompletionMessage {
  messageContent : option string
}.

Record ChatCompletionChoice : Type := MkCompletionChoice {
  message : option ChatCompletionMessage
}.

Record ChatCompletion : Type := MkCompletion {
  completionChoices : list ChatCompletionChoice;
  completionUsage : option CompletionUsage
}.

Definition convertFromOpenAIResponse (response : ChatCompletion)
    (modelVersion : string) : GenerateContentResponse :=
  let choice := completionChoices response !! 0%nat in
  let content :=
    JS.orString
      (match choice with
       | Some c => match message c with
                   | Some m => messageContent m
                   | None => None
                   end
       | None => None
       end) "" in
  let usageMetadata :=
    {| promptTokenCount :=
         JS.orNumber (from_option prompt_tokens 0 (completionUsage response)) 0;
       candidatesTokenCount :=
         JS.orNumber (from_option completion_tokens 0 (completionUsage response)) 0;
       totalTokenCount :=
         JS.orNumber (from_option total_tokens 0 (completionUsage response)) 0 |} in
  createGenerateContentResponse content usageMetadata modelVersion.

(** [generateContent]; [create] is [client.chat.completions.create]
    without streaming, as a function of the model and the messages of
    the request. *)
Definition generateContent
    (create : string -> list ChatMessage -> Completion ChatCompletion)
    (model : string) (contents : ContentListUnion)
    : Completion GenerateContentResponse :=
  match convertContentListUnion contents with
  | Throw e => Throw e
  | Normal messages =>
      match create model messages with
      | Throw e => Throw e
      | Normal response => Normal (convertFromOpenAIResponse response model)
      end
  end.

End HunyuanContentGenerator.

(** The class that the test of the Hunyuan adapter puts in the place of
    the [openai] client: its constructor takes any options. *)
Module MockOpenAI.
Definition MockOpenAI : Type := unit.
Definition new (_ : HunyuanContentGenerator.ClientOptions)
    : Completion MockOpenAI := Normal tt.
End MockOpenAI.

(** ** The DeepSeek adapter that configures a proxy
       (class [DeepSeekContentGenerator] with [setGlobalDispatcher]) *)

Module DeepSeekProxy.

Definition DEEPSEEK_API_BASE_URL : string := "https://api.deepseek.com".

Record Usage : Type := MkDsUsage {
  prompt_tokens : Z;
  completion_tokens : Z;
  total_tokens : Z
}.

(** The non-streaming response. *)
Record ToolCall : Type := MkToolCall {
  callName : string;
  callArguments : string
}.

Record Message : Type := MkDsMessage {
  messageContent : option string;
  messageToolCalls : option (list ToolCall)
}.

Record Choice : Type := MkDsChoice {
  message : Message;
  finish_reason : string
}.

Record DeepSeekChatCompletionResponse : Type := MkDsResponse {
  choices : list Choice;
  usage : Usage
}.

(** The chunks of a stream. *)
Record ToolCallFunction : Type := MkToolCallFunction {
  fnName : option string;
  fnArguments : option string
}.

Record ToolCallDelta : Type := MkToolCallDelta {
  toolIndex : Z;
  toolFunction : option ToolCallFunction
}.

Record ChunkDelta : Type := MkDsDelta {
  deltaContent : option string;
  deltaToolCalls : option (list ToolCallDelta)
}.

Record ChunkChoice : Type := MkDsChunkChoice {
  delta : ChunkDelta;
  chunk_finish_reason : option string
}.

Record DeepSeekStreamChunk : Type := MkDsChunk {
  chunkChoices : list ChunkChoice;
  chunkUsage : option Usage
}.

(** What the two converters return: [{ response: { candidates },
    usageMetadata, modelVersion }]. *)
Record Converted : Type := MkConverted {
  responseCandidates : list Candidate;
  convertedUsage : option UsageMetadata;
  convertedModelVersion : string
}.

Definition usageOf (u : Usage) : UsageMetadata :=
  MkUsage (prompt_tokens u) (completion_tokens u) (total_tokens u).

(** The finish reason of a complete response (lines 235-238) and of a
    chunk (lines 307-310). *)
Definition responseFinishReason (finish_reason : string) : FinishReason :=
  if decide (finish_reason = "stop") then STOP else OTHER.

Definition chunkFinishReason (finish_reason : option string)
    : option FinishReason :=
  if decide (finish_reason = Some "stop") then Some STOP else None.

Section Converters.

(** [JSON.parse] on the arguments of a tool call; [None] when it
    throws. *)
Variable JSON_parse : string -> option Json.

Definition toolCallPart (call : ToolCall) : Part :=
  match JSON_parse (callArguments call) with
  | Some args => functionCallPart (callName call) args
  | None =>
      textPart ("[Tool Call: " +:+ callName call +:+ "("
                +:+ callArguments call +:+ ")]")
  end.

Definition convertDeepSeekResponseToGemini
    (deepseekResponse : DeepSeekChatCompletionResponse) (model : string)
    : Completion Converted :=
  match choices deepseekResponse !! 0%nat with
  | None => Throw "No choice in DeepSeek response"
  | Some choice =>
      let textParts :=
        match JS.truthy (messageContent (message choice)) with
        | Some t => [textPart t]
        | None => []
        end in
      let callParts :=
        map toolCallPart (default [] (messageToolCalls (message choice))) in
      Normal
        {| responseCandidates :=
             [ {| content := turn "model" (textParts ++ callParts);
                  finishReason :=
                    Some (FinishReason_value
                            (responseFinishReason (finish_reason choice)));
                  index := None |} ];
           convertedUsage := Some (usageOf (usage deepseekResponse));
           convertedModelVersion := model |}
  end.

(** The part that one tool call of a chunk gives, if any
    (lines 271-287). *)
Definition toolCallDeltaPart (call : ToolCallDelta) : option Part :=
  match toolFunction call with
  | Some fn =>
      let args :=
        match JS.truthy (fnArguments fn) with
        | Some a => JSON_parse a
        | None => Some (JObject [])
        end in
      match args with
      | Some a => Some (functionCallPart (JS.orString (fnName fn) "") a)
      | None => None
      end
  | None => None
  end.

Definition convertDeepSeekStreamChunkToGemini
    (chunk : DeepSeekStreamChunk) (model : string) : Converted :=
  match chunkChoices chunk !! 0%nat with
  | None =>
      {| responseCandidates := [];
         convertedUsage := None;
         convertedModelVersion := model |}
  | Some choice =>
      let textParts :=
        match JS.truthy (deltaContent (delta choice)) with
        | Some t => [textPart t]
        | None => []
        end in
      let callParts :=
        omap toolCallDeltaPart (default [] (deltaToolCalls (delta choice))) in
      {| responseCandidates :=
           [ {| content := turn "model" (textParts ++ callParts);
                finishReason :=
                  FinishReason_value <$>
                    chunkFinishReason (chunk_finish_reason choice);
                index := None |} ];
         convertedUsage := usageOf <$> chunkUsage chunk;
         convertedModelVersion := model |}
  end.

(** [JSON.parse(jsonStr)] read at the type [DeepSeekStreamChunk]. [None]
    is every way in which the [try] fails before it yields: [JSON.parse]
    throws, or its value lacks what the converter reads without a guard
    ([chunk.choices], [choice.delta]). *)
Variable JSON_parse_chunk : string -> option DeepSeekStreamChunk.

(** [try { yield convert(JSON.parse(jsonStr)) } catch (e) {}]: the
    responses yielded after it, given those yielded before. *)
Definition tryYield (model : string) (yields : list Converted)
    (jsonStr : string) : list Converted :=
  match JSON_parse_chunk jsonStr with
  | Some chunk => yields ++ [convertDeepSeekStreamChunkToGemini chunk model]
  | None => yields
  end.

(** One iteration of [for (const line of lines)] (lines 485-498). *)
Definition processLine (model : string) (yields : list Converted)
    (line : string) : list Converted :=
  let trimmed := JS.trim line in
  if decide (trimmed = "") then yields
  else if decide (trimmed = "data: [DONE]") then yields
  else if JS.startsWith trimmed "data: "
  then tryYield model yields (JS.slice trimmed 6)
  else yields.

(** The [while (true)] loop (lines 477-499). *)
Definition readLoop (model : string) (pieces : list string)
    : string * list Converted :=
  readLines (processLine model) pieces "" [].

(** "Process remaining buffer" (lines 501-512). *)
Definition processRemaining (model : string) (buffer : string)
    (yields : list Converted) : list Converted :=
  let trimmed := JS.trim buffer in
  if decide (trimmed = "") then yields
  else if JS.startsWith trimmed "data: " then
    let jsonStr := JS.slice trimmed 6 in
    if decide (jsonStr = "[DONE]") then yields
    else tryYield model yields jsonStr
  else yields.

Definition generateContentStream (request : GenerateContentParameters)
    (response : HttpResponse) : Run Converted :=
  if negb (ok response) then
    MkRun [] (Throw ("DeepSeek API error: " +:+ pretty (status response)
                     +:+ " " +:+ statusText response +:+ " - "
                     +:+ errorText response))
  else
    match body response with
    | None => MkRun [] (Throw "No response body from DeepSeek API")
    | Some pieces =>
        let model := reqModel request in
        let '(buffer, yields) := readLoop model pieces in
        MkRun (processRemaining model buffer yields) (Normal tt)
    end.

End Converters.

Definition countTokens (request : CountTokensParameters)
    : Completion CountTokensResponse :=
  let contents := default [] (ctContents request) in
  let totalChars :=
    foldl (fun total c =>
             match parts c with
             | Some ps =>
                 foldl (fun total' part =>
                          match JS.truthy (text part) with
                          | Some t => total' + Z.of_nat (String.length t)
                          | None => total'
                          end) total ps
             | None => total
             end)
          0 contents in
  Normal (MkCount (Math_ceil (quotient totalChars 4))).

Definition embedContent : Completion unit :=
  Throw "Embedding is not supported by DeepSeek API".

Record Instance : Type := MkDsInstance {
  apiKey : option string;
  baseUrl : string;
  proxy : option string
}.

Section Constructor.

(** [new ProxyAgent(uri)] of undici, which is not part of this
    repository: the agent, or the error for a [uri] it rejects. *)
Variable newProxyAgent : string -> Completion Dispatcher.

Definition constructor (apiKey baseUrl proxy : option string)
    : Eff Instance :=
  let this := MkDsInstance apiKey (JS.orString baseUrl DEEPSEEK_API_BASE_URL) proxy in
  match JS.truthy proxy with
  | Some uri =>
      proxyAgent ← lift (newProxyAgent uri);
      setGlobalDispatcher proxyAgent;;
      mret this
  | None => mret this
  end.

End Constructor.

(** *** [convertContentsToDeepSeekMessages] *)

Section Messages.

(** [JSON.stringify] on the arguments of a function call and on a
    function response. *)
Variable JSON_stringify : Json -> string.
Variable JSON_stringify_functionResponse : FunctionResponse -> string.

(** What the callbacks of [map] return for a part of a user turn
    (lines 148-156) and of a model turn (lines 164-172), when it
    survives [filter(Boolean)]. *)
Definition userPartText (part : Part) : option string :=
  match text part with
  | Some t => JS.truthy (Some t)
  | None =>
      match functionResponse part with
      | Some response =>
          Some ("[Function Response: "
                +:+ JSON_stringify_functionResponse response +:+ "]")
      | None => None
      end
  end.

Definition modelPartText (part : Part) : option string :=
  match text part with
  | Some t => JS.truthy (Some t)
  | None =>
      match functionCall part with
      | Some call =>
          Some ("[Function Call: " +:+ fcName call +:+ "("
                +:+ JSON_stringify (fcArgs call) +:+ ")]")
      | None => None
      end
  end.

Definition pushTurn (messages : list ChatMessage) (c : Content)
    : list ChatMessage :=
  if decide (role c = Some "user") then
    match JS.truthy (JS.join JS.LINE_FEED <$> (omap userPartText <$> parts c)) with
    | Some textParts => messages ++ [MkMessage user textParts]
    | None => messages
    end
  else if decide (role c = Some "model") then
    match JS.truthy (JS.join JS.LINE_FEED <$> (omap modelPartText <$> parts c)) with
    | Some textParts => messages ++ [MkMessage assistant textParts]
    | None => messages
    end
  else messages.

(** The system message (lines 114-142). An instruction that is a single
    part has no [parts], so no branch takes it. *)
Definition systemMessages (systemInstruction : option SystemInstruction)
    : list ChatMessage :=
  match systemInstruction with
  | Some (SIString s) =>
      match JS.truthy (Some s) with
      | Some t => [MkMessage system t]
      | None => []
      end
  | Some (SIArray items) =>
      let systemParts :=
        JS.join JS.LINE_FEED
          (omap (fun item => match item with
                             | inl s => JS.truthy (Some s)
                             | inr p => JS.truthy (text p)
                             end) items) in
      match JS.truthy (Some systemParts) with
      | Some t => [MkMessage system t]
      | None => []
      end
  | Some (SIPart _) => []
  | Some (SIContent c) =>
      match parts c with
      | Some ps =>
          let systemText :=
            JS.join JS.LINE_FEED (omap (fun p => JS.truthy (text p)) ps) in
          match JS.truthy (Some systemText) with
          | Some t => [MkMessage system t]
          | None => []
          end
      | None => []
      end
  | None => []
  end.

Definition convertContentsToDeepSeekMessages (contents : list Content)
    (systemInstruction : option SystemInstruction) : list ChatMessage :=
  foldl pushTurn (systemMessages systemInstruction) contents.

End Messages.

(** *** The tools of a request (lines 357-383) *)

Record FunctionDeclaration : Type := MkFunctionDeclaration {
  fdName : option string;
  fdDescription : option string;
  fdParameters : option Json
}.

Record Tool : Type := MkTool {
  functionDeclarations : option (list FunctionDeclaration)
}.

(** [config.tools] and [config.toolConfig?.functionCallingConfig?.mode];
    [toolConfig] is [None] when the request has no [toolConfig], and
    holds the mode, if there is one, otherwise. *)
Record ToolSettings : Type := MkToolSettings {
  tools : option (list Tool);
  toolConfig : option (option string)
}.

Record DeepSeekTool : Type := MkDeepSeekTool {
  toolName : string;
  toolDescription : option string;
  toolParameters : Json
}.

Inductive ToolChoice : Type := auto | none.

Record DeepSeekChatCompletionRequest : Type := MkDsRequest {
  requestModel : string;
  requestMessages : list ChatMessage;
  requestStream : bool;
  requestTools : option (list DeepSeekTool);
  tool_choice : option ToolChoice
}.

(** The callback of [tools.map]. Reading [functionDeclarations[0]] of a
    tool without [functionDeclarations] throws the [TypeError] of the
    engine, worded as V8 does. *)
Definition convertTool (tool : Tool) : Completion DeepSeekTool :=
  match functionDeclarations tool with
  | None => Throw "Cannot read properties of undefined (reading '0')"
  | Some declarations =>
      let first := declarations !! 0%nat in
      Normal {| toolName := JS.orString (first ≫= fdName) "";
                toolDescription := first ≫= fdDescription;
                toolParameters := default (JObject []) (first ≫= fdParameters) |}
  end.

(** [tools.map(callback)]: the first exception ends it. *)
Fixpoint convertTools (tools : list Tool) : Completion (list DeepSeekTool) :=
  match tools with
  | [] => Normal []
  | tool :: rest =>
      match convertTool tool with
      | Throw e => Throw e
      | Normal converted =>
          match convertTools rest with
          | Throw e => Throw e
          | Normal others => Normal (converted :: others)
          end
      end
  end.

Definition toolChoiceOf (mode : option string) : option ToolChoice :=
  if decide (mode = Some "NONE") then Some none
  else if decide (mode = Some "AUTO") then Some auto
  else if decide (mode = Some "ANY") then Some auto
  else None.

Section Requests.

Variable JSON_stringify : Json -> string.
Variable JSON_stringify_functionResponse : FunctionResponse -> string.

(** The object [deepseekRequest] that both [generateContent] and
    [generateContentStream] build, without the sampling options that
    are copied from [config]. *)
Definition deepseekRequest (request : GenerateContentParameters)
    (config : ToolSettings) (stream : bool)
    : Completion DeepSeekChatCompletionRequest :=
  let messages :=
    convertContentsToDeepSeekMessages JSON_stringify
      JSON_stringify_functionResponse (reqContents request)
      (reqSystemInstruction request) in
  match tools config with
  | Some (tool :: rest) =>
      match convertTools (tool :: rest) with
      | Throw e => Throw e
      | Normal converted =>
          Normal {| requestModel := reqModel request;
                    requestMessages := messages;
                    requestStream := stream;
                    requestTools := Some converted;
                    tool_choice :=
                      match toolConfig config with
                      | Some mode => toolChoiceOf mode
                      | None => None
                      end |}
      end
  | _ =>
      Normal {| requestModel := reqModel request;
                requestMessages := messages;
                requestStream := stream;
                requestTools := None;
                tool_choice := None |}
  end.

(** [JSON.parse] on the arguments of a tool call, and
    [response.json()] read at the type of the response. *)
Variable JSON_parse : string -> option Json.
Variable json : HttpResponse -> Completion DeepSeekChatCompletionResponse.

(** [generateContent] (lines 339-404). The key of an instance made
    without one is printed as [undefined]. *)
Definition generateContent (server : HttpRequest -> HttpResponse)
    (self : Instance) (request : GenerateContentParameters)
    (config : ToolSettings) : Eff Converted :=
  _ ← lift (deepseekRequest request config false);
  response ← fetch server
    {| url := baseUrl self +:+ "/v1/chat/completions";
       headers := [ ("Content-Type", "application/json");
                    ("Authorization",
                     "Bearer " +:+ default "undefined" (apiKey self)) ] |};
  if negb (ok response) then
    mthrow ("DeepSeek API error: " +:+ pretty (status response) +:+ " "
            +:+ statusText response +:+ " - " +:+ errorText response)
  else
    deepseekResponse ← lift (json response);
    lift (convertDeepSeekResponseToGemini JSON_parse deepseekResponse
            (reqModel request)).

End Requests.

End DeepSeekProxy.

(** ** The DeepSeek adapter with the finish-reason table
       (class [DeepSeekContentGenerator] with [convertFinishReason]) *)

Module DeepSeekTable.

Record Instance : Type := MkInstance {
  apiKey : option string;
  baseUrl : string;
  defaultModel : string
}.

(** The defaults of the parameters apply to [undefined] only. *)
Definition constructor (apiKey baseUrl defaultModel : option string)
    : Eff Instance :=
  mret (MkInstance apiKey
          (default "https://api.deepseek.com" baseUrl)
          (default "deepseek-chat" defaultModel)).

Definition convertFinishReason (reason : string) : FinishReason :=
  if decide (reason = "stop") then STOP
  else if decide (reason = "length") then MAX_TOKENS
  else if decide (reason = "content_filter") then SAFETY
  else OTHER.

Definition countTokens (request : CountTokensParameters)
    : Completion CountTokensResponse :=
  let contents := default [] (ctContents request) in
  Normal (MkCount (
    foldl (fun total c =>
             foldl (fun total' part =>
                      match JS.truthy (text part) with
                      | Some t =>
                          total' + Math_ceil (quotient (Z.of_nat (String.length t)) 4)
                      | None => total'
                      end) total (default [] (parts c)))
          0 contents)).

(** *** [convertContentToMessages] *)

(** The content of a message: a string, or an array of text and image
    items. *)
Inductive ContentItem : Type :=
| TextItem (itemText : string)
| ImageItem (url : string).

Inductive MessageContent : Type :=
| TextContent (s : string)
| ArrayContent (items : list ContentItem).

Record DeepSeekMessage : Type := MkDsMessage {
  dsRole : ChatRole;
  dsContent : MessageContent
}.

Section Messages.

(** [JSON.stringify({ name, response })] on the name and the response of
    a function response. *)
Variable JSON_stringify_response : string -> Json -> string.

(** What the loop over the parts of a user turn pushes on [textParts]
    and on [imageParts] (lines 127-148). *)
Definition userText (part : Part) : option string :=
  match JS.truthy (text part) with
  | Some t => Some t
  | None =>
      match inlineData part with
      | Some _ => None
      | None =>
          match functionResponse part with
          | Some r => Some (JSON_stringify_response (frName r) (frResponse r))
          | None => None
          end
      end
  end.

Definition userImage (part : Part) : option ContentItem :=
  match JS.truthy (text part) with
  | Some _ => None
  | None =>
      match inlineData part with
      | Some blob =>
          Some (ImageItem ("data:" +:+ JS.orString (mimeType blob) "image/png"
                           +:+ ";base64," +:+ data blob))
      | None => None
      end
  end.

Definition pushTurn (messages : list DeepSeekMessage) (c : Content)
    : list DeepSeekMessage :=
  if decide (role c = Some "user") then
    let textParts := omap userText (default [] (parts c)) in
    let imageParts := omap userImage (default [] (parts c)) in
    match imageParts, textParts with
    | _ :: _, _ :: _ =>
        messages ++ [MkDsMessage user
                       (ArrayContent (TextItem (JS.join JS.LINE_FEED textParts)
                                      :: imageParts))]
    | _ :: _, [] => messages ++ [MkDsMessage user (ArrayContent imageParts)]
    | [], _ :: _ =>
        messages ++ [MkDsMessage user (TextContent (JS.join JS.LINE_FEED textParts))]
    | [], [] => messages
    end
  else if decide (role c = Some "model") then
    let textParts := omap (fun part => JS.truthy (text part)) (default [] (parts c)) in
    messages ++ [MkDsMessage assistant
                   (TextContent (JS.orString (Some (JS.join JS.LINE_FEED textParts)) ""))]
  else messages.

Definition convertContentToMessages (contents : list Content)
    (systemInstruction : option string) : list DeepSeekMessage :=
  let messages :=
    match JS.truthy systemInstruction with
    | Some t => [MkDsMessage system (TextContent t)]
    | None => []
    end in
  foldl pushTurn messages contents.

End Messages.

(** *** [convertResponseToGenerateContentResponse] *)

Record Usage : Type := MkUsage' {
  prompt_tokens : Z;
  completion_tokens : Z;
  total_tokens : Z
}.

Record ToolCall : Type := MkToolCall {
  callName : string;
  callArguments : option string
}.

Record Message : Type := MkMessage' {
  messageContent : option string;
  messageToolCalls : option (list ToolCall)
}.

Record Choice : Type := MkChoice {
  message : Message;
  finish_reason : string
}.

Record DeepSeekChatCompletionResponse : Type := MkResponse' {
  responseModel : string;
  choices : list Choice;
  usage : Usage
}.

(** The chunks of a stream. An index is a natural number. *)
Record ToolCallDelta : Type := MkToolCallDelta {
  toolIndex : nat;
  toolId : option string;
  fnName : option string;
  fnArguments : option string
}.

Record ChunkDelta : Type := MkDelta {
  deltaContent : option string;
  deltaToolCalls : option (list ToolCallDelta)
}.

Record ChunkChoice : Type := MkChunkChoice {
  delta : option ChunkDelta;
  chunk_finish_reason : option string
}.

Record DeepSeekStreamChunk : Type := MkChunk {
  chunkModel : string;
  chunkChoices : option (list ChunkChoice)
}.

(** An element of [accumulatedToolCalls]. *)
Record AccumulatedToolCall : Type := MkAccumulated {
  accId : string;
  accName : string;
  accArguments : string
}.

(** [array[index] = value] on an array that may have holes: a hole is
    [None]; writing past the end fills the gap with holes. *)
Definition setAt {A : Type} (array : list (option A)) (index : nat) (value : A)
    : list (option A) :=
  if decide (index < length array)%nat then <[index := Some value]> array
  else array ++ replicate (index - length array) None ++ [Some value].

Section Converters.

(** [JSON.parse] on the arguments of a tool call; [Throw] carries the
    message of its [SyntaxError]. *)
Variable JSON_parse : string -> Completion Json.

(** [JSON.parse(arguments || '{}')]; the text of an empty object is
    parsed as one. *)
Definition parseArguments (arguments : option string) : Completion Json :=
  match JS.truthy arguments with
  | Some a => JSON_parse a
  | None => Normal (JObject [])
  end.

(** The loop over [choice.message.tool_calls] (lines 223-232): the first
    exception ends it. *)
Fixpoint toolCallParts (calls : list ToolCall) : Completion (list Part) :=
  match calls with
  | [] => Normal []
  | call :: rest =>
      match parseArguments (callArguments call) with
      | Throw e => Throw e
      | Normal args =>
          match toolCallParts rest with
          | Throw e => Throw e
          | Normal others => Normal (functionCallPart (callName call) args :: others)
          end
      end
  end.

Definition convertResponseToGenerateContentResponse
    (response : DeepSeekChatCompletionResponse) (_model : string)
    : Completion GenerateContentResponse :=
  match choices response !! 0%nat with
  | None => Throw "No choices in DeepSeek response"
  | Some choice =>
      let textParts :=
        match JS.truthy (messageContent (message choice)) with
        | Some t => [textPart t]
        | None => []
        end in
      match toolCallParts (default [] (messageToolCalls (message choice))) with
      | Throw e => Throw e
      | Normal callParts =>
          Normal
            {| candidates :=
                 [ {| content := turn "model" (textParts ++ callParts);
                      finishReason :=
                        Some (FinishReason_value
                                (convertFinishReason (finish_reason choice)));
                      index := None |} ];
               usageMetadata :=
                 Some (MkUsage (prompt_tokens (usage response))
                               (completion_tokens (usage response))
                               (total_tokens (usage response)));
               modelVersion := Some (responseModel response) |}
      end
  end.

(** *** [generateContentStream] *)

(** The variables of the reading loop, and the responses yielded so
    far. [usageMetadata] is never assigned. *)
Record StreamState : Type := MkState {
  accumulatedText : string;
  accumulatedToolCalls : list (option AccumulatedToolCall);
  modelVersion' : string;
  isFirstChunk : bool;
  yields : list GenerateContentResponse
}.

Definition initialState (model : string) : StreamState :=
  MkState "" [] model true [].

(** One iteration of the loop over [choice.delta.tool_calls]
    (lines 385-396). *)
Definition accumulate (calls : list (option AccumulatedToolCall))
    (toolCall : ToolCallDelta) : list (option AccumulatedToolCall) :=
  let index := toolIndex toolCall in
  match calls !! index with
  | Some (Some call) =>
      <[index := Some (MkAccumulated (accId call) (accName call)
                         (accArguments call
                          +:+ JS.orString (fnArguments toolCall) ""))]> calls
  | _ =>
      setAt calls index
        (MkAccumulated (JS.orString (toolId toolCall) "")
           (JS.orString (fnName toolCall) "")
           (JS.orString (fnArguments toolCall) ""))
  end.

(** The loop over [accumulatedToolCalls] at a finish signal
    (lines 404-413). Reading [name] of a hole throws, and so may
    [JSON.parse]; the [catch] of line 453 takes both. *)
Fixpoint accumulatedParts (calls : list (option AccumulatedToolCall))
    : option (list Part) :=
  match calls with
  | [] => Some []
  | None :: _ => None
  | Some call :: rest =>
      match JS.truthy (Some (accName call)) with
      | Some name =>
          match parseArguments (Some (accArguments call)) with
          | Throw _ => None
          | Normal args =>
              match accumulatedParts rest with
              | Some others => Some (functionCallPart name args :: others)
              | None => None
              end
          end
      | None => accumulatedParts rest
      end
  end.

(** [parts.length > 0 ? parts : [{ text: '' }]]. *)
Definition orEmptyText (ps : list Part) : list Part :=
  match ps with
  | [] => [textPart ""]
  | _ :: _ => ps
  end.

(** The body of the [try] after [JSON.parse] returned [chunk]
    (lines 376-452). An exception leaves the assignments made before
    it. *)
Definition processChunk (st : StreamState) (chunk : DeepSeekStreamChunk)
    : StreamState :=
  let version := chunkModel chunk in
  let unchanged :=
    MkState (accumulatedText st) (accumulatedToolCalls st) version
      (isFirstChunk st) (yields st) in
  match chunkChoices chunk with
  | Some (choice :: _) =>
      match delta choice with
      | None => unchanged
      | Some d =>
          let accumulated :=
            accumulatedText st +:+ JS.orString (deltaContent d) "" in
          let calls :=
            foldl accumulate (accumulatedToolCalls st)
              (default [] (deltaToolCalls d)) in
          let textParts :=
            match JS.truthy (Some accumulated) with
            | Some t => [textPart t]
            | None => []
            end in
          match JS.truthy (chunk_finish_reason choice) with
          | Some reason =>
              match accumulatedParts calls with
              | None =>
                  MkState accumulated calls version (isFirstChunk st) (yields st)
              | Some callParts =>
                  MkState "" [] version (isFirstChunk st)
                    (yields st ++
                     [ {| candidates :=
                            [ {| content :=
                                   turn "model" (orEmptyText (textParts ++ callParts));
                                 finishReason :=
                                   Some (FinishReason_value
                                           (convertFinishReason reason));
                                 index := None |} ];
                          usageMetadata := None;
                          modelVersion := Some version |} ])
              end
          | None =>
              match textParts, isFirstChunk st with
              | [], false =>
                  MkState accumulated calls version false (yields st)
              | _, _ =>
                  MkState accumulated calls version false
                    (yields st ++
                     [ {| candidates :=
                            [ {| content := turn "model" (orEmptyText textParts);
                                 finishReason := None;
                                 index := None |} ];
                          usageMetadata := None;
                          modelVersion := Some version |} ])
              end
          end
      end
  | _ => unchanged
  end.

(** [JSON.parse(data)] read at the type [DeepSeekStreamChunk]; [None]
    when it throws, or when its value has no fields to read. *)
Variable JSON_parse_chunk : string -> option DeepSeekStreamChunk.

(** One iteration of [for (const line of lines)] (lines 367-457). *)
Definition processLine (st : StreamState) (line : string) : StreamState :=
  if JS.startsWith line "data: " then
    let data := JS.slice line 6 in
    if decide (data = "[DONE]") then st
    else match JSON_parse_chunk data with
         | Some chunk => processChunk st chunk
         | None => st
         end
  else st.

(** [request.model || this.defaultModel]. *)
Definition modelOf (self : Instance) (request : GenerateContentParameters)
    : string :=
  JS.orString (Some (reqModel request)) (defaultModel self).

Definition generateContentStream (self : Instance)
    (request : GenerateContentParameters) (response : HttpResponse)
    : Run GenerateContentResponse :=
  if negb (ok response) then
    MkRun [] (Throw ("DeepSeek API error: " +:+ pretty (status response)
                     +:+ " " +:+ errorText response))
  else
    match body response with
    | None => MkRun [] (Throw "No response body")
    | Some pieces =>
        let st :=
          snd (readLines processLine pieces "" (initialState (modelOf self request))) in
        MkRun (yields st) (Normal tt)
    end.

End Converters.

End DeepSeekTable.

(** ** The DeepSeek adapter that stops at the end-of-stream sentinel
       (class [DeepseekContentGenerator]) *)

Module DeepseekContentGenerator.

Record Instance : Type := MkInstance {
  apiKey : option string;
  baseUrl : string;
  proxy : option string
}.

(** The constructor stores its arguments and does nothing else. *)
Definition constructor (apiKey baseUrl proxy : option string) : Eff Instance :=
  mret (MkInstance apiKey (JS.orString baseUrl "https://api.deepseek.com") proxy).

(** A part as [convertContents] and [convertPart] read it: they test a
    field [type], which the parts of @google/genai do not have. *)
Record TypedPart : Type := MkTypedPart {
  partType : option string;
  partText : option string
}.

Record TypedContent : Type := MkTypedContent {
  contentRole : option string;
  contentParts : option (list TypedPart)
}.

(** A message; its role is copied from the turn unless that is
    [model]. *)
Record Message : Type := MkMessage' {
  messageRole : option string;
  messageContent : string
}.

Definition convertContents (contents : list TypedContent) : list Message :=
  map (fun c =>
         {| messageRole :=
              if decide (contentRole c = Some "model") then Some "assistant"
              else contentRole c;
            messageContent :=
              JS.join ""
                (map (fun part => JS.orString (partText part) "")
                     (filter (fun part => partType part = Some "text")
                             (default [] (contentParts c)))) |})
      contents.

Definition convertPart (part : string + TypedPart) : string :=
  match part with
  | inl s => s
  | inr p =>
      if decide (partType p = Some "text") then JS.orString (partText p) ""
      else ""
  end.

Section Requests.

(** [new ProxyAgent(uri)] of undici. *)
Variable newProxyAgent : string -> Completion Dispatcher.

(** [makeRequest] (lines 659-693). The agent that it makes for a
    configured proxy is given to nothing. *)
Definition makeRequest (server : HttpRequest -> HttpResponse)
    (self : Instance) (path : string) : Eff HttpResponse :=
  match JS.truthy (proxy self) with
  | Some uri => _agent ← lift (newProxyAgent uri); mret tt
  | None => mret tt
  end;;
  response ← fetch server
    {| url := baseUrl self +:+ path;
       headers := [ ("Content-Type", "application/json");
                    ("Authorization",
                     "Bearer " +:+ default "undefined" (apiKey self)) ] |};
  if negb (ok response) then
    mthrow ("Deepseek API error: " +:+ pretty (status response) +:+ " "
            +:+ statusText response +:+ ": " +:+ errorText response)
  else mret response.

End Requests.

(** The data of a chunk, as far as [convertStreamResponse] reads it. *)
Record StreamDelta : Type := MkDelta { deltaContent : option string }.

Record StreamChoice : Type := MkChoice {
  delta : option StreamDelta;
  finish_reason : option string
}.

Record StreamData : Type := MkData { choices : option (list StreamChoice) }.

Definition convertStreamResponse (data : StreamData) : GenerateContentResponse :=
  let choice := default [] (choices data) !! 0%nat in
  let t :=
    JS.orString (match choice with
                 | Some c => match delta c with
                             | Some d => deltaContent d
                             | None => None
                             end
                 | None => None
                 end) "" in
  {| candidates :=
       [ {| content := turn "model" [textPart t];
            finishReason :=
              match JS.truthy (choice ≫= finish_reason) with
              | Some reason =>
                  Some (FinishReason_value
                          (if decide (reason = "stop") then STOP
                           else if decide (reason = "length") then MAX_TOKENS
                           else OTHER))
              | None => None
              end;
            index := None |} ];
     usageMetadata := None;
     modelVersion := None |}.

(** The state of the generator: whether it has returned, and the
    responses yielded so far. After [return] nothing runs but the
    [finally] that releases the reader. *)
Record StreamState : Type := MkState {
  returned : bool;
  yields : list GenerateContentResponse
}.

Section Stream.

(** [JSON.parse(data)]; [None] when it throws, or when its value is
    [null], on which [convertStreamResponse] throws. *)
Variable JSON_parse : string -> option StreamData.

(** One iteration of [for (const line of lines)] (lines 606-619). *)
Definition processLine (st : StreamState) (line : string) : StreamState :=
  if returned st then st
  else if JS.startsWith line "data: " then
    let data := JS.slice line 6 in
    if decide (data = "[DONE]") then MkState true (yields st)
    else match JSON_parse data with
         | Some parsed => MkState false (yields st ++ [convertStreamResponse parsed])
         | None => st
         end
  else st.

(** [generateContentStream] from the response that [makeRequest]
    returned (lines 589-623). *)
Definition generateContentStream (response : HttpResponse)
    : Run GenerateContentResponse :=
  match body response with
  | None => MkRun [] (Throw "Response body is null")
  | Some pieces =>
      MkRun (yields (snd (readLines processLine pieces "" (MkState false []))))
            (Normal tt)
  end.

End Stream.

End DeepseekContentGenerator.

(** ** Vocabulary of the statements *)

(** [s] contains [sub] as a substring. *)
Definition contains (s sub : string) : Prop :=
  exists pre post : string, s = pre +:+ sub +:+ post.


(** The number of characters a part contributes: the length of its text;
    a part without text contributes nothing. *)
Definition textLength (p : Part) : Z :=
  match text p with
  | Some t => Z.of_nat (String.length t)
  | None => 0
  end.

Definition sumZ (l : list Z) : Z := foldr Z.add 0 l.

(** The total character count of a request: over every part of every
    turn. *)
Definition totalCharacterCount (request : CountTokensParameters) : Z :=
  sumZ (map (fun c => sumZ (map textLength (default [] (parts c))))
            (default [] (ctContents request))).

(** [r] is the ceiling of [n / 4]: the least integer with [n <= 4 * r]. *)
Definition isCeilingOfQuarter (n r : Z) : Prop :=
  4 * (r - 1) < n <= 4 * r.

(** ** Sample inputs *)

(** A request with one user turn that says "Test content". *)
Definition testContentRequest : CountTokensParameters :=
  MkCountRequest "hunyuan-turbos-latest"
    (Some [turn "user" [textPart "Test content"]]).

(** A complete DeepSeek response that stopped at the token limit. *)
Definition truncatedResponse : DeepSeekProxy.DeepSeekChatCompletionResponse :=
  DeepSeekProxy.MkDsResponse
    [ DeepSeekProxy.MkDsChoice
        (DeepSeekProxy.MkDsMessage (Some "Hi there") None) "length" ]
    (DeepSeekProxy.MkDsUsage 5 3 8).

(** A process that has configured nothing and sent nothing. *)
Definition idleProcess : Process := MkProcess DefaultAgent [].

(** An undici whose [ProxyAgent] accepts the address it is given. *)
Definition acceptingProxyAgent (uri : string) : Completion Dispatcher :=
  Normal (ProxyAgent uri).

(** A request whose only turn has the two text parts "a" and "b". *)
Definition twoLettersRequest : CountTokensParameters :=
  MkCountRequest "deepseek-chat"
    (Some [turn "user" [textPart "a"; textPart "b"]]).

(** A user turn with two text parts. *)
Definition twoTextParts : Content := turn "user" [textPart "a"; textPart "b"].

(** The role of the message that a turn becomes. *)
Definition chatRoleOf (r : option string) : option ChatRole :=
  if decide (r = Some "user") then Some user
  else if decide (r = Some "model") then Some assistant
  else None.

(** The texts of the parts that carry a non-empty text, in order. *)
Definition nonEmptyTexts (ps : list Part) : list string :=
  omap (fun p => match text p with
                 | Some t => if decide (t = "") then None else Some t
                 | None => None
                 end) ps.

(** The message of one turn when its texts are joined with [sep]: none for
    a turn of another role, or without any non-empty text. *)
Definition turnMessage (sep : string) (c : Content) : list ChatMessage :=
  match chatRoleOf (role c) with
  | Some r =>
      let joined := String.concat sep (nonEmptyTexts (default [] (parts c))) in
      if decide (joined = "") then [] else [MkMessage r joined]
  | None => []
  end.

(** ** Vocabulary of the statements about streams *)

(** The strings of a list, one after the other. *)
Definition concatenation (l : list string) : string := foldr String.append "" l.

(** The text a stream delivered, and its frames: the lines of that text
    that a line feed ends. What follows the last line feed is no frame
    yet. *)
Definition received (pieces : list string) : string := concatenation pieces.

Definition completeLines (t : string) : list string := afterPop (JS.split_LF t).

(** The text of a stream made of the frames [lines]. *)
Definition frameText (lines : list string) : string :=
  concatenation (map (fun line => line +:+ JS.LINE_FEED) lines).

(** A response to a request that succeeded and delivers [pieces]. *)
Definition okResponse (pieces : list string) : HttpResponse :=
  MkHttpResponse true 200 "OK" "" (Some pieces).

(** The texts of the snapshots that a consumer sees when [fragments]
    arrive in this order after [accumulated]: each is the concatenation of
    all the text so far. *)
Fixpoint snapshots (accumulated : string) (fragments : list string)
    : list string :=
  match fragments with
  | [] => []
  | fragment :: rest =>
      (accumulated +:+ fragment) :: snapshots (accumulated +:+ fragment) rest
  end.

(** The lengths of the texts never decrease along the list. *)
Definition lengthsNeverDecrease (texts : list string) : Prop :=
  forall (i j : nat) (a b : string),
    (i <= j)%nat -> texts !! i = Some a -> texts !! j = Some b ->
    (String.length a <= String.length b)%nat.

(** The payload of a frame for the Kimi client: what follows "data: " on
    a line that is not blank and is not the end-of-stream sentinel. *)
Definition kimiPayload (line : string) : option string :=
  if decide (JS.trim line = "") then None
  else if JS.startsWith line "data: " then
    if decide (JS.slice line 6 = "[DONE]") then None
    else Some (JS.slice line 6)
  else None.

(** The payload of a frame for the DeepSeek adapter, which trims the line
    first. *)
Definition deepSeekPayload (line : string) : option string :=
  if decide (JS.trim line = "") then None
  else if decide (JS.trim line = "data: [DONE]") then None
  else if JS.startsWith (JS.trim line) "data: "
  then Some (JS.slice (JS.trim line) 6)
  else None.

(** A frame is malformed when it has a payload that cannot be parsed. *)
Definition malformed {Chunk : Type} (payloadOf : string -> option string)
    (JSON_parse : string -> option Chunk) (line : string) : Prop :=
  exists payload : string,
    payloadOf line = Some payload /\ JSON_parse payload = None.

(** The chunks that the well-formed frames among [lines] carry. *)
Definition chunksOf {Chunk : Type} (payloadOf : string -> option string)
    (JSON_parse : string -> option Chunk) (lines : list string) : list Chunk :=
  omap (fun line => match payloadOf line with
                    | Some payload => JSON_parse payload
                    | None => None
                    end) lines.

(** The content fragment of a chunk, when it has one, and whether it
    carries a finish signal. *)
Definition kimiFragment (chunk : KimiClient.KimiStreamChunk) : option string :=
  JS.truthy (KimiClient.contentOf (KimiClient.choices chunk !! 0%nat)).

Definition kimiFinishSignal (chunk : KimiClient.KimiStreamChunk) : Prop :=
  is_Some (JS.truthy (KimiClient.finishOf (KimiClient.choices chunk !! 0%nat))).

Definition hunyuanFragment (chunk : HunyuanContentGenerator.ChatCompletionChunk)
    : string :=
  default "" (JS.truthy (HunyuanContentGenerator.contentOf chunk)).

(** The content fragment of a chunk of the DeepSeek adapter, the empty
    string when it has none, and the text that a converted response
    carries: the text parts of its first candidate, concatenated. *)
Definition deepSeekFragment (chunk : DeepSeekProxy.DeepSeekStreamChunk) : string :=
  match DeepSeekProxy.chunkChoices chunk !! 0%nat with
  | Some choice =>
      default "" (JS.truthy (DeepSeekProxy.deltaContent (DeepSeekProxy.delta choice)))
  | None => ""
  end.

Definition convertedText (r : DeepSeekProxy.Converted) : string :=
  match DeepSeekProxy.responseCandidates r !! 0%nat with
  | Some c => partsText (default [] (parts (content c)))
  | None => ""
  end.

(** The finish reason of the first candidate of a response. *)
Definition firstFinishReason (r : GenerateContentResponse) : option string :=
  match candidates r !! 0%nat with
  | Some c => finishReason c
  | None => None
  end.

(** ** Sample streams *)

(** A string between double quotes. *)
Definition quoted (s : string) : string :=
  String (Ascii.ascii_of_N 34) (s +:+ String (Ascii.ascii_of_N 34) "").

(** The JSON text of a chunk with one content fragment, and of a chunk
    that only carries the finish reason "stop". *)
Definition contentPayload (fragment : string) : string :=
  "{" +:+ quoted "model" +:+ ":" +:+ quoted "moonshot-v1-8k" +:+ ","
  +:+ quoted "choices" +:+ ":[{" +:+ quoted "delta" +:+ ":{"
  +:+ quoted "content" +:+ ":" +:+ quoted fragment +:+ "}}]}".

Definition stopPayload : string :=
  "{" +:+ quoted "model" +:+ ":" +:+ quoted "moonshot-v1-8k" +:+ ","
  +:+ quoted "choices" +:+ ":[{" +:+ quoted "delta" +:+ ":{},"
  +:+ quoted "finish_reason" +:+ ":" +:+ quoted "stop" +:+ "}]}".

Definition kimiContentChunk (fragment : string) : KimiClient.KimiStreamChunk :=
  KimiClient.MkChunk "moonshot-v1-8k"
    [KimiClient.MkChoice (Some (KimiClient.MkDelta None (Some fragment))) None].

Definition kimiStopChunk : KimiClient.KimiStreamChunk :=
  KimiClient.MkChunk "moonshot-v1-8k"
    [KimiClient.MkChoice (Some (KimiClient.MkDelta None None)) (Some "stop")].

(** [JSON.parse] on the payloads of the samples; every other payload of
    the samples ("not-json") is no JSON text. *)
Definition sampleKimiParse (data : string) : option KimiClient.KimiStreamChunk :=
  if decide (data = contentPayload "He") then Some (kimiContentChunk "He")
  else if decide (data = contentPayload "llo") then Some (kimiContentChunk "llo")
  else if decide (data = stopPayload) then Some kimiStopChunk
  else None.

Definition deepSeekContentChunk (fragment : string)
    : DeepSeekProxy.DeepSeekStreamChunk :=
  DeepSeekProxy.MkDsChunk
    [DeepSeekProxy.MkDsChunkChoice (DeepSeekProxy.MkDsDelta (Some fragment) None) None]
    None.

Definition deepSeekStopChunk : DeepSeekProxy.DeepSeekStreamChunk :=
  DeepSeekProxy.MkDsChunk
    [DeepSeekProxy.MkDsChunkChoice (DeepSeekProxy.MkDsDelta None None) (Some "stop")]
    None.

Definition sampleDeepSeekParse (data : string)
    : option DeepSeekProxy.DeepSeekStreamChunk :=
  if decide (data = contentPayload "He") then Some (deepSeekContentChunk "He")
  else if decide (data = contentPayload "llo") then Some (deepSeekContentChunk "llo")
  else if decide (data = stopPayload) then Some deepSeekStopChunk
  else None.

Definition noArguments (_ : string) : option Json := None.

Definition sampleRequest : GenerateContentParameters :=
  MkRequest "kimi-pro" [turn "user" [textPart "Hello"]] None.

(** A request whose parts are a text of five characters, an image and a
    function call. *)
Definition mixedPartsRequest : CountTokensParameters :=
  MkCountRequest "kimi-pro"
    (Some [ turn "user" [ textPart "Hello";
                          inlineDataPart "image/png" "iVBORw0KGgo=" ];
            turn "model" [ functionCallPart "lookup" (JObject []) ] ]).

(** The frames of the samples. *)
Definition frameHe : string := "data: " +:+ contentPayload "He".
Definition frameLlo : string := "data: " +:+ contentPayload "llo".
Definition frameStop : string := "data: " +:+ stopPayload.
Definition frameNotJson : string := "data: not-json".
Definition frameDone : string := "data: [DONE]".

(** A server that answers every request with the stream below. *)
Definition sampleServer (_ : HttpRequest) : HttpResponse :=
  okResponse [ frameHe +:+ JS.LINE_FEED +:+ frameStop +:+ JS.LINE_FEED ].

(** A stream whose only frame is a finish signal. *)
Definition finishOnlyStream : list string := [frameStop +:+ JS.LINE_FEED].

(** "He", "llo" and a finish signal, delivered in two pieces that cut the
    second frame. *)
Definition helloStream : list string :=
  [ frameHe +:+ JS.LINE_FEED +:+ "data: ";
    contentPayload "llo" +:+ JS.LINE_FEED +:+ frameStop +:+ JS.LINE_FEED
    +:+ frameDone +:+ JS.LINE_FEED ].

(** Structural form of "no line feed occurs in [s]". *)
Fixpoint noLineFeed (s : string) : bool :=
  match s with
  | EmptyString => true
  | String c s' => if decide (c = JS.LF) then false else noLineFeed s'
  end.

(** ** Vocabulary of the statements about usage *)

(** [r] is the floor of [n / 4]: the greatest integer with [4 * r <= n]. *)
Definition isFloorOfQuarter (n r : Z) : Prop :=
  4 * r <= n < 4 * (r + 1).

(** The number of chunks among [chunks] that carry a content fragment. *)
Definition contentChunkCount
    (chunks : list HunyuanContentGenerator.ChatCompletionChunk) : Z :=
  Z.of_nat (length (filter (fun chunk => hunyuanFragment chunk <> "") chunks)).

(** The usage that the provider reported last among [chunks], if any. *)
Definition latestReportedUsage
    (chunks : list HunyuanContentGenerator.ChatCompletionChunk)
    : option HunyuanContentGenerator.CompletionUsage :=
  last (omap HunyuanContentGenerator.chunkUsage chunks).

(** A count that a JavaScript number holds exactly: a natural number up
    to [Number.MAX_SAFE_INTEGER]. On such counts, a sum that is again such
    a count is the sum of the integers. *)
Definition MAX_SAFE_INTEGER : Z := 2 ^ 53 - 1.

Definition safeCount (z : Z) : Prop := 0 <= z <= MAX_SAFE_INTEGER.

(** The counts that the provider reports along [stream] are safe, and
    stay safe when the number of chunks is added to them. *)
Definition safeUsage
    (stream : list HunyuanContentGenerator.ChatCompletionChunk) : Prop :=
  safeCount (Z.of_nat (length stream))
  /\ Forall (fun chunk =>
               match HunyuanContentGenerator.chunkUsage chunk with
               | Some u =>
                   safeCount (HunyuanContentGenerator.prompt_tokens u)
                   /\ safeCount (HunyuanContentGenerator.total_tokens u)
                   /\ safeCount (HunyuanContentGenerator.prompt_tokens u
                                 + Z.of_nat (length stream))
               | None => True
               end) stream.

(** A stream of three chunks: "He", "llo" with the usage the provider
    reports, and a chunk without content. *)
Definition hunyuanUsageStream : list HunyuanContentGenerator.ChatCompletionChunk :=
  [ HunyuanContentGenerator.MkChunk
      [HunyuanContentGenerator.MkChoice
         (Some (HunyuanContentGenerator.MkDelta (Some "He"))) None] None;
    HunyuanContentGenerator.MkChunk
      [HunyuanContentGenerator.MkChoice
         (Some (HunyuanContentGenerator.MkDelta (Some "llo"))) None]
      (Some (HunyuanContentGenerator.MkCompletionUsage 7 2 0));
    HunyuanContentGenerator.MkChunk
      [HunyuanContentGenerator.MkChoice
         (Some (HunyuanContentGenerator.MkDelta None)) (Some "stop")] None ].

(** ** Vocabulary of the statements about messages *)

(** The system message of a request for the Kimi client: the text of the
    system instruction, when there is one and its text is not empty. *)
Definition kimiSystemMessage (systemInstruction : option SystemInstruction)
    : list ChatMessage :=
  match systemInstruction with
  | Some si =>
      if decide (KimiClient.systemText si = "") then []
      else [MkMessage system (KimiClient.systemText si)]
  | None => []
  end.

(** ** Vocabulary of the statements about token estimates *)

(** The number of parts of a request that carry a non-empty text. *)
Definition textPartCount (request : CountTokensParameters) : Z :=
  sumZ (map (fun c =>
               sumZ (map (fun p => if decide (textLength p = 0) then 0 else 1)
                         (default [] (parts c))))
            (default [] (ctContents request))).

(** The token count of a response. *)
Definition tokensOf (c : Completion CountTokensResponse) : option Z :=
  match c with
  | Normal r => Some (totalTokens r)
  | Throw _ => None
  end.

(** A request with three text parts of one character each. *)
Definition threeLettersRequest : CountTokensParameters :=
  MkCountRequest "deepseek-chat"
    (Some [ turn "user" [textPart "a"; textPart "b"];
            turn "model" [textPart "c"] ]).

(** ** Vocabulary of the statements about the DeepSeek requests *)

(** A part that is neither a function call nor a function response. *)
Definition plainPart (p : Part) : Prop :=
  functionCall p = None /\ functionResponse p = None.

(** Every part of every turn is plain. *)
Definition plainContents (contents : list Content) : Prop :=
  Forall (fun c => Forall plainPart (default [] (parts c))) contents.

(** The first turn of a conversation, if there is one, has a role. *)
Definition firstTurnHasRole (contents : list Content) : Prop :=
  match contents with
  | first :: _ => is_Some (role first)
  | [] => True
  end.

(** The parts of the first candidate of a converted response. *)
Definition convertedParts (r : DeepSeekProxy.Converted) : list Part :=
  match DeepSeekProxy.responseCandidates r !! 0%nat with
  | Some c => default [] (parts (content c))
  | None => []
  end.

(** The number of parts of the first candidate of a converted
    response. *)
Definition convertedPartCount (r : DeepSeekProxy.Converted) : nat :=
  match DeepSeekProxy.responseCandidates r !! 0%nat with
  | Some c => length (default [] (parts (content c)))
  | None => 0
  end.

(** [JSON.stringify] of the samples: the arguments of the samples are
    empty objects. *)
Definition sampleStringify (_ : Json) : string := "{}".
Definition sampleStringifyResponse (_ : FunctionResponse) : string := "{}".

(** A tool with the two declarations [lookup] and [store], and a tool
    that declares no function (a search tool). *)
Definition twoDeclarationsTool : DeepSeekProxy.Tool :=
  DeepSeekProxy.MkTool
    (Some [ DeepSeekProxy.MkFunctionDeclaration (Some "lookup") None None;
            DeepSeekProxy.MkFunctionDeclaration (Some "store") None None ]).

Definition searchTool : DeepSeekProxy.Tool := DeepSeekProxy.MkTool None.

(** A server that answers every request with an empty successful
    response. *)
Definition emptyServer (_ : HttpRequest) : HttpResponse := okResponse [].

Definition noResponseJson (_ : HttpResponse)
    : Completion DeepSeekProxy.DeepSeekChatCompletionResponse :=
  Throw "Unexpected end of JSON input".

(** The name under which a tool is sent: that of its first function
    declaration, or the empty string. *)
Definition firstDeclarationName (tool : DeepSeekProxy.Tool) : string :=
  JS.orString (default [] (DeepSeekProxy.functionDeclarations tool) !! 0%nat
               ≫= DeepSeekProxy.fdName) "".

(** An instance of the DeepSeek adapter with the proxy, without a
    proxy. *)
Definition directInstance : DeepSeekProxy.Instance :=
  DeepSeekProxy.MkDsInstance (Some "sk-test") DeepSeekProxy.DEEPSEEK_API_BASE_URL None.

(** ** Vocabulary of the statements about the DeepSeek adapter with the
       finish-reason table *)

(** The payload of a frame for this adapter: what follows "data: ", but
    for the end-of-stream sentinel. The line is not trimmed. *)
Definition tablePayload (line : string) : option string :=
  if JS.startsWith line "data: " then
    if decide (JS.slice line 6 = "[DONE]") then None
    else Some (JS.slice line 6)
  else None.

(** A chunk that carries the content [fragment], a chunk that carries a
    fragment of the arguments of the tool call [index], with the name of
    the function when it is the first, and a chunk that carries the
    finish signal [reason]. *)
Definition tableTextChunk (version fragment : string)
    : DeepSeekTable.DeepSeekStreamChunk :=
  DeepSeekTable.MkChunk version
    (Some [DeepSeekTable.MkChunkChoice
             (Some (DeepSeekTable.MkDelta (Some fragment) None)) None]).

Definition tableToolChunk (version : string) (index : nat)
    (name : option string) (fragment : string)
    : DeepSeekTable.DeepSeekStreamChunk :=
  DeepSeekTable.MkChunk version
    (Some [DeepSeekTable.MkChunkChoice
             (Some (DeepSeekTable.MkDelta None
                      (Some [DeepSeekTable.MkToolCallDelta index None name
                               (Some fragment)])))
             None]).

Definition tableFinishChunk (version reason : string)
    : DeepSeekTable.DeepSeekStreamChunk :=
  DeepSeekTable.MkChunk version
    (Some [DeepSeekTable.MkChunkChoice
             (Some (DeepSeekTable.MkDelta None None)) (Some reason)]).

(** The parts of the first candidate of a response. *)
Definition responseParts (r : GenerateContentResponse) : list Part :=
  match candidates r !! 0%nat with
  | Some c => default [] (parts (content c))
  | None => []
  end.

(** An instance of the adapter with its defaults. *)
Definition tableInstance : DeepSeekTable.Instance :=
  DeepSeekTable.MkInstance (Some "sk-test") "https://api.deepseek.com"
    "deepseek-chat".

(** [JSON.parse] on the payloads of the samples, read as chunks of this
    adapter, and on the arguments of the samples: the text of an object
    with one member is parsed, a text that stops after the colon is
    not. *)
Definition sampleTableParse (data : string)
    : option DeepSeekTable.DeepSeekStreamChunk :=
  if decide (data = contentPayload "He")
  then Some (tableTextChunk "moonshot-v1-8k" "He")
  else if decide (data = contentPayload "llo")
  then Some (tableTextChunk "moonshot-v1-8k" "llo")
  else if decide (data = stopPayload)
  then Some (tableFinishChunk "moonshot-v1-8k" "stop")
  else if decide (data = "call-open")
  then Some (tableToolChunk "moonshot-v1-8k" 0 (Some "lookup") "{")
  else if decide (data = "call-more")
  then Some (tableToolChunk "moonshot-v1-8k" 0 None "}")
  else if decide (data = "call-late")
  then Some (tableToolChunk "moonshot-v1-8k" 1 (Some "lookup") "{}")
  else None.

Definition sampleArgumentsParse (arguments : string) : Completion Json :=
  if decide (arguments = "{}") then Normal (JObject [])
  else Throw "Unexpected end of JSON input".

(** A stream that delivers one tool call in two fragments and then a
    finish signal, and a stream whose only tool call has the index 1. *)
Definition toolCallStream : list string :=
  [ "data: call-open" +:+ JS.LINE_FEED +:+ "data: call-more" +:+ JS.LINE_FEED
    +:+ frameStop +:+ JS.LINE_FEED ].

Definition lateToolCallStream : list string :=
  [ "data: call-late" +:+ JS.LINE_FEED +:+ frameStop +:+ JS.LINE_FEED ].

(** The assistant messages, and the model turns. *)
Definition isAssistant (m : DeepSeekTable.DeepSeekMessage) : bool :=
  match DeepSeekTable.dsRole m with
  | assistant => true
  | _ => false
  end.

Definition isModelTurn (c : Content) : bool :=
  bool_decide (role c = Some "model").

(** A complete response with one tool call whose arguments stop after
    the opening brace. *)
Definition brokenToolCallResponse : DeepSeekTable.DeepSeekChatCompletionResponse :=
  DeepSeekTable.MkResponse' "deepseek-chat"
    [ DeepSeekTable.MkChoice
        (DeepSeekTable.MkMessage' (Some "Let me check")
           (Some [DeepSeekTable.MkToolCall "lookup" (Some "{")]))
        "tool_calls" ]
    (DeepSeekTable.MkUsage' 5 3 8).

(** ** Vocabulary of the statements about the DeepSeek adapter that stops
       at the sentinel *)

(** The lines before the first end-of-stream sentinel. *)
Fixpoint beforeDone (lines : list string) : list string :=
  match lines with
  | [] => []
  | line :: rest =>
      if decide (line = "data: [DONE]") then [] else line :: beforeDone rest
  end.

(** A turn of @google/genai as this adapter reads it: its parts have no
    field [type]. *)
Definition typedContent (c : Content)
    : DeepseekContentGenerator.TypedContent :=
  {| DeepseekContentGenerator.contentRole := role c;
     DeepseekContentGenerator.contentParts :=
       map (fun p => DeepseekContentGenerator.MkTypedPart None (text p))
         <$> parts c |}.

(** [JSON.parse] on the payloads of the samples, read by this adapter. *)
Definition sampleDeepseekParse (data : string)
    : option DeepseekContentGenerator.StreamData :=
  if decide (data = contentPayload "He")
  then Some (DeepseekContentGenerator.MkData
               (Some [DeepseekContentGenerator.MkChoice
                        (Some (DeepseekContentGenerator.MkDelta (Some "He"))) None]))
  else if decide (data = contentPayload "llo")
  then Some (DeepseekContentGenerator.MkData
               (Some [DeepseekContentGenerator.MkChoice
                        (Some (DeepseekContentGenerator.MkDelta (Some "llo"))) None]))
  else None.

(** A stream with a frame after the sentinel. *)
Definition streamPastDone : list string :=
  [ frameHe +:+ JS.LINE_FEED +:+ frameDone +:+ JS.LINE_FEED
    +:+ frameLlo +:+ JS.LINE_FEED ].

(** An instance of this adapter with a proxy, and the same without. *)
Definition proxiedInstance : DeepseekContentGenerator.Instance :=
  DeepseekContentGenerator.MkInstance (Some "sk-test") "https://api.deepseek.com"
    (Some "http://proxy.example:8080").

Definition unproxiedInstance : DeepseekContentGenerator.Instance :=
  DeepseekContentGenerator.MkInstance (Some "sk-test") "https://api.deepseek.com"
    None.

(** * Properties *)

Lemma string_app_nil_l (s : string) : "" +:+ s = s.
Proof. reflexivity. Qed.

Lemma string_app_cons (a : ascii) (s t : string) :
  String a s +:+ t = String a (s +:+ t).
Proof. reflexivity. Qed.

Lemma string_app_nil_r (s : string) : s +:+ "" = s.
Proof. induction s as [|a s IH]; [done|]. by rewrite string_app_cons, IH. Qed.

Lemma string_app_assoc (s t u : string) : (s +:+ t) +:+ u = s +:+ t +:+ u.
Proof.
  induction s as [|a s IH]; [done|]. by rewrite !string_app_cons, IH.
Qed.

Lemma string_app_length (s t : string) :
  String.length (s +:+ t) = (String.length s + String.length t)%nat.
Proof.
  induction s as [|a s IH]; [done|]. rewrite string_app_cons. simpl. by rewrite IH.
Qed.

Lemma startsWith_app (s p : string) :
  JS.startsWith s p = true <-> exists post, s = p +:+ post.
Proof.
  revert s. induction p as [|a p IH]; intros s; simpl.
  - split; [intros _; by exists s | done].
  - destruct s as [|b s].
    + split; [done | intros [post H]; discriminate H].
    + destruct (decide (a = b)) as [->|Hne].
      * rewrite IH. split; intros [post H]; exists post.
        -- by rewrite H.
        -- rewrite string_app_cons in H. by inversion H.
      * split; [done | intros [post H]; rewrite string_app_cons in H; inversion H; congruence].
Qed.

Lemma includes_contains (s sub : string) :
  JS.includes s sub = true <-> contains s sub.
Proof.
  unfold contains. induction s as [|c s IH]; simpl.
  - rewrite orb_false_r, startsWith_app. split.
    + intros [post H]. by exists "", post.
    + intros (pre & post & H). destruct pre; [by exists post | done].
  - rewrite orb_true_iff, IH, startsWith_app. split.
    + intros [[post H] | (pre & post & H)].
      * by exists "", post.
      * exists (String c pre), post. by rewrite string_app_cons, H.
    + intros (pre & post & H). destruct pre as [|c' pre].
      * left. by exists post.
      * right. exists pre, post. rewrite string_app_cons in H. by inversion H.
Qed.

Lemma not_includes_contains (s sub : string) :
  JS.includes s sub = false <-> ~ contains s sub.
Proof.
  rewrite <- includes_contains. by destruct (JS.includes s sub).
Qed.

(** ** The model resolver *)

(** C1. In fallback mode a model name without the substring "lite" is
    downgraded: to the Hunyuan family's fallback "hunyuan-standard" (which
    is not the system-wide default) when the name contains "hunyuan", and
    to the system-wide default "gemini-2.5-flash" otherwise. *)
Theorem C1_fallback_downgrades_non_lite (requestedModel : string) :
  ~ contains requestedModel "lite" ->
  (contains requestedModel "hunyuan" ->
     Models.getEffectiveModel true requestedModel = "hunyuan-standard"
     /\ Models.getEffectiveModel true requestedModel
        <> Models.DEFAULT_GEMINI_FLASH_MODEL)
  /\ (~ contains requestedModel "hunyuan" ->
        Models.getEffectiveModel true requestedModel = "gemini-2.5-flash").
Proof.
  intros Hlite%not_includes_contains. unfold Models.getEffectiveModel.
  simpl. rewrite Hlite. split.
  - intros Hfam%includes_contains. rewrite Hfam. by split.
  - intros Hfam%not_includes_contains. by rewrite Hfam.
Qed.

Lemma C1_witness_hunyuan_pro :
  ~ contains "hunyuan-pro" "lite"
  /\ Models.getEffectiveModel true "hunyuan-pro" = "hunyuan-standard"
  /\ ~ contains "gemini-2.5-pro" "lite"
  /\ Models.getEffectiveModel true "gemini-2.5-pro" = "gemini-2.5-flash".
Proof.
  assert (H1 : ~ contains "hunyuan-pro" "lite")
    by (apply not_includes_contains; reflexivity).
  assert (H2 : ~ contains "gemini-2.5-pro" "lite")
    by (apply not_includes_contains; reflexivity).
  split; [exact H1 | split; [| split; [exact H2 |]]].
  - apply (C1_fallback_downgrades_non_lite "hunyuan-pro" H1).
    apply includes_contains. reflexivity.
  - apply (C1_fallback_downgrades_non_lite "gemini-2.5-pro" H2).
    apply not_includes_contains. reflexivity.
Defined.

(** C2. With the fallback flag off the resolver is the identity, and with
    the flag on it returns every name that contains "lite" unchanged. *)
Theorem C2_identity_without_fallback_and_for_lite (requestedModel : string) :
  Models.getEffectiveModel false requestedModel = requestedModel
  /\ (contains requestedModel "lite" ->
        Models.getEffectiveModel true requestedModel = requestedModel).
Proof.
  split; [reflexivity |].
  intros H%includes_contains. unfold Models.getEffectiveModel. simpl.
  by rewrite H.
Qed.

Lemma C2_witness_custom_lite :
  contains "gemini-2.5-custom-lite-vNext" "lite"
  /\ Models.getEffectiveModel true "gemini-2.5-custom-lite-vNext"
     = "gemini-2.5-custom-lite-vNext".
Proof.
  assert (H : contains "gemini-2.5-custom-lite-vNext" "lite")
    by (apply includes_contains; reflexivity).
  split; [exact H |].
  exact (proj2 (C2_identity_without_fallback_and_for_lite _) H).
Defined.

(** ** The model-name mapping of the Kimi client *)

Lemma modelMap_values_truthy (k v : string) :
  KimiClient.modelMap !! k = Some v -> v <> "".
Proof.
  revert k v.
  change (map_Forall (fun (_ : string) v => v <> "") KimiClient.modelMap).
  apply (bool_decide_unpack _). vm_compute. exact I.
Qed.





(** ** The finish-reason mappings of the DeepSeek adapters *)

(** C6, the claim as stated, fails on the response converter of the
    DeepSeek adapter that configures a proxy: it maps "length" (and
    "content_filter") to OTHER, where the claim gives MAX_TOKENS (and
    SAFETY). *)
Lemma C6_counterexample_length_becomes_other :
  DeepSeekProxy.responseFinishReason "length" = OTHER
  /\ DeepSeekProxy.responseFinishReason "content_filter" = OTHER
  /\ (finishReason <$>
        (match DeepSeekProxy.convertDeepSeekResponseToGemini
                 (fun _ => None) truncatedResponse "deepseek-chat" with
         | Normal r => DeepSeekProxy.responseCandidates r !! 0%nat
         | Throw _ => None
         end)) = Some (Some "OTHER")
  /\ FinishReason_value MAX_TOKENS <> "OTHER".
Proof. repeat split; [reflexivity .. | discriminate]. Qed.

(** C6 (amended). Both mappings are total. [convertFinishReason] follows
    the table: "stop" gives STOP, "length" gives MAX_TOKENS,
    "content_filter" gives SAFETY and every other string gives OTHER. The
    response converter of the other DeepSeek adapter tells "stop" (STOP)
    from every other string (OTHER) only, and returns normally, with that
    finish reason, for every response that has a first choice. *)
Theorem C6_finish_reason_mappings :
  DeepSeekTable.convertFinishReason "stop" = STOP
  /\ DeepSeekTable.convertFinishReason "length" = MAX_TOKENS
  /\ DeepSeekTable.convertFinishReason "content_filter" = SAFETY
  /\ (forall reason : string,
        reason <> "stop" -> reason <> "length" -> reason <> "content_filter" ->
        DeepSeekTable.convertFinishReason reason = OTHER)
  /\ DeepSeekProxy.responseFinishReason "stop" = STOP
  /\ (forall reason : string,
        reason <> "stop" -> DeepSeekProxy.responseFinishReason reason = OTHER)
  /\ (forall (JSON_parse : string -> option Json)
             (response : DeepSeekProxy.DeepSeekChatCompletionResponse)
             (model : string) (choice : DeepSeekProxy.Choice),
        DeepSeekProxy.choices response !! 0%nat = Some choice ->
        exists converted candidate,
          DeepSeekProxy.convertDeepSeekResponseToGemini JSON_parse response model
          = Normal converted
          /\ DeepSeekProxy.responseCandidates converted = [candidate]
          /\ finishReason candidate
             = Some (FinishReason_value
                       (DeepSeekProxy.responseFinishReason
                          (DeepSeekProxy.finish_reason choice)))).
Proof.
  repeat split; try reflexivity.
  - intros reason H1 H2 H3. unfold DeepSeekTable.convertFinishReason.
    by repeat case_decide.
  - intros reason H1. unfold DeepSeekProxy.responseFinishReason.
    by case_decide.
  - intros JSON_parse response model choice H.
    unfold DeepSeekProxy.convertDeepSeekResponseToGemini. rewrite H.
    by eexists _, _.
Qed.

Lemma C6_witness_unknown_reason :
  DeepSeekTable.convertFinishReason "tool_calls" = OTHER
  /\ DeepSeekProxy.responseFinishReason "tool_calls" = OTHER.
Proof.
  destruct C6_finish_reason_mappings as (_ & _ & _ & Htable & _ & Hproxy & _).
  split.
  - apply Htable; discriminate.
  - apply Hproxy; discriminate.
Defined.

(** ** Token estimates *)

Lemma Math_ceil_quarter (n : Z) : isCeilingOfQuarter n (Math_ceil (quotient n 4)).
Proof.
  unfold isCeilingOfQuarter, Math_ceil, quotient, Qceiling, Qfloor. simpl.
  change (Z.pos (1 * 4)) with 4. rewrite Z.mul_1_r.
  pose proof (Z_div_mod_eq_full (- n) 4).
  pose proof (Z.mod_pos_bound (- n) 4). lia.
Qed.

Lemma sumZ_nonneg (l : list Z) : Forall (fun z => 0 <= z) l -> 0 <= sumZ l.
Proof. induction 1; simpl; lia. Qed.

Lemma textLength_nonneg (p : Part) : 0 <= textLength p.
Proof. unfold textLength. destruct (text p); lia. Qed.

Lemma totalCharacterCount_nonneg (request : CountTokensParameters) :
  0 <= totalCharacterCount request.
Proof.
  unfold totalCharacterCount. apply sumZ_nonneg, Forall_map, Forall_forall.
  intros c _. apply sumZ_nonneg, Forall_map, Forall_forall.
  intros p _. apply textLength_nonneg.
Qed.

Lemma foldl_add_sumZ {A : Type} (f : A -> Z) (l : list A) (acc : Z) :
  foldl (fun total a => total + f a) acc l = acc + sumZ (map f l).
Proof.
  revert acc. induction l as [|a l IH]; intros acc; simpl; [lia|].
  rewrite IH. lia.
Qed.

Lemma join_empty_length (l : list string) :
  Z.of_nat (String.length (JS.join "" l))
  = sumZ (map (fun t => Z.of_nat (String.length t)) l).
Proof.
  unfold JS.join. induction l as [|t l IH]; [done|].
  simpl. destruct l as [|t' l].
  - simpl. lia.
  - rewrite string_app_length, string_app_nil_l. simpl in IH |- *. lia.
Qed.

Lemma orString_length (o : option string) :
  Z.of_nat (String.length (JS.orString o "")) =
  match o with Some t => Z.of_nat (String.length t) | None => 0 end.
Proof.
  unfold JS.orString, JS.truthy. destruct o as [t|]; [|done].
  destruct (decide (t = "")) as [->|]; done.
Qed.

Lemma Kimi_countTokens_total (request : CountTokensParameters) :
  KimiClient.countTokens request
  = Normal (MkCount (Math_ceil (quotient (totalCharacterCount request) 4))).
Proof.
  unfold KimiClient.countTokens, totalCharacterCount.
  rewrite foldl_add_sumZ, Z.add_0_l. do 4 f_equal.
  apply (f_equal sumZ), map_ext. intros c.
  rewrite join_empty_length, map_map. apply (f_equal sumZ), map_ext. intros p.
  unfold textLength. apply orString_length.
Qed.

Lemma foldl_truthy_text (ps : list Part) (acc : Z) :
  foldl (fun total' part =>
           match JS.truthy (text part) with
           | Some t => total' + Z.of_nat (String.length t)
           | None => total'
           end) acc ps
  = acc + sumZ (map textLength ps).
Proof.
  revert acc. induction ps as [|p ps IH]; intros acc; simpl; [lia|].
  rewrite IH. unfold textLength, JS.truthy. destruct (text p) as [t|]; [|lia].
  destruct (decide (t = "")) as [->|]; simpl; lia.
Qed.

Lemma DeepSeek_countTokens_total (request : CountTokensParameters) :
  DeepSeekProxy.countTokens request
  = Normal (MkCount (Math_ceil (quotient (totalCharacterCount request) 4))).
Proof.
  unfold DeepSeekProxy.countTokens, totalCharacterCount.
  generalize (default [] (ctContents request)). intros cs.
  assert (forall acc,
    foldl (fun total c =>
             match parts c with
             | Some ps => foldl (fun total' part =>
                 match JS.truthy (text part) with
                 | Some t => total' + Z.of_nat (String.length t)
                 | None => total'
                 end) total ps
             | None => total
             end) acc cs
    = acc + sumZ (map (fun c => sumZ (map textLength (default [] (parts c)))) cs)) as H.
  { induction cs as [|c cs IH]; intros acc; simpl; [lia|].
    rewrite IH. destruct (parts c) as [ps|]; simpl; [|lia].
    rewrite foldl_truthy_text. lia. }
  rewrite H. by rewrite Z.add_0_l.
Qed.

Example countTokens_of_mixed_parts :
  totalCharacterCount mixedPartsRequest = 5
  /\ KimiClient.countTokens mixedPartsRequest = Normal (MkCount 2)
  /\ DeepSeekProxy.countTokens mixedPartsRequest = Normal (MkCount 2).
Proof. repeat split. Qed.

(** The DeepSeek adapter with the finish-reason table rounds every part
    up on its own, so two parts of one character count as two tokens. *)
Example countTokens_rounds_each_part :
  totalCharacterCount twoLettersRequest = 2
  /\ DeepSeekProxy.countTokens twoLettersRequest = Normal (MkCount 1)
  /\ DeepSeekTable.countTokens twoLettersRequest = Normal (MkCount 2).
Proof. repeat split. Qed.

(** C5, the claim as stated, fails on the Hunyuan adapter: for a request
    whose only text is "Test content" (12 characters, so the claim gives
    3 tokens) its [countTokens] returns 0. *)
Lemma C5_counterexample_hunyuan_counts_zero :
  totalCharacterCount testContentRequest = 12
  /\ isCeilingOfQuarter 12 3
  /\ HunyuanContentGenerator.countTokens testContentRequest = Normal (MkCount 0)
  /\ ~ isCeilingOfQuarter (totalCharacterCount testContentRequest) 0.
Proof.
  repeat split; try reflexivity; try (vm_compute; congruence).
  unfold isCeilingOfQuarter. change (totalCharacterCount testContentRequest) with 12.
  lia.
Qed.

(** C5 (amended). For every request, [countTokens] of the Kimi client and
    of the DeepSeek adapter returns normally the ceiling of a quarter of
    the total character count of the text parts (parts without text count
    zero), which is never negative; [countTokens] of the Hunyuan adapter
    returns 0 for every request. *)
Theorem C5_token_estimates (request : CountTokensParameters) :
  (exists tokens : Z,
     KimiClient.countTokens request = Normal (MkCount tokens)
     /\ DeepSeekProxy.countTokens request = Normal (MkCount tokens)
     /\ isCeilingOfQuarter (totalCharacterCount request) tokens
     /\ 0 <= tokens)
  /\ HunyuanContentGenerator.countTokens request = Normal (MkCount 0).
Proof.
  split; [|reflexivity].
  exists (Math_ceil (quotient (totalCharacterCount request) 4)).
  pose proof (Math_ceil_quarter (totalCharacterCount request)) as Hceil.
  pose proof (totalCharacterCount_nonneg request) as Hpos.
  split; [apply Kimi_countTokens_total |].
  split; [apply DeepSeek_countTokens_total |].
  split; [exact Hceil |]. unfold isCeilingOfQuarter in Hceil. lia.
Qed.

(** ** Construction of the adapters *)

(** C7, the claim as stated, fails: the DeepSeek adapters are constructed
    with an empty and with an absent API key without any error, and so is
    the Hunyuan adapter over the client class that its test installs. *)
Lemma C7_counterexample_empty_key_is_accepted :
  DeepSeekProxy.constructor acceptingProxyAgent (Some "") None None idleProcess
  = (Normal (DeepSeekProxy.MkDsInstance (Some "") "https://api.deepseek.com" None),
     idleProcess)
  /\ DeepSeekProxy.constructor acceptingProxyAgent None None None idleProcess
     = (Normal (DeepSeekProxy.MkDsInstance None "https://api.deepseek.com" None),
        idleProcess)
  /\ DeepSeekTable.constructor (Some "") None None idleProcess
     = (Normal (DeepSeekTable.MkInstance (Some "") "https://api.deepseek.com"
                  "deepseek-chat"),
        idleProcess)
  /\ HunyuanContentGenerator.constructor MockOpenAI.MockOpenAI MockOpenAI.new
       (Some "") None idleProcess
     = (Normal (HunyuanContentGenerator.MkInstance MockOpenAI.MockOpenAI tt),
        idleProcess).
Proof. repeat split. Qed.

(** C7 (amended). The Kimi client's constructor throws "KIMI_API_KEY is
    required" when the API key is absent or empty, and returns the
    instance for a non-empty key; either way it leaves the process as it
    was (no request is sent). The Hunyuan adapter's constructor checks
    nothing itself: it ends as the constructor of the OpenAI client ends
    on the key it is given. The DeepSeek adapters' constructors accept
    every key, absent and empty included. *)
Theorem C7_api_key_at_construction (apiKey : option string) (w : Process) :
  (forall httpOptions,
     (apiKey = None \/ apiKey = Some "" ->
        KimiClient.constructor apiKey httpOptions w
        = (Throw "KIMI_API_KEY is required", w))
     /\ (forall key : string,
           apiKey = Some key -> key <> "" ->
           KimiClient.constructor apiKey httpOptions w
           = (Normal (KimiClient.MkInstance key "https://api.moonshot.cn/v1"
                        httpOptions), w)))
  /\ (forall (OpenAI : Type)
             (newOpenAI : HunyuanContentGenerator.ClientOptions -> Completion OpenAI)
             (baseURL : option string),
        HunyuanContentGenerator.constructor OpenAI newOpenAI apiKey baseURL w
        = (match newOpenAI (HunyuanContentGenerator.MkOptions apiKey
                              (JS.orString baseURL
                                 "https://api.hunyuan.cloud.tencent.com/v1")) with
           | Normal client =>
               Normal (HunyuanContentGenerator.MkInstance OpenAI client)
           | Throw e => Throw e
           end, w))
  /\ (forall newProxyAgent baseUrl,
        exists this,
          DeepSeekProxy.constructor newProxyAgent apiKey baseUrl None w
          = (Normal this, w)
          /\ DeepSeekProxy.apiKey this = apiKey)
  /\ (forall baseUrl defaultModel,
        exists this,
          DeepSeekTable.constructor apiKey baseUrl defaultModel w
          = (Normal this, w)
          /\ DeepSeekTable.apiKey this = apiKey).
Proof.
  repeat split.
  - by intros [-> | ->].
  - intros key -> Hkey. unfold KimiClient.constructor, JS.truthy.
    by rewrite decide_False.
  - intros OpenAI newOpenAI baseURL.
    unfold HunyuanContentGenerator.constructor, mbind, Eff_bind, lift.
    by destruct (newOpenAI _).
  - by eexists.
  - by eexists.
Qed.

Lemma C7_witness_kimi_keys :
  KimiClient.constructor (Some "") None idleProcess
  = (Throw "KIMI_API_KEY is required", idleProcess)
  /\ KimiClient.constructor (Some "sk-test") None idleProcess
     = (Normal (KimiClient.MkInstance "sk-test" "https://api.moonshot.cn/v1" None),
        idleProcess).
Proof.
  split.
  - apply (proj1 (C7_api_key_at_construction (Some "") idleProcess)). by right.
  - apply (proj1 (C7_api_key_at_construction (Some "sk-test") idleProcess));
      [reflexivity | discriminate].
Defined.

(** C10, the claim as stated, fails: constructing the DeepSeek adapter
    with a proxy replaces the dispatcher of the whole process, and a
    request that a Kimi client constructed afterwards sends goes out
    through that proxy. *)
Lemma C10_counterexample_proxy_sets_global_dispatcher :
  DeepSeekProxy.constructor acceptingProxyAgent (Some "sk-test") None
    (Some "http://127.0.0.1:8080") idleProcess
  = (Normal (DeepSeekProxy.MkDsInstance (Some "sk-test")
               "https://api.deepseek.com" (Some "http://127.0.0.1:8080")),
     MkProcess (ProxyAgent "http://127.0.0.1:8080") [])
  /\ MkProcess (ProxyAgent "http://127.0.0.1:8080") [] <> idleProcess
  /\ sent (snd ((DeepSeekProxy.constructor acceptingProxyAgent (Some "sk-test")
                   None (Some "http://127.0.0.1:8080");;
                 kimi ← KimiClient.constructor (Some "sk-kimi") None;
                 KimiClient.sendAndStream sampleKimiParse sampleServer kimi
                   sampleRequest) idleProcess))
     = [ (MkHttpRequest "https://api.moonshot.cn/v1/chat/completions"
            [ ("Content-Type", "application/json");
              ("Authorization", "Bearer sk-kimi") ],
          ProxyAgent "http://127.0.0.1:8080") ].
Proof. repeat split. discriminate. Qed.

(** C10 (amended). The constructor of the DeepSeek adapter writes nothing
    outside the instance when the proxy is absent or empty. With a
    non-empty proxy it makes a [ProxyAgent] for it the dispatcher of the
    whole process and changes nothing else; if the agent cannot be made,
    it throws and the process is as before. The constructors of the Kimi
    client and of the other DeepSeek adapter never write to the
    process. *)
Theorem C10_constructor_effects
    (newProxyAgent : string -> Completion Dispatcher)
    (apiKey baseUrl proxy : option string) (w : Process) :
  let this := DeepSeekProxy.MkDsInstance apiKey
                (JS.orString baseUrl "https://api.deepseek.com") proxy in
  (proxy = None \/ proxy = Some "" ->
     DeepSeekProxy.constructor newProxyAgent apiKey baseUrl proxy w
     = (Normal this, w))
  /\ (forall (uri : string) (agent : Dispatcher),
        proxy = Some uri -> uri <> "" -> newProxyAgent uri = Normal agent ->
        DeepSeekProxy.constructor newProxyAgent apiKey baseUrl proxy w
        = (Normal this, MkProcess agent (sent w)))
  /\ (forall (uri : string) (e : string),
        proxy = Some uri -> uri <> "" -> newProxyAgent uri = Throw e ->
        DeepSeekProxy.constructor newProxyAgent apiKey baseUrl proxy w
        = (Throw e, w))
  /\ (forall httpOptions, snd (KimiClient.constructor apiKey httpOptions w) = w)
  /\ (forall defaultModel,
        snd (DeepSeekTable.constructor apiKey baseUrl defaultModel w) = w).
Proof.
  intros this. unfold DeepSeekProxy.constructor. fold this. repeat split.
  - by intros [-> | ->].
  - intros uri agent -> Huri Hagent. unfold JS.truthy.
    rewrite decide_False by done.
    unfold mbind, Eff_bind, lift. by rewrite Hagent.
  - intros uri e -> Huri Hagent. unfold JS.truthy.
    rewrite decide_False by done.
    unfold mbind, Eff_bind, lift. by rewrite Hagent.
  - intros httpOptions. unfold KimiClient.constructor.
    by destruct (JS.truthy apiKey).
Qed.

Lemma C10_witness_no_proxy_and_proxy :
  DeepSeekProxy.constructor acceptingProxyAgent (Some "sk-test") None None
    idleProcess
  = (Normal (DeepSeekProxy.MkDsInstance (Some "sk-test")
               "https://api.deepseek.com" None), idleProcess)
  /\ DeepSeekProxy.constructor acceptingProxyAgent (Some "sk-test") None
       (Some "http://127.0.0.1:8080") idleProcess
     = (Normal (DeepSeekProxy.MkDsInstance (Some "sk-test")
                  "https://api.deepseek.com" (Some "http://127.0.0.1:8080")),
        MkProcess (ProxyAgent "http://127.0.0.1:8080") []).
Proof.
  split.
  - apply (proj1 (C10_constructor_effects acceptingProxyAgent (Some "sk-test")
                    None None idleProcess)). by left.
  - apply (proj1 (proj2 (C10_constructor_effects acceptingProxyAgent
                           (Some "sk-test") None
                           (Some "http://127.0.0.1:8080") idleProcess))
             "http://127.0.0.1:8080" (ProxyAgent "http://127.0.0.1:8080"));
      [reflexivity | discriminate | reflexivity].
Defined.

(** ** Translation of turns to messages *)

Lemma truthy_Some (t : string) :
  JS.truthy (Some t) = if decide (t = "") then None else Some t.
Proof. reflexivity. Qed.

Lemma Hunyuan_pushTurn_turnMessage (messages : list ChatMessage) (c : Content) :
  HunyuanContentGenerator.pushTurn messages c
  = messages ++ turnMessage JS.LINE_FEED c.
Proof.
  assert (Htext : JS.truthy (HunyuanContentGenerator.turnText c)
                  = JS.truthy (Some (String.concat JS.LINE_FEED
                                       (nonEmptyTexts (default [] (parts c)))))).
  { unfold HunyuanContentGenerator.turnText. by destruct (parts c). }
  unfold HunyuanContentGenerator.pushTurn, turnMessage, chatRoleOf.
  rewrite Htext, truthy_Some.
  repeat case_decide; simplify_eq; by rewrite ?app_nil_r.
Qed.

Lemma Kimi_texts_nonEmptyTexts (ps : list Part) :
  filter (fun t => (0 < String.length t)%nat)
    (map (fun p => JS.orString (text p) "") ps)
  = nonEmptyTexts ps.
Proof.
  unfold nonEmptyTexts. induction ps as [|p ps IH]; [done|].
  cbn [map]. rewrite filter_cons, IH. simpl.
  unfold JS.orString, JS.truthy. destruct (text p) as [t|]; simpl; [|done].
  destruct (decide (t = "")) as [->|Ht]; simpl; [done|].
  rewrite decide_True; [done|]. destruct t; [done | simpl; lia].
Qed.

Lemma Kimi_pushTurn_turnMessage (messages : list ChatMessage) (c : Content) :
  KimiClient.pushTurn messages c = messages ++ turnMessage "" c.
Proof.
  unfold KimiClient.pushTurn, turnMessage, chatRoleOf, KimiClient.turnText, JS.join.
  rewrite Kimi_texts_nonEmptyTexts, truthy_Some.
  repeat case_decide; simplify_eq; by rewrite ?app_nil_r.
Qed.

Lemma foldl_push_flat_map {A B : Type} (push : list B -> A -> list B)
    (one : A -> list B) (l : list A) (acc : list B) :
  (forall acc a, push acc a = acc ++ one a) ->
  foldl push acc l = acc ++ flat_map one l.
Proof.
  intros Hpush. revert acc. induction l as [|a l IH]; intros acc; simpl.
  - by rewrite app_nil_r.
  - by rewrite IH, Hpush, <- app_assoc.
Qed.

(** C8, the claim as stated, fails on the Kimi client: the two text parts
    "a" and "b" of one user turn become the content "ab", with no newline
    between them (the Hunyuan adapter gives "a", newline, "b"). *)
Lemma C8_counterexample_kimi_joins_without_newline :
  KimiClient.convertContentsToKimiMessages [twoTextParts] None
  = [MkMessage user "ab"]
  /\ "ab" <> "a" +:+ JS.LINE_FEED +:+ "b"
  /\ HunyuanContentGenerator.convertToOpenAIMessages [twoTextParts]
     = [MkMessage user ("a" +:+ JS.LINE_FEED +:+ "b")].
Proof. repeat split. discriminate. Qed.

(** C8 (amended). Every user or model turn is translated to at most one
    message, made of the non-empty texts of its parts in order. The
    Hunyuan adapter joins them with a newline between each pair of
    adjacent texts; the Kimi client concatenates them with nothing in
    between. A turn without a non-empty text gives no message. *)
Theorem C8_turn_texts_joined (contents : list Content) :
  HunyuanContentGenerator.convertToOpenAIMessages contents
  = flat_map (turnMessage JS.LINE_FEED) contents
  /\ KimiClient.convertContentsToKimiMessages contents None
     = flat_map (turnMessage "") contents.
Proof.
  split.
  - unfold HunyuanContentGenerator.convertToOpenAIMessages.
    by rewrite (foldl_push_flat_map _ (turnMessage JS.LINE_FEED))
      by apply Hunyuan_pushTurn_turnMessage.
  - unfold KimiClient.convertContentsToKimiMessages.
    by rewrite (foldl_push_flat_map _ (turnMessage ""))
      by apply Kimi_pushTurn_turnMessage.
Qed.

(** ** Splitting the received text into lines *)

Lemma split_LF_nonempty (s : string) : JS.split_LF s <> [].
Proof.
  destruct s as [|c s]; simpl; [done|].
  case_decide; [done|]. by destruct (JS.split_LF s).
Qed.

Lemma split_LF_cons (s : string) :
  exists first rest, JS.split_LF s = first :: rest.
Proof.
  pose proof (split_LF_nonempty s). destruct (JS.split_LF s); [done | eauto].
Qed.

Lemma noLineFeed_contains (s : string) :
  noLineFeed s = true <-> ~ contains s JS.LINE_FEED.
Proof.
  rewrite <- not_includes_contains.
  induction s as [|c s IH]; simpl; [done|].
  unfold JS.LINE_FEED in *. simpl.
  destruct (decide (JS.LF = c)) as [<-|Hne].
  - rewrite decide_True by done. simpl. split; [done|].
    by destruct s.
  - rewrite decide_False by done. rewrite IH. simpl. done.
Qed.

Lemma split_LF_noLineFeed (s : string) :
  noLineFeed s = true -> JS.split_LF s = [s].
Proof.
  induction s as [|c s IH]; simpl; [done|].
  case_decide; [done|]. intros Hs. by rewrite IH.
Qed.

Lemma split_LF_last_noLineFeed (s : string) :
  noLineFeed (popOrEmpty (JS.split_LF s)) = true.
Proof.
  unfold popOrEmpty. induction s as [|c s IH]; simpl; [done|].
  destruct (split_LF_cons s) as (first & rest & E). rewrite E in *.
  case_decide as Hc.
  - done.
  - destruct rest as [|second rest]; simpl in *; [|done].
    by rewrite decide_False.
Qed.

Lemma split_LF_app (a b : string) :
  JS.split_LF (a +:+ b)
  = afterPop (JS.split_LF a) ++ JS.split_LF (popOrEmpty (JS.split_LF a) +:+ b).
Proof.
  unfold afterPop, popOrEmpty. induction a as [|c a IH]; [done|].
  rewrite string_app_cons. simpl.
  destruct (split_LF_cons a) as (first & rest & E).
  case_decide as Hc.
  - rewrite IH, E. done.
  - rewrite IH, E. destruct rest as [|second rest]; simpl.
    + by rewrite decide_False by done.
    + done.
Qed.

Lemma List_last_app {A : Type} (l1 l2 : list A) (d : A) :
  l2 <> [] -> List.last (l1 ++ l2) d = List.last l2 d.
Proof.
  intros H. induction l1 as [|a l1 IH]; [done|].
  simpl. rewrite IH. destruct (l1 ++ l2) eqn:E; [|done].
  by apply app_eq_nil in E as [_ ->].
Qed.

Lemma readLines_lines {S : Type} (step : S -> string -> S)
    (pieces : list string) (buffer : string) (st : S) :
  noLineFeed buffer = true ->
  readLines step pieces buffer st
  = (popOrEmpty (JS.split_LF (buffer +:+ received pieces)),
     foldl step st (completeLines (buffer +:+ received pieces))).
Proof.
  unfold completeLines, received.
  revert buffer st. induction pieces as [|value rest IH]; intros buffer st Hb.
  - simpl. rewrite string_app_nil_r, split_LF_noLineFeed by done. done.
  - cbn [readLines concatenation foldr].
    rewrite IH by apply split_LF_last_noLineFeed.
    rewrite <- string_app_assoc, (split_LF_app (buffer +:+ value)).
    set (L1 := JS.split_LF (buffer +:+ value)).
    set (L2 := JS.split_LF (popOrEmpty L1 +:+ foldr String.append "" rest)).
    assert (L2 <> []) as HL2 by apply split_LF_nonempty.
    unfold popOrEmpty, afterPop.
    rewrite List_last_app by done. rewrite removelast_app by done.
    by rewrite foldl_app.
Qed.

Lemma split_LF_line (line rest : string) :
  noLineFeed line = true ->
  JS.split_LF (line +:+ JS.LINE_FEED +:+ rest) = line :: JS.split_LF rest.
Proof.
  induction line as [|c line IH].
  - intros _. unfold JS.LINE_FEED.
    by rewrite string_app_nil_l, string_app_cons, string_app_nil_l.
  - rewrite string_app_cons. simpl. case_decide; [done|]. intros Hs.
    by rewrite IH.
Qed.

Lemma split_LF_frameText (lines : list string) (tail : string) :
  Forall (fun line => ~ contains line JS.LINE_FEED) lines ->
  ~ contains tail JS.LINE_FEED ->
  JS.split_LF (frameText lines +:+ tail) = lines ++ [tail].
Proof.
  unfold frameText, concatenation. intros Hlines Htail.
  induction Hlines as [|line lines Hline _ IH].
  - simpl. rewrite string_app_nil_l.
    by apply split_LF_noLineFeed, noLineFeed_contains.
  - cbn [map foldr]. rewrite !string_app_assoc.
    rewrite split_LF_line by by apply noLineFeed_contains.
    by rewrite IH.
Qed.

Lemma completeLines_frameText (lines : list string) (tail : string) :
  Forall (fun line => ~ contains line JS.LINE_FEED) lines ->
  ~ contains tail JS.LINE_FEED ->
  completeLines (frameText lines +:+ tail) = lines
  /\ popOrEmpty (JS.split_LF (frameText lines +:+ tail)) = tail.
Proof.
  intros Hlines Htail. unfold completeLines, afterPop, popOrEmpty.
  rewrite split_LF_frameText by done.
  by rewrite List.removelast_last, List.last_last.
Qed.

(** ** Snapshots *)

Lemma snapshots_bounds (fragments : list string) (accumulated t : string) :
  t ∈ snapshots accumulated fragments ->
  (String.length accumulated <= String.length t
   <= String.length (accumulated +:+ concatenation fragments))%nat.
Proof.
  revert accumulated. induction fragments as [|f fs IH]; intros acc; simpl.
  - by intros ?%elem_of_nil.
  - unfold concatenation. cbn [foldr]. fold (concatenation fs).
    rewrite <- string_app_assoc.
    intros [-> | Hin%IH]%elem_of_cons; rewrite !string_app_length in *; lia.
Qed.

Lemma snapshots_grow (fragments : list string) (accumulated : string) :
  lengthsNeverDecrease (snapshots accumulated fragments).
Proof.
  revert accumulated. induction fragments as [|f fs IH]; intros acc i j a b Hij Ha Hb.
  - done.
  - simpl in Ha, Hb. destruct i as [|i], j as [|j]; simplify_eq/=; try lia.
    + apply list_elem_of_lookup_2, snapshots_bounds in Hb. lia.
    + eapply (IH _ i j); [lia | done..].
Qed.

Lemma lengthsNeverDecrease_snoc (texts : list string) (final : string) :
  lengthsNeverDecrease texts ->
  (forall t, t ∈ texts -> (String.length t <= String.length final)%nat) ->
  lengthsNeverDecrease (texts ++ [final]).
Proof.
  intros Hgrow Hfinal i j a b Hij Ha Hb.
  apply lookup_snoc_Some in Ha as [[Hi Ha] | [Hi <-]];
    apply lookup_snoc_Some in Hb as [[Hj Hb] | [Hj <-]].
  - exact (Hgrow i j a b Hij Ha Hb).
  - by apply list_elem_of_lookup_2, Hfinal in Ha.
  - lia.
  - done.
Qed.

Lemma concatenation_app (l1 l2 : list string) :
  concatenation (l1 ++ l2) = concatenation l1 +:+ concatenation l2.
Proof.
  unfold concatenation. induction l1 as [|s l1 IH]; [done|].
  simpl. by rewrite IH, string_app_assoc.
Qed.

Lemma snapshots_last (fragments : list string) (accumulated t : string) :
  last (snapshots accumulated fragments) = Some t ->
  t = accumulated +:+ concatenation fragments.
Proof.
  revert accumulated. induction fragments as [|f fs IH]; intros acc; [done|].
  unfold concatenation. cbn [snapshots foldr]. fold (concatenation fs).
  rewrite <- string_app_assoc. destruct fs as [|f' fs].
  - simpl. rewrite string_app_nil_r. congruence.
  - intros H. by apply IH.
Qed.

(** ** The stream of the Kimi client *)

Lemma foldl_omap {A B S : Type} (step : S -> A -> S) (f : A -> option B)
    (g : S -> B -> S) (l : list A) (st : S) :
  (forall st a, step st a = match f a with Some b => g st b | None => st end) ->
  foldl step st l = foldl g st (omap f l).
Proof.
  intros Hstep. revert st. induction l as [|a l IH]; intros st; [done|].
  simpl. rewrite Hstep. destruct (f a); simpl; by rewrite IH.
Qed.

Lemma Kimi_processLine_payload (JSON_parse : string -> option KimiClient.KimiStreamChunk)
    (st : KimiClient.StreamState) (line : string) :
  KimiClient.processLine JSON_parse st line
  = match (match kimiPayload line with
           | Some payload => JSON_parse payload
           | None => None
           end) with
    | Some chunk => KimiClient.processChunk st chunk
    | None => st
    end.
Proof.
  unfold KimiClient.processLine, kimiPayload.
  repeat case_decide; try done. by destruct (JS.startsWith line "data: ").
  by destruct (JS.startsWith line "data: ").
Qed.

Lemma Kimi_lines_chunks (JSON_parse : string -> option KimiClient.KimiStreamChunk)
    (lines : list string) (st : KimiClient.StreamState) :
  foldl (KimiClient.processLine JSON_parse) st lines
  = foldl KimiClient.processChunk st (chunksOf kimiPayload JSON_parse lines).
Proof. apply foldl_omap, Kimi_processLine_payload. Qed.

Lemma Kimi_processChunk_spec (st : KimiClient.StreamState)
    (chunk : KimiClient.KimiStreamChunk) :
  let st' := KimiClient.processChunk st chunk in
  match kimiFragment chunk with
  | Some fragment =>
      KimiClient.accumulatedContent st'
      = KimiClient.accumulatedContent st +:+ fragment
      /\ exists r, KimiClient.yields st' = KimiClient.yields st ++ [r]
         /\ responseText r = KimiClient.accumulatedContent st +:+ fragment
  | None =>
      KimiClient.accumulatedContent st' = KimiClient.accumulatedContent st
      /\ KimiClient.yields st' = KimiClient.yields st
  end.
Proof.
  cbv zeta. unfold KimiClient.processChunk, kimiFragment.
  destruct (KimiClient.choices chunk !! 0%nat) as [c|]; [|done].
  assert (forall t, responseText (KimiClient.incremental t c chunk) = t) as Htext.
  { intros t. unfold responseText, partsText, JS.join. simpl.
    reflexivity. }
  destruct (JS.truthy (KimiClient.contentOf (Some c))) as [fragment|];
    destruct (JS.truthy (KimiClient.finishOf (Some c))); simpl; eauto.
Qed.

Lemma Kimi_chunks_spec (chunks : list KimiClient.KimiStreamChunk)
    (st : KimiClient.StreamState) :
  let st' := foldl KimiClient.processChunk st chunks in
  let fragments := omap kimiFragment chunks in
  KimiClient.accumulatedContent st'
  = KimiClient.accumulatedContent st +:+ concatenation fragments
  /\ map responseText (KimiClient.yields st')
     = map responseText (KimiClient.yields st)
       ++ snapshots (KimiClient.accumulatedContent st) fragments.
Proof.
  revert st. induction chunks as [|chunk chunks IH]; intros st.
  - simpl. by rewrite string_app_nil_r, app_nil_r.
  - cbn [foldl omap list_omap]. cbv zeta in IH |- *.
    destruct (IH (KimiClient.processChunk st chunk)) as [IHa IHy].
    rewrite IHa, IHy. clear IH IHa IHy.
    pose proof (Kimi_processChunk_spec st chunk) as Hstep. cbv zeta in Hstep.
    destruct (kimiFragment chunk) as [fragment|].
    + destruct Hstep as (-> & r & -> & Hr).
      unfold concatenation. cbn [foldr snapshots].
      by rewrite map_app, <- app_assoc, string_app_assoc; simpl; rewrite Hr.
    + by destruct Hstep as (-> & ->).
Qed.

Lemma Kimi_stream_state (JSON_parse : string -> option KimiClient.KimiStreamChunk)
    (pieces : list string) :
  snd (KimiClient.readLoop JSON_parse pieces)
  = foldl KimiClient.processChunk KimiClient.initialState
      (chunksOf kimiPayload JSON_parse (completeLines (received pieces))).
Proof.
  unfold KimiClient.readLoop. rewrite readLines_lines by done.
  rewrite string_app_nil_l. simpl. apply Kimi_lines_chunks.
Qed.

(** ** The stream of the Hunyuan adapter *)

Lemma Hunyuan_step_spec (version : string)
    (st : HunyuanContentGenerator.StreamState)
    (chunk : HunyuanContentGenerator.ChatCompletionChunk) :
  let st' := HunyuanContentGenerator.step version st chunk in
  HunyuanContentGenerator.accumulatedText st'
  = HunyuanContentGenerator.accumulatedText st +:+ hunyuanFragment chunk
  /\ exists r,
       HunyuanContentGenerator.yields st' = HunyuanContentGenerator.yields st ++ [r]
       /\ responseText r
          = HunyuanContentGenerator.accumulatedText st +:+ hunyuanFragment chunk.
Proof.
  cbv zeta. unfold HunyuanContentGenerator.step, hunyuanFragment.
  destruct (JS.truthy (HunyuanContentGenerator.contentOf chunk)) as [fragment|];
    destruct (HunyuanContentGenerator.chunkUsage chunk); simpl;
    rewrite ?string_app_nil_r; eauto.
Qed.

Lemma Hunyuan_stream_spec (version : string)
    (stream : list HunyuanContentGenerator.ChatCompletionChunk)
    (st : HunyuanContentGenerator.StreamState) :
  map responseText
    (HunyuanContentGenerator.yields
       (foldl (HunyuanContentGenerator.step version) st stream))
  = map responseText (HunyuanContentGenerator.yields st)
    ++ snapshots (HunyuanContentGenerator.accumulatedText st)
         (map hunyuanFragment stream).
Proof.
  revert st. induction stream as [|chunk stream IH]; intros st.
  - simpl. by rewrite app_nil_r.
  - cbn [foldl map snapshots]. rewrite IH.
    destruct (Hunyuan_step_spec version st chunk) as (-> & r & -> & Hr).
    by rewrite map_app, <- app_assoc; simpl; rewrite Hr.
Qed.

(** C3 (amended). Every response that the stream of the Kimi client emits
    for a content fragment carries the concatenation of all the fragments
    received so far, in the order of the frames, so the lengths of the
    texts never decrease. When the stream ends, the client emits one final
    response, with finish reason STOP and the whole accumulated text, as
    the last item, if that text is not empty, and no final response if it
    is empty, whether or not a finish signal arrived. The stream of the
    Hunyuan adapter emits one response for every chunk, each with the
    concatenation of all the fragments so far, and no separate final
    response. In both, the last response emitted, if there is one,
    carries the whole accumulated text. *)
Theorem C3_stream_snapshots :
  (forall (JSON_parse : string -> option KimiClient.KimiStreamChunk)
          (request : GenerateContentParameters) (pieces : list string),
     let chunks :=
       chunksOf kimiPayload JSON_parse (completeLines (received pieces)) in
     let fragments := omap kimiFragment chunks in
     let run :=
       KimiClient.generateContentStream JSON_parse request (okResponse pieces) in
     outcome run = Normal tt
     /\ lengthsNeverDecrease (map responseText (emitted run))
     /\ (forall t : string,
           last (map responseText (emitted run)) = Some t ->
           t = concatenation fragments)
     /\ exists incrementals finals : list GenerateContentResponse,
          emitted run = incrementals ++ finals
          /\ map responseText incrementals = snapshots "" fragments
          /\ (concatenation fragments = "" -> finals = [])
          /\ (concatenation fragments <> "" ->
              exists final : GenerateContentResponse,
                finals = [final]
                /\ responseText final = concatenation fragments
                /\ firstFinishReason final = Some "STOP"))
  /\ (forall (request : GenerateContentParameters)
             (stream : list HunyuanContentGenerator.ChatCompletionChunk),
        let run :=
          HunyuanContentGenerator.streamGenerator request (Normal stream) in
        outcome run = Normal tt
        /\ lengthsNeverDecrease (map responseText (emitted run))
        /\ (forall t : string,
              last (map responseText (emitted run)) = Some t ->
              t = concatenation (map hunyuanFragment stream))
        /\ map responseText (emitted run)
           = snapshots "" (map hunyuanFragment stream)).
Proof.
  split.
  - intros JSON_parse request pieces chunks fragments run.
    subst run. unfold KimiClient.generateContentStream, okResponse. simpl.
    rewrite Kimi_stream_state. fold chunks.
    destruct (Kimi_chunks_spec chunks KimiClient.initialState) as [Hacc Hy].
    fold fragments in Hacc, Hy. simpl in Hacc, Hy.
    rewrite string_app_nil_l in Hacc.
    set (st := foldl KimiClient.processChunk KimiClient.initialState chunks) in *.
    split; [done|].
    assert (Hfinal : map responseText
                       (KimiClient.finalResponses
                          (KimiClient.mapModelToKimi (reqModel request)) st)
                     = if decide (concatenation fragments = "") then []
                       else [concatenation fragments]).
    { unfold KimiClient.finalResponses. rewrite Hacc, truthy_Some.
      by case_decide. }
    split; [|split].
    + rewrite map_app, Hy, Hfinal. case_decide.
      * rewrite app_nil_r. apply snapshots_grow.
      * apply lengthsNeverDecrease_snoc; [apply snapshots_grow|].
        intros t Ht%snapshots_bounds. rewrite string_app_nil_l in Ht. lia.
    + intros t. rewrite map_app, Hy, Hfinal. case_decide.
      * rewrite app_nil_r. by intros ->%snapshots_last.
      * rewrite last_snoc. congruence.
    + eexists _, _. split; [done|]. split; [done|].
      unfold KimiClient.finalResponses. rewrite Hacc, truthy_Some.
      split; intros H; [by rewrite decide_True | rewrite decide_False by done].
      by eexists.
  - intros request stream run. subst run. simpl.
    rewrite Hunyuan_stream_spec. simpl.
    split; [done|]. split; [apply snapshots_grow|].
    split; [|done]. by intros t ->%snapshots_last.
Qed.

Lemma C3_witness_hello_stream :
  map responseText
    (emitted (KimiClient.generateContentStream sampleKimiParse sampleRequest
                (okResponse helloStream)))
  = ["He"; "Hello"; "Hello"]
  /\ lengthsNeverDecrease
       (map responseText
          (emitted (KimiClient.generateContentStream sampleKimiParse
                      sampleRequest (okResponse helloStream))))
  /\ (forall t : string,
        last (map responseText
                (emitted (KimiClient.generateContentStream sampleKimiParse
                            sampleRequest (okResponse helloStream)))) = Some t ->
        t = "Hello").
Proof.
  split; [reflexivity|].
  destruct (proj1 C3_stream_snapshots sampleKimiParse sampleRequest helloStream)
    as (_ & Hgrow & Hlast & _).
  split; [exact Hgrow | exact Hlast].
Defined.

(** C3, the claim as stated, fails on the Kimi client: a stream whose only
    frame is a finish signal (reason "stop", no content) ends normally
    and emits nothing, so no final response follows the finish signal. *)
Lemma C3_counterexample_finish_signal_without_text :
  chunksOf kimiPayload sampleKimiParse (completeLines (received finishOnlyStream))
  = [kimiStopChunk]
  /\ kimiFinishSignal kimiStopChunk
  /\ KimiClient.generateContentStream sampleKimiParse sampleRequest
       (okResponse finishOnlyStream)
     = MkRun [] (Normal tt).
Proof. split; [reflexivity | split; [by eexists | reflexivity]]. Qed.

(** ** Malformed frames *)

Lemma Kimi_malformed_skipped
    (JSON_parse : string -> option KimiClient.KimiStreamChunk)
    (st : KimiClient.StreamState) (bad : string) :
  malformed kimiPayload JSON_parse bad ->
  KimiClient.processLine JSON_parse st bad = st.
Proof.
  intros (payload & Hpayload & Hparse).
  by rewrite Kimi_processLine_payload, Hpayload, Hparse.
Qed.

Lemma DeepSeek_processLine_payload (JSON_parse : string -> option Json)
    (JSON_parse_chunk : string -> option DeepSeekProxy.DeepSeekStreamChunk)
    (model : string) (yields : list DeepSeekProxy.Converted) (line : string) :
  DeepSeekProxy.processLine JSON_parse JSON_parse_chunk model yields line
  = match (match deepSeekPayload line with
           | Some payload => JSON_parse_chunk payload
           | None => None
           end) with
    | Some chunk =>
        yields ++ [DeepSeekProxy.convertDeepSeekStreamChunkToGemini
                     JSON_parse chunk model]
    | None => yields
    end.
Proof.
  unfold DeepSeekProxy.processLine, DeepSeekProxy.tryYield, deepSeekPayload.
  repeat case_decide; try done.
  by destruct (JS.startsWith (JS.trim line) "data: ").
Qed.

Lemma DeepSeek_malformed_skipped (JSON_parse : string -> option Json)
    (JSON_parse_chunk : string -> option DeepSeekProxy.DeepSeekStreamChunk)
    (model : string) (yields : list DeepSeekProxy.Converted) (bad : string) :
  malformed deepSeekPayload JSON_parse_chunk bad ->
  DeepSeekProxy.processLine JSON_parse JSON_parse_chunk model yields bad = yields.
Proof.
  intros (payload & Hpayload & Hparse).
  by rewrite DeepSeek_processLine_payload, Hpayload, Hparse.
Qed.

Lemma foldl_skip {S : Type} (step : S -> string -> S)
    (before after : list string) (bad : string) (st : S) :
  (forall st, step st bad = st) ->
  foldl step st (before ++ bad :: after) = foldl step st (before ++ after).
Proof. intros Hbad. by rewrite !foldl_app; simpl; rewrite Hbad. Qed.

Lemma readLines_frames {S : Type} (step : S -> string -> S)
    (pieces lines : list string) (tail : string) (st : S) :
  Forall (fun line => ~ contains line JS.LINE_FEED) lines ->
  ~ contains tail JS.LINE_FEED ->
  received pieces = frameText lines +:+ tail ->
  readLines step pieces "" st = (tail, foldl step st lines).
Proof.
  intros Hlines Htail Hpieces. rewrite readLines_lines by done.
  rewrite string_app_nil_l, Hpieces.
  by destruct (completeLines_frameText lines tail Hlines Htail) as [-> ->].
Qed.

Lemma Forall_skip {A : Type} (P : A -> Prop) (before after : list A) (bad : A) :
  Forall P (before ++ bad :: after) -> Forall P (before ++ after).
Proof.
  rewrite !Forall_app, Forall_cons. tauto.
Qed.

Lemma startsWith_slice (s p : string) :
  JS.startsWith s p = true -> s = p +:+ JS.slice s (String.length p).
Proof.
  revert s. induction p as [|a p IH]; intros s.
  { intros _. rewrite string_app_nil_l. by destruct s. }
  destruct s as [|b s]; [done|]. cbn [JS.startsWith String.length JS.slice].
  case_decide; [|done]. subst. intros H. rewrite string_app_cons. f_equal. by apply IH.
Qed.

Lemma DeepSeek_processRemaining_processLine (JSON_parse : string -> option Json)
    (JSON_parse_chunk : string -> option DeepSeekProxy.DeepSeekStreamChunk)
    (model buffer : string) (yields : list DeepSeekProxy.Converted) :
  DeepSeekProxy.processRemaining JSON_parse JSON_parse_chunk model buffer yields
  = DeepSeekProxy.processLine JSON_parse JSON_parse_chunk model yields buffer.
Proof.
  unfold DeepSeekProxy.processRemaining, DeepSeekProxy.processLine. cbv zeta.
  case_decide; [done|].
  destruct (JS.startsWith (JS.trim buffer) "data: ") eqn:Hp.
  - apply startsWith_slice in Hp. change (String.length "data: ") with 6%nat in Hp.
    case_decide as Hd.
    + rewrite decide_True; [done|]. by rewrite Hp, Hd.
    + rewrite decide_False; [done|]. intros He. apply Hd. by rewrite He.
  - case_decide as He; [|done]. by rewrite He in Hp.
Qed.

Lemma afterPop_popOrEmpty (lines : list string) :
  lines <> [] -> afterPop lines ++ [popOrEmpty lines] = lines.
Proof. intros H. symmetry. by apply app_removelast_last. Qed.

Lemma foldl_snoc_map {A B : Type} (g : A -> B) (l : list A) (acc : list B) :
  foldl (fun ys a => ys ++ [g a]) acc l = acc ++ map g l.
Proof.
  revert acc. induction l as [|a l IH]; intros acc; simpl.
  - by rewrite app_nil_r.
  - by rewrite IH, <- app_assoc.
Qed.

Lemma Kimi_stream_texts
    (JSON_parse : string -> option KimiClient.KimiStreamChunk)
    (request : GenerateContentParameters) (pieces : list string) :
  let fragments :=
    omap kimiFragment
      (chunksOf kimiPayload JSON_parse (completeLines (received pieces))) in
  KimiClient.accumulatedContent (snd (KimiClient.readLoop JSON_parse pieces))
  = concatenation fragments
  /\ map responseText
       (emitted (KimiClient.generateContentStream JSON_parse request
                   (okResponse pieces)))
     = snapshots "" fragments
       ++ (if decide (concatenation fragments = "") then []
           else [concatenation fragments]).
Proof.
  intros fragments. unfold KimiClient.generateContentStream, okResponse. simpl.
  rewrite Kimi_stream_state.
  destruct (Kimi_chunks_spec
              (chunksOf kimiPayload JSON_parse (completeLines (received pieces)))
              KimiClient.initialState) as [Hacc Hy].
  fold fragments in Hacc, Hy. simpl in Hacc, Hy. rewrite string_app_nil_l in Hacc.
  split; [done|]. rewrite map_app, Hy. f_equal.
  unfold KimiClient.finalResponses. rewrite Hacc, truthy_Some. by case_decide.
Qed.

Lemma toolCallDeltaPart_no_text (JSON_parse : string -> option Json)
    (calls : list DeepSeekProxy.ToolCallDelta) :
  omap text (omap (DeepSeekProxy.toolCallDeltaPart JSON_parse) calls) = [].
Proof.
  induction calls as [|call calls IH]; [done|]. cbn [omap list_omap].
  unfold DeepSeekProxy.toolCallDeltaPart at 1.
  destruct (DeepSeekProxy.toolFunction call) as [fn|]; [|exact IH].
  destruct (JS.truthy (DeepSeekProxy.fnArguments fn)) as [a|];
    [destruct (JSON_parse a)|]; exact IH.
Qed.

Lemma DeepSeek_converted_text (JSON_parse : string -> option Json)
    (chunk : DeepSeekProxy.DeepSeekStreamChunk) (model : string) :
  convertedText (DeepSeekProxy.convertDeepSeekStreamChunkToGemini JSON_parse chunk model)
  = deepSeekFragment chunk.
Proof.
  unfold convertedText, deepSeekFragment,
    DeepSeekProxy.convertDeepSeekStreamChunkToGemini.
  destruct (DeepSeekProxy.chunkChoices chunk !! 0%nat) as [choice|]; [|done].
  cbn [DeepSeekProxy.responseCandidates lookup list_lookup content parts turn
       default from_option id].
  unfold partsText. rewrite omap_app, toolCallDeltaPart_no_text, app_nil_r.
  by destruct (JS.truthy _).
Qed.

Lemma DeepSeek_stream_emitted (JSON_parse : string -> option Json)
    (JSON_parse_chunk : string -> option DeepSeekProxy.DeepSeekStreamChunk)
    (request : GenerateContentParameters) (pieces : list string) :
  emitted (DeepSeekProxy.generateContentStream JSON_parse JSON_parse_chunk request
             (okResponse pieces))
  = map (fun chunk =>
           DeepSeekProxy.convertDeepSeekStreamChunkToGemini JSON_parse chunk
             (reqModel request))
      (chunksOf deepSeekPayload JSON_parse_chunk (JS.split_LF (received pieces))).
Proof.
  unfold DeepSeekProxy.generateContentStream, DeepSeekProxy.readLoop. simpl.
  rewrite readLines_lines, string_app_nil_l by done.
  rewrite DeepSeek_processRemaining_processLine. cbn [emitted].
  set (lines := JS.split_LF (received pieces)).
  pose proof (afterPop_popOrEmpty lines (split_LF_nonempty _)) as Hlines.
  unfold completeLines. fold lines.
  rewrite <- Hlines at 3. unfold chunksOf.
  rewrite <- (app_nil_l (map _ _)), <- foldl_snoc_map.
  rewrite <- (foldl_omap (DeepSeekProxy.processLine JSON_parse JSON_parse_chunk
                            (reqModel request)))
    by (intros; apply DeepSeek_processLine_payload).
  by rewrite foldl_app.
Qed.

(** C4. A stream that contains a malformed data frame (its payload is
    not parseable) anywhere among its frames, however the text is cut into
    pieces and whatever follows the last line feed, ends normally and
    gives the same state and the same responses as the stream without
    that frame: the frame is dropped and nothing else changes. What the
    stream gives incorporates exactly the other frames. For the Kimi
    client, the accumulated text is the concatenation of the content
    fragments of the well-formed frames among them, in order, and the
    responses carry the snapshots of these fragments and then, when there
    is text, the whole text. For the DeepSeek adapter, there is one
    response for each well-formed frame among them (what follows the last
    line feed counts as a frame), in order, and it carries the content
    fragment of that frame. *)
Theorem C4_malformed_frames_are_skipped :
  (forall (JSON_parse : string -> option KimiClient.KimiStreamChunk)
          (request : GenerateContentParameters)
          (before after : list string) (bad tail : string)
          (pieces pieces' : list string),
     Forall (fun line => ~ contains line JS.LINE_FEED) (before ++ bad :: after) ->
     ~ contains tail JS.LINE_FEED ->
     malformed kimiPayload JSON_parse bad ->
     received pieces = frameText (before ++ bad :: after) +:+ tail ->
     received pieces' = frameText (before ++ after) +:+ tail ->
     let fragments :=
       omap kimiFragment (chunksOf kimiPayload JSON_parse (before ++ after)) in
     outcome (KimiClient.generateContentStream JSON_parse request
                (okResponse pieces)) = Normal tt
     /\ snd (KimiClient.readLoop JSON_parse pieces)
        = snd (KimiClient.readLoop JSON_parse pieces')
     /\ KimiClient.generateContentStream JSON_parse request (okResponse pieces)
        = KimiClient.generateContentStream JSON_parse request (okResponse pieces')
     /\ KimiClient.accumulatedContent (snd (KimiClient.readLoop JSON_parse pieces))
        = concatenation fragments
     /\ map responseText
          (emitted (KimiClient.generateContentStream JSON_parse request
                      (okResponse pieces)))
        = snapshots "" fragments
          ++ (if decide (concatenation fragments = "") then []
              else [concatenation fragments]))
  /\ (forall (JSON_parse : string -> option Json)
             (JSON_parse_chunk : string -> option DeepSeekProxy.DeepSeekStreamChunk)
             (request : GenerateContentParameters)
             (before after : list string) (bad tail : string)
             (pieces pieces' : list string),
        Forall (fun line => ~ contains line JS.LINE_FEED) (before ++ bad :: after) ->
        ~ contains tail JS.LINE_FEED ->
        malformed deepSeekPayload JSON_parse_chunk bad ->
        received pieces = frameText (before ++ bad :: after) +:+ tail ->
        received pieces' = frameText (before ++ after) +:+ tail ->
        let chunks :=
          chunksOf deepSeekPayload JSON_parse_chunk (before ++ after ++ [tail]) in
        outcome (DeepSeekProxy.generateContentStream JSON_parse JSON_parse_chunk
                   request (okResponse pieces)) = Normal tt
        /\ DeepSeekProxy.generateContentStream JSON_parse JSON_parse_chunk
             request (okResponse pieces)
           = DeepSeekProxy.generateContentStream JSON_parse JSON_parse_chunk
               request (okResponse pieces')
        /\ emitted (DeepSeekProxy.generateContentStream JSON_parse
                      JSON_parse_chunk request (okResponse pieces))
           = map (fun chunk =>
                    DeepSeekProxy.convertDeepSeekStreamChunkToGemini JSON_parse
                      chunk (reqModel request)) chunks
        /\ map convertedText
             (emitted (DeepSeekProxy.generateContentStream JSON_parse
                         JSON_parse_chunk request (okResponse pieces)))
           = map deepSeekFragment chunks).
Proof.
  split.
  - intros JSON_parse request before after bad tail pieces pieces'
      Hlines Htail Hbad Hp Hp' fragments.
    assert (Hstate : KimiClient.readLoop JSON_parse pieces
                     = KimiClient.readLoop JSON_parse pieces').
    { unfold KimiClient.readLoop.
      rewrite (readLines_frames _ pieces _ _ _ Hlines Htail Hp).
      rewrite (readLines_frames _ pieces' _ _ _
                 (Forall_skip _ _ _ _ Hlines) Htail Hp').
      f_equal. apply foldl_skip. intros st. by apply Kimi_malformed_skipped. }
    assert (Hrun :
      KimiClient.generateContentStream JSON_parse request (okResponse pieces)
      = KimiClient.generateContentStream JSON_parse request (okResponse pieces')).
    { unfold KimiClient.generateContentStream, okResponse. simpl.
      by rewrite Hstate. }
    split; [done|]. split; [by rewrite Hstate|]. split; [exact Hrun|].
    rewrite Hrun, Hstate.
    pose proof (Kimi_stream_texts JSON_parse request pieces') as Htexts.
    cbv zeta in Htexts. rewrite Hp' in Htexts.
    destruct (completeLines_frameText (before ++ after) tail
                (Forall_skip _ _ _ _ Hlines) Htail) as [Hcomplete _].
    by rewrite Hcomplete in Htexts.
  - intros JSON_parse JSON_parse_chunk request before after bad tail
      pieces pieces' Hlines Htail Hbad Hp Hp' chunks.
    assert (Hstate :
      DeepSeekProxy.readLoop JSON_parse JSON_parse_chunk (reqModel request) pieces
      = DeepSeekProxy.readLoop JSON_parse JSON_parse_chunk (reqModel request) pieces').
    { unfold DeepSeekProxy.readLoop.
      rewrite (readLines_frames _ pieces _ _ _ Hlines Htail Hp).
      rewrite (readLines_frames _ pieces' _ _ _
                 (Forall_skip _ _ _ _ Hlines) Htail Hp').
      f_equal. apply foldl_skip. intros st. by apply DeepSeek_malformed_skipped. }
    assert (Hrun :
      DeepSeekProxy.generateContentStream JSON_parse JSON_parse_chunk request
        (okResponse pieces)
      = DeepSeekProxy.generateContentStream JSON_parse JSON_parse_chunk request
          (okResponse pieces')).
    { unfold DeepSeekProxy.generateContentStream, okResponse. simpl.
      by rewrite Hstate. }
    assert (Hemitted :
      emitted (DeepSeekProxy.generateContentStream JSON_parse JSON_parse_chunk
                 request (okResponse pieces))
      = map (fun chunk =>
               DeepSeekProxy.convertDeepSeekStreamChunkToGemini JSON_parse chunk
                 (reqModel request)) chunks).
    { rewrite Hrun, DeepSeek_stream_emitted, Hp'.
      rewrite split_LF_frameText by (by eapply Forall_skip || done).
      by rewrite <- app_assoc. }
    split.
    { unfold DeepSeekProxy.generateContentStream, okResponse. simpl.
      by destruct (DeepSeekProxy.readLoop _ _ _ pieces). }
    split; [exact Hrun|]. split; [exact Hemitted|].
    rewrite Hemitted, map_map. apply map_ext. intros chunk.
    apply DeepSeek_converted_text.
Qed.

Lemma no_LINE_FEED (line : string) :
  JS.includes line JS.LINE_FEED = false -> ~ contains line JS.LINE_FEED.
Proof. apply not_includes_contains. Qed.

Lemma C4_witness_not_json_between_two_frames :
  let frames := [frameHe; frameNotJson; frameLlo; frameDone] in
  let valid := [frameHe; frameLlo; frameDone] in
  malformed kimiPayload sampleKimiParse frameNotJson
  /\ KimiClient.generateContentStream sampleKimiParse sampleRequest
       (okResponse [frameText frames])
     = KimiClient.generateContentStream sampleKimiParse sampleRequest
         (okResponse [frameText valid])
  /\ map responseText
       (emitted (KimiClient.generateContentStream sampleKimiParse sampleRequest
                   (okResponse [frameText frames])))
     = ["He"; "Hello"; "Hello"]
  /\ DeepSeekProxy.generateContentStream noArguments sampleDeepSeekParse
       sampleRequest (okResponse [frameText frames])
     = DeepSeekProxy.generateContentStream noArguments sampleDeepSeekParse
         sampleRequest (okResponse [frameText valid])
  /\ map convertedText
       (emitted (DeepSeekProxy.generateContentStream noArguments
                   sampleDeepSeekParse sampleRequest
                   (okResponse [frameText frames])))
     = ["He"; "llo"].
Proof.
  intros frames valid.
  assert (Hlines : Forall (fun line => ~ contains line JS.LINE_FEED)
                     ([frameHe] ++ frameNotJson :: [frameLlo; frameDone])).
  { repeat constructor; apply no_LINE_FEED; reflexivity. }
  assert (Htail : ~ contains "" JS.LINE_FEED).
  { apply no_LINE_FEED; reflexivity. }
  assert (Hkimi : malformed kimiPayload sampleKimiParse frameNotJson).
  { exists "not-json". split; reflexivity. }
  assert (Hds : malformed deepSeekPayload sampleDeepSeekParse frameNotJson).
  { exists "not-json". split; reflexivity. }
  destruct (proj1 C4_malformed_frames_are_skipped sampleKimiParse sampleRequest
              [frameHe] [frameLlo; frameDone] frameNotJson ""
              [frameText frames] [frameText valid] Hlines Htail Hkimi
              eq_refl eq_refl) as (_ & _ & Hrun & _ & Htexts).
  destruct (proj2 C4_malformed_frames_are_skipped noArguments sampleDeepSeekParse
              sampleRequest [frameHe] [frameLlo; frameDone] frameNotJson ""
              [frameText frames] [frameText valid] Hlines Htail Hds
              eq_refl eq_refl) as (_ & Hrun' & _ & Htexts').
  split; [exact Hkimi|]. split; [exact Hrun|]. split; [exact Htexts|].
  split; [exact Hrun'|exact Htexts'].
Defined.

(** * Further properties of the code *)

(** ** The model resolver and the model mapping *)

(** X1. Resolving a model twice in the same mode gives what resolving it
    once gives: the name that the resolver returns is one it leaves
    alone. *)
Theorem getEffectiveModel_idempotent (isInFallbackMode : bool)
    (requestedModel : string) :
  Models.getEffectiveModel isInFallbackMode
    (Models.getEffectiveModel isInFallbackMode requestedModel)
  = Models.getEffectiveModel isInFallbackMode requestedModel.
Proof.
  destruct isInFallbackMode; [|reflexivity].
  unfold Models.getEffectiveModel. simpl.
  destruct (JS.includes requestedModel "lite") eqn:Hlite.
  - by rewrite Hlite.
  - by destruct (JS.includes requestedModel "hunyuan").
Qed.

Lemma modelMap_values (k v : string) :
  KimiClient.modelMap !! k = Some v ->
  v = "moonshot-v1-8k" \/ v = "moonshot-v1-32k" \/ v = "moonshot-v1-128k".
Proof.
  revert k v.
  change (map_Forall (fun (_ : string) v =>
            v = "moonshot-v1-8k" \/ v = "moonshot-v1-32k" \/ v = "moonshot-v1-128k")
            KimiClient.modelMap).
  apply (bool_decide_unpack _). vm_compute. exact I.
Qed.

(** X2. A model name that [mapModelToKimi] returns is mapped to itself:
    the identifiers of the table and the names that pass through are fixed
    points of the mapping. *)
Theorem mapModelToKimi_idempotent (model name : string) :
  KimiClient.mapModelToKimi model = KimiClient.ModelName name ->
  KimiClient.mapModelToKimi name = KimiClient.ModelName name.
Proof.
  unfold KimiClient.mapModelToKimi at 1. unfold KimiClient.readModelMap.
  destruct (KimiClient.modelMap !! JS.toLowerCase model) as [v|] eqn:Hv.
  - pose proof (modelMap_values _ _ Hv) as Hval.
    pose proof (modelMap_values_truthy _ _ Hv) as Hne.
    simpl. rewrite decide_False by done. simpl. intros [= <-].
    by destruct Hval as [-> | [-> | ->]].
  - case_bool_decide; [done|].
    destruct (JS.startsWith _ "kimi-" || JS.startsWith _ "moonshot-") eqn:Hp.
    + intros [= <-]. unfold KimiClient.mapModelToKimi, KimiClient.readModelMap.
      rewrite Hv, bool_decide_eq_false_2, Hp by done. done.
    + by intros [= <-].
Qed.

Lemma mapModelToKimi_idempotent_witness :
  KimiClient.mapModelToKimi "moonshot-v1-8k"
  = KimiClient.ModelName "moonshot-v1-8k".
Proof. apply (mapModelToKimi_idempotent "Kimi-Pro"). reflexivity. Defined.

(** ** Lines of a stream *)

(** X3. The stream of the Kimi client depends only on the complete lines
    of the text it received: neither the places where the transport cut
    the text, nor what follows the last line feed, changes what is
    emitted. *)
Theorem Kimi_stream_depends_on_complete_lines
    (JSON_parse : string -> option KimiClient.KimiStreamChunk)
    (request : GenerateContentParameters) (pieces pieces' : list string) :
  completeLines (received pieces) = completeLines (received pieces') ->
  KimiClient.generateContentStream JSON_parse request (okResponse pieces)
  = KimiClient.generateContentStream JSON_parse request (okResponse pieces').
Proof.
  intros H. unfold KimiClient.generateContentStream. simpl.
  by rewrite !Kimi_stream_state, H.
Qed.

Lemma Kimi_stream_depends_on_complete_lines_witness :
  KimiClient.generateContentStream sampleKimiParse sampleRequest (okResponse helloStream)
  = KimiClient.generateContentStream sampleKimiParse sampleRequest
      (okResponse [ frameHe +:+ JS.LINE_FEED; frameLlo +:+ JS.LINE_FEED;
                    frameStop +:+ JS.LINE_FEED +:+ frameDone +:+ JS.LINE_FEED
                    +:+ frameHe ]).
Proof. apply Kimi_stream_depends_on_complete_lines. vm_compute. reflexivity. Defined.

(** X4. The stream of the DeepSeek adapter with the proxy emits one
    response for every well-formed frame of the received text, in the
    order of the frames, each the conversion of that frame alone. The
    lines are those of the whole text, the last one included even when no
    line feed ends it; so the places where the transport cut the text do
    not matter. *)
Theorem DeepSeek_stream_processes_every_line
    (JSON_parse : string -> option Json)
    (JSON_parse_chunk : string -> option DeepSeekProxy.DeepSeekStreamChunk)
    (request : GenerateContentParameters) (pieces : list string) :
  DeepSeekProxy.generateContentStream JSON_parse JSON_parse_chunk request
    (okResponse pieces)
  = MkRun (map (fun chunk =>
                  DeepSeekProxy.convertDeepSeekStreamChunkToGemini
                    JSON_parse chunk (reqModel request))
             (chunksOf deepSeekPayload JSON_parse_chunk
                (JS.split_LF (received pieces))))
          (Normal tt).
Proof.
  unfold DeepSeekProxy.generateContentStream, DeepSeekProxy.readLoop. simpl.
  rewrite readLines_lines, string_app_nil_l by done.
  rewrite DeepSeek_processRemaining_processLine. f_equal.
  set (lines := JS.split_LF (received pieces)).
  pose proof (afterPop_popOrEmpty lines (split_LF_nonempty _)) as Hlines.
  unfold completeLines. fold lines.
  rewrite <- Hlines at 3. unfold chunksOf.
  rewrite <- (app_nil_l (map _ _)), <- foldl_snoc_map.
  rewrite <- (foldl_omap (DeepSeekProxy.processLine JSON_parse JSON_parse_chunk
                            (reqModel request)))
    by (intros; apply DeepSeek_processLine_payload).
  by rewrite foldl_app.
Qed.

(** ** Usage metadata of the streams *)

Lemma Math_floor_quarter (n : Z) : isFloorOfQuarter n (Math_floor (quotient n 4)).
Proof.
  unfold isFloorOfQuarter, Math_floor, quotient, Qfloor. simpl.
  change (Z.pos (1 * 4)) with 4. rewrite Z.mul_1_r.
  pose proof (Z_div_mod_eq_full n 4).
  pose proof (Z.mod_pos_bound n 4). lia.
Qed.

Lemma Kimi_processChunk_usage (st : KimiClient.StreamState)
    (chunk : KimiClient.KimiStreamChunk) :
  let st' := KimiClient.processChunk st chunk in
  (~ kimiFinishSignal chunk -> KimiClient.usage st' = KimiClient.usage st)
  /\ (kimiFinishSignal chunk ->
      exists e, KimiClient.usage st' = Some (MkUsage 0 e e)
        /\ isFloorOfQuarter
             (Z.of_nat (String.length (KimiClient.accumulatedContent st'))) e).
Proof.
  cbv zeta. unfold KimiClient.processChunk, kimiFinishSignal. cbv zeta.
  destruct (JS.truthy (KimiClient.finishOf _)) as [reason|].
  - split; [intros []; eauto|]. intros _. eexists. split; [reflexivity|].
    apply Math_floor_quarter.
  - split; [|by intros [? [=]]]. intros _.
    destruct (KimiClient.choices chunk !! 0%nat); [|done].
    by destruct (JS.truthy (KimiClient.contentOf _)).
Qed.

Lemma Kimi_chunks_usage_kept (chunks : list KimiClient.KimiStreamChunk)
    (st : KimiClient.StreamState) :
  Forall (fun chunk => ~ kimiFinishSignal chunk) chunks ->
  KimiClient.usage (foldl KimiClient.processChunk st chunks) = KimiClient.usage st.
Proof.
  intros H. revert st. induction H as [|chunk chunks Hc _ IH]; intros st; [done|].
  simpl. rewrite IH. by apply Kimi_processChunk_usage.
Qed.

Lemma concatenation_nil_inv (l : list string) :
  Forall (fun s => s <> "") l -> concatenation l = "" -> l = [].
Proof.
  destruct 1 as [|s l Hs _]; [done|]. unfold concatenation. simpl.
  destruct s; [done|]. by rewrite string_app_cons.
Qed.

Lemma kimiFragment_nonempty (chunks : list KimiClient.KimiStreamChunk) :
  Forall (fun s => s <> "") (omap kimiFragment chunks).
Proof.
  induction chunks as [|chunk chunks IH]; [constructor|].
  cbn [omap list_omap]. destruct (kimiFragment chunk) as [fragment|] eqn:Hf; [|done].
  constructor; [|done]. unfold kimiFragment, JS.truthy in Hf.
  destruct (KimiClient.contentOf _); [|done]. case_decide; [done|]. by simplify_eq.
Qed.

(** X5. The usage of the last response of a stream of the Kimi client. When
    no chunk carried a finish signal, the last response has no usage
    metadata. Otherwise its usage is the estimate made at the last finish
    signal: no prompt tokens, and for the candidates and the total the
    floor of a quarter of the length of the text accumulated up to that
    chunk, whatever arrived after it. *)
Theorem Kimi_final_usage_estimate
    (JSON_parse : string -> option KimiClient.KimiStreamChunk)
    (request : GenerateContentParameters) (pieces : list string)
    (final : GenerateContentResponse) :
  let chunks := chunksOf kimiPayload JSON_parse (completeLines (received pieces)) in
  last (emitted (KimiClient.generateContentStream JSON_parse request
                   (okResponse pieces))) = Some final ->
  (Forall (fun chunk => ~ kimiFinishSignal chunk) chunks ->
   usageMetadata final = None)
  /\ (forall before chunk after,
        chunks = before ++ chunk :: after ->
        kimiFinishSignal chunk ->
        Forall (fun later => ~ kimiFinishSignal later) after ->
        exists e,
          usageMetadata final = Some (MkUsage 0 e e)
          /\ isFloorOfQuarter
               (Z.of_nat (String.length
                  (concatenation (omap kimiFragment (before ++ [chunk]))))) e).
Proof.
  intros chunks. unfold KimiClient.generateContentStream. simpl.
  rewrite Kimi_stream_state. fold chunks.
  set (st := foldl KimiClient.processChunk KimiClient.initialState chunks).
  destruct (Kimi_chunks_spec chunks KimiClient.initialState) as [Hacc Hyields].
  fold st in Hacc, Hyields. simpl in Hacc, Hyields.
  rewrite string_app_nil_l in Hacc.
  unfold KimiClient.finalResponses, JS.truthy.
  case_decide as Hempty.
  { rewrite Hacc in Hempty.
    apply concatenation_nil_inv in Hempty; [|apply kimiFragment_nonempty].
    rewrite Hempty in Hyields. simpl in Hyields.
    apply map_eq_nil in Hyields. by rewrite Hyields. }
  rewrite last_snoc. intros [= <-]. simpl. split.
  - intros Hnone. unfold st. by rewrite Kimi_chunks_usage_kept.
  - intros before chunk after Hsplit Hfinish Hafter.
    unfold st. rewrite Hsplit, foldl_app. simpl.
    rewrite Kimi_chunks_usage_kept by done.
    destruct (Kimi_processChunk_usage
                (foldl KimiClient.processChunk KimiClient.initialState before)
                chunk) as [_ Hu].
    destruct (Hu Hfinish) as (e & He & Hfloor). exists e. split; [done|].
    destruct (Kimi_chunks_spec (before ++ [chunk]) KimiClient.initialState)
      as [Hacc' _].
    rewrite foldl_app in Hacc'. simpl in Hacc'.
    rewrite string_app_nil_l in Hacc'. by rewrite <- Hacc'.
Qed.

Lemma Kimi_final_usage_estimate_witness :
  exists final e,
    last (emitted (KimiClient.generateContentStream sampleKimiParse sampleRequest
                     (okResponse helloStream))) = Some final
    /\ usageMetadata final = Some (MkUsage 0 e e)
    /\ isFloorOfQuarter 5 e.
Proof.
  eexists. 
  destruct (Kimi_final_usage_estimate sampleKimiParse sampleRequest helloStream _
              eq_refl) as [_ H].
  destruct (H [kimiContentChunk "He"; kimiContentChunk "llo"] kimiStopChunk [])
    as (e & He & Hfloor).
  - vm_compute. reflexivity.
  - vm_compute. eauto.
  - constructor.
  - exists e. split; [reflexivity|]. split; [exact He | exact Hfloor].
Defined.

Lemma orNumber_0_r (a : Z) : JS.orNumber a 0 = a.
Proof. unfold JS.orNumber. by case_decide. Qed.

Lemma truthy_nonempty (o : option string) (t : string) :
  JS.truthy o = Some t -> t <> "".
Proof.
  unfold JS.truthy. destruct o as [s|]; [|done]. case_decide; [done|].
  by intros [= <-].
Qed.

Lemma Hunyuan_step_usage (version : string)
    (st : HunyuanContentGenerator.StreamState)
    (chunk : HunyuanContentGenerator.ChatCompletionChunk) :
  let st' := HunyuanContentGenerator.step version st chunk in
  HunyuanContentGenerator.candidatesTokenCount' st'
  = HunyuanContentGenerator.candidatesTokenCount' st + contentChunkCount [chunk]
  /\ HunyuanContentGenerator.promptTokens st'
     = from_option HunyuanContentGenerator.prompt_tokens
         (HunyuanContentGenerator.promptTokens st)
         (HunyuanContentGenerator.chunkUsage chunk)
  /\ HunyuanContentGenerator.totalTokens' st'
     = from_option HunyuanContentGenerator.total_tokens
         (HunyuanContentGenerator.totalTokens' st)
         (HunyuanContentGenerator.chunkUsage chunk)
  /\ exists r,
       HunyuanContentGenerator.yields st' = HunyuanContentGenerator.yields st ++ [r]
       /\ usageMetadata r
          = Some {| promptTokenCount := HunyuanContentGenerator.promptTokens st';
                    candidatesTokenCount :=
                      HunyuanContentGenerator.candidatesTokenCount' st';
                    totalTokenCount :=
                      JS.orNumber (HunyuanContentGenerator.totalTokens' st')
                        (HunyuanContentGenerator.promptTokens st'
                         + HunyuanContentGenerator.candidatesTokenCount' st') |}.
Proof.
  cbv zeta. unfold HunyuanContentGenerator.step, contentChunkCount, hunyuanFragment.
  rewrite filter_cons, filter_nil.
  destruct (JS.truthy (HunyuanContentGenerator.contentOf chunk)) as [fragment|] eqn:Hf.
  - apply truthy_nonempty in Hf. rewrite decide_True by done.
    destruct (HunyuanContentGenerator.chunkUsage chunk) as [u|]; simpl;
      rewrite ?orNumber_0_r; eauto 10.
  - rewrite decide_False by (intros H; by apply H).
    destruct (HunyuanContentGenerator.chunkUsage chunk) as [u|]; simpl;
      rewrite ?orNumber_0_r, ?Z.add_0_r; eauto 10.
Qed.

Lemma Hunyuan_stream_state (version : string)
    (stream : list HunyuanContentGenerator.ChatCompletionChunk) :
  let st := foldl (HunyuanContentGenerator.step version)
              HunyuanContentGenerator.initialState stream in
  HunyuanContentGenerator.candidatesTokenCount' st = contentChunkCount stream
  /\ HunyuanContentGenerator.promptTokens st
     = from_option HunyuanContentGenerator.prompt_tokens 0 (latestReportedUsage stream)
  /\ HunyuanContentGenerator.totalTokens' st
     = from_option HunyuanContentGenerator.total_tokens 0 (latestReportedUsage stream)
  /\ length (HunyuanContentGenerator.yields st) = length stream.
Proof.
  induction stream as [|chunk stream IH] using rev_ind; [done|].
  cbv zeta in IH |- *. rewrite foldl_app. simpl.
  set (st := foldl _ _ stream) in *.
  destruct IH as (Hc & Hp & Ht & Hlen).
  destruct (Hunyuan_step_usage version st chunk) as (-> & -> & -> & r & -> & _).
  unfold contentChunkCount, latestReportedUsage in *.
  rewrite filter_app, omap_app, !length_app, Hc, Hp, Ht, Hlen. cbn [omap list_omap].
  destruct (HunyuanContentGenerator.chunkUsage chunk) as [u|]; simpl;
    rewrite ?app_nil_r, ?last_snoc; simpl; repeat split; lia.
Qed.

Lemma contentChunkCount_bounds
    (stream : list HunyuanContentGenerator.ChatCompletionChunk) (n : nat) :
  0 <= contentChunkCount (take n stream) <= Z.of_nat (length stream).
Proof.
  unfold contentChunkCount.
  pose proof (length_filter (fun chunk => hunyuanFragment chunk <> "")
                (take n stream)) as Hfilter.
  pose proof (length_take stream n). lia.
Qed.

Lemma latestReportedUsage_reported
    (stream : list HunyuanContentGenerator.ChatCompletionChunk) (n : nat)
    (u : HunyuanContentGenerator.CompletionUsage) :
  latestReportedUsage (take n stream) = Some u ->
  exists chunk,
    chunk ∈ stream /\ HunyuanContentGenerator.chunkUsage chunk = Some u.
Proof.
  unfold latestReportedUsage. intros Hlast%last_Some_elem_of.
  apply list_elem_of_omap in Hlast as (chunk & Hin & Hu).
  exists chunk. split; [|done]. by apply (subseteq_take n stream).
Qed.

(** X6. The usage of the responses of a stream of the Hunyuan adapter,
    when the counts that the provider reports are safe integers and stay
    so when the number of chunks is added. The adapter emits one response
    per chunk. The response for a chunk counts as candidate tokens the
    chunks so far that carried content (chunks, not tokens), takes its
    prompt tokens from the usage that the provider reported last, and as
    total that reported total, or the sum of the two other counts when no
    total, or a total of zero, was reported. These counts and that sum are
    safe integers, so the sum that the adapter computes is exact. *)
Theorem Hunyuan_stream_usage (request : GenerateContentParameters)
    (stream : list HunyuanContentGenerator.ChatCompletionChunk) :
  safeUsage stream ->
  let run := HunyuanContentGenerator.streamGenerator request (Normal stream) in
  length (emitted run) = length stream
  /\ forall (k : nat) (r : GenerateContentResponse),
       emitted run !! k = Some r ->
       let seen := take (S k) stream in
       let prompt :=
         from_option HunyuanContentGenerator.prompt_tokens 0
           (latestReportedUsage seen) in
       let total :=
         from_option HunyuanContentGenerator.total_tokens 0
           (latestReportedUsage seen) in
       usageMetadata r
       = Some {| promptTokenCount := prompt;
                 candidatesTokenCount := contentChunkCount seen;
                 totalTokenCount :=
                   if decide (total = 0) then prompt + contentChunkCount seen
                   else total |}
       /\ safeCount prompt
       /\ safeCount total
       /\ safeCount (contentChunkCount seen)
       /\ safeCount (prompt + contentChunkCount seen).
Proof.
  intros [Hlength Hsafe]. cbv zeta. simpl. split; [apply Hunyuan_stream_state|].
  intros k r Hk. split.
  - clear Hlength Hsafe. revert k r Hk.
    induction stream as [|chunk stream IH] using rev_ind; [done|].
    intros k r. rewrite foldl_app. simpl.
    destruct (Hunyuan_stream_state (reqModel request) stream) as (_ & _ & _ & Hlen).
    destruct (Hunyuan_step_usage (reqModel request)
                (foldl (HunyuanContentGenerator.step (reqModel request))
                   HunyuanContentGenerator.initialState stream) chunk)
      as (_ & _ & _ & r' & Hy & Hu).
    rewrite Hy. intros Hk. apply lookup_snoc_Some in Hk as [[Hlt Hk] | [Hk <-]].
    + rewrite Hlen in Hlt. rewrite take_app_le by lia. by apply IH.
    + rewrite Hlen in Hk. subst k.
      rewrite take_app_ge by lia.
      replace (S (length stream) - length stream)%nat with 1%nat by lia.
      rewrite firstn_all2 by (simpl; lia). simpl. rewrite Hu.
      pose proof (Hunyuan_stream_state (reqModel request) (stream ++ [chunk])) as Hst.
      cbv zeta in Hst. rewrite foldl_app in Hst. simpl in Hst.
      destruct Hst as (-> & -> & -> & _). reflexivity.
  - pose proof (contentChunkCount_bounds stream (S k)) as Hcount.
    unfold safeCount in *.
    destruct (latestReportedUsage (take (S k) stream)) as [u|] eqn:Hlatest; simpl.
    + apply latestReportedUsage_reported in Hlatest as (chunk & Hin & Hu).
      rewrite Forall_forall in Hsafe. specialize (Hsafe chunk Hin).
      rewrite Hu in Hsafe. lia.
    + unfold MAX_SAFE_INTEGER in *. lia.
Qed.

Lemma Hunyuan_stream_usage_witness :
  length (emitted (HunyuanContentGenerator.streamGenerator sampleRequest
                     (Normal hunyuanUsageStream)))
  = length hunyuanUsageStream.
Proof.
  refine (proj1 (Hunyuan_stream_usage sampleRequest hunyuanUsageStream _)).
  unfold safeUsage, safeCount, MAX_SAFE_INTEGER.
  split; [by vm_compute|]. repeat constructor; by vm_compute.
Defined.

(** ** Messages of a request *)

Lemma turnMessage_nonempty (sep : string) (c : Content) :
  Forall (fun m => msgContent m <> "") (turnMessage sep c)
  /\ (length (turnMessage sep c) <= 1)%nat.
Proof.
  unfold turnMessage. destruct (chatRoleOf (role c)); [|by split; [constructor|simpl; lia]].
  simpl. case_decide; split; simpl; try lia; repeat constructor; done.
Qed.

Lemma flat_map_turnMessage (sep : string) (contents : list Content) :
  Forall (fun m => msgContent m <> "") (flat_map (turnMessage sep) contents)
  /\ (length (flat_map (turnMessage sep) contents) <= length contents)%nat.
Proof.
  induction contents as [|c contents [IHa IHb]]; [by split; [constructor|]|].
  destruct (turnMessage_nonempty sep c) as [Ha Hb]. simpl.
  rewrite length_app. split; [by apply Forall_app|lia].
Qed.

(** X7. The system instruction of a request for the Kimi client never
    changes the messages of the turns: the messages with a system
    instruction are those without it, preceded by one system message that
    carries the text of the instruction, when that text is not empty. *)
Theorem Kimi_system_instruction_first (contents : list Content)
    (systemInstruction : option SystemInstruction) :
  KimiClient.convertContentsToKimiMessages contents systemInstruction
  = kimiSystemMessage systemInstruction
    ++ KimiClient.convertContentsToKimiMessages contents None.
Proof.
  unfold KimiClient.convertContentsToKimiMessages, kimiSystemMessage. cbv zeta.
  rewrite !(foldl_push_flat_map _ _ _ _ Kimi_pushTurn_turnMessage).
  f_equal. destruct systemInstruction as [si|]; [|done].
  rewrite truthy_Some. by case_decide.
Qed.

(** X8. The Kimi client and the Hunyuan adapter never put a message with
    an empty content into a request, and a conversation gives at most one
    message per turn (and one more for the system instruction of the Kimi
    client). *)
Theorem messages_are_never_empty (contents : list Content)
    (systemInstruction : option SystemInstruction) :
  let kimi := KimiClient.convertContentsToKimiMessages contents systemInstruction in
  let hunyuan := HunyuanContentGenerator.convertToOpenAIMessages contents in
  Forall (fun m => msgContent m <> "") kimi
  /\ (length kimi <= 1 + length contents)%nat
  /\ Forall (fun m => msgContent m <> "") hunyuan
  /\ (length hunyuan <= length contents)%nat.
Proof.
  cbv zeta.
  unfold KimiClient.convertContentsToKimiMessages,
    HunyuanContentGenerator.convertToOpenAIMessages. cbv zeta.
  rewrite (foldl_push_flat_map _ _ _ _ Kimi_pushTurn_turnMessage).
  rewrite (foldl_push_flat_map _ _ _ _ Hunyuan_pushTurn_turnMessage).
  destruct (flat_map_turnMessage "" contents) as [Ka Kb].
  destruct (flat_map_turnMessage JS.LINE_FEED contents) as [Ha Hb].
  set (sys := match systemInstruction with Some _ => _ | None => _ end).
  assert (Forall (fun m => msgContent m <> "") sys /\ (length sys <= 1)%nat)
    as [Sa Sb].
  { unfold sys. destruct systemInstruction as [si|]; [|by split; [constructor|simpl; lia]].
    destruct (JS.truthy _) as [t|] eqn:Ht; [|by split; [constructor|simpl; lia]].
    apply truthy_nonempty in Ht. split; [by repeat constructor|simpl; lia]. }
  rewrite length_app.
  repeat split; [by apply Forall_app| lia | done | done].
Qed.

(** ** Token estimates *)

Lemma truthy_text_length (p : Part) :
  match JS.truthy (text p) with
  | Some t => Z.of_nat (String.length t) = textLength p /\ textLength p <> 0
  | None => textLength p = 0
  end.
Proof.
  unfold textLength, JS.truthy. destruct (text p) as [t|]; [|done].
  case_decide; [by subst|]. split; [done|]. destruct t; [done|]. simpl. lia.
Qed.

Lemma sumZ_cons (z : Z) (l : list Z) : sumZ (z :: l) = z + sumZ l.
Proof. reflexivity. Qed.

Lemma Table_parts_bounds (ps : list Part) (acc : Z) :
  let counted :=
    foldl (fun total' part =>
             match JS.truthy (text part) with
             | Some t => total' + Math_ceil (quotient (Z.of_nat (String.length t)) 4)
             | None => total'
             end) acc ps in
  let chars := sumZ (map textLength ps) in
  let n := sumZ (map (fun p => if decide (textLength p = 0) then 0 else 1) ps) in
  chars <= 4 * (counted - acc) <= chars + 3 * n.
Proof.
  revert acc. induction ps as [|p ps IH]; intros acc; [simpl; lia|].
  cbv zeta in IH |- *. cbn [foldl map]. rewrite !sumZ_cons.
  pose proof (truthy_text_length p) as Hp.
  destruct (JS.truthy (text p)) as [t|].
  - destruct Hp as [Hlen Hne]. rewrite decide_False by done.
    pose proof (Math_ceil_quarter (Z.of_nat (String.length t))) as Hceil.
    unfold isCeilingOfQuarter in Hceil. rewrite Hlen in Hceil.
    specialize (IH (acc + Math_ceil (quotient (Z.of_nat (String.length t)) 4))).
    rewrite Hlen in IH |- *. lia.
  - rewrite Hp, decide_True by done. specialize (IH acc). lia.
Qed.

Lemma Table_contents_bounds (contents : list Content) (acc : Z) :
  let counted :=
    foldl (fun total c =>
             foldl (fun total' part =>
                      match JS.truthy (text part) with
                      | Some t =>
                          total' + Math_ceil (quotient (Z.of_nat (String.length t)) 4)
                      | None => total'
                      end) total (default [] (parts c))) acc contents in
  let chars := sumZ (map (fun c => sumZ (map textLength (default [] (parts c)))) contents) in
  let n := sumZ (map (fun c =>
                        sumZ (map (fun p => if decide (textLength p = 0) then 0 else 1)
                                  (default [] (parts c)))) contents) in
  chars <= 4 * (counted - acc) <= chars + 3 * n.
Proof.
  revert acc. induction contents as [|c contents IH]; intros acc; [simpl; lia|].
  cbv zeta in IH |- *. cbn [foldl map]. rewrite !sumZ_cons.
  pose proof (Table_parts_bounds (default [] (parts c)) acc) as Hc. cbv zeta in Hc.
  set (acc' := foldl _ acc (default [] (parts c))) in *.
  specialize (IH acc'). lia.
Qed.

(** X9. Rounding each part up, as the DeepSeek adapter with the
    finish-reason table does, never estimates fewer tokens than rounding
    the total once, as the DeepSeek adapter with the proxy does, and
    exceeds it by at most three quarters of a token per part that has
    text. *)
Theorem per_part_rounding_bounds (request : CountTokensParameters) :
  exists whole perPart : Z,
    DeepSeekProxy.countTokens request = Normal (MkCount whole)
    /\ DeepSeekTable.countTokens request = Normal (MkCount perPart)
    /\ whole <= perPart
    /\ 4 * (perPart - whole) <= 3 * textPartCount request.
Proof.
  rewrite DeepSeek_countTokens_total. unfold DeepSeekTable.countTokens. cbv zeta.
  do 2 eexists. split; [reflexivity|]. split; [reflexivity|].
  pose proof (Table_contents_bounds (default [] (ctContents request)) 0) as H.
  cbv zeta in H. fold (totalCharacterCount request) in H.
  fold (textPartCount request) in H.
  pose proof (Math_ceil_quarter (totalCharacterCount request)) as Hceil.
  unfold isCeilingOfQuarter in Hceil. lia.
Qed.

(** X10. The estimates of the Kimi client and of the DeepSeek adapter
    with the proxy are monotone: a request with at least as many
    characters is never estimated at fewer tokens, and no estimate is
    negative. *)
Theorem token_estimate_is_monotone (request request' : CountTokensParameters) :
  totalCharacterCount request <= totalCharacterCount request' ->
  exists n n' : Z,
    tokensOf (KimiClient.countTokens request) = Some n
    /\ tokensOf (KimiClient.countTokens request') = Some n'
    /\ tokensOf (DeepSeekProxy.countTokens request) = Some n
    /\ tokensOf (DeepSeekProxy.countTokens request') = Some n'
    /\ 0 <= n <= n'.
Proof.
  intros Hle. rewrite !Kimi_countTokens_total, !DeepSeek_countTokens_total. simpl.
  do 2 eexists. repeat split.
  - pose proof (Math_ceil_quarter (totalCharacterCount request)) as H.
    pose proof (totalCharacterCount_nonneg request).
    unfold isCeilingOfQuarter in H. lia.
  - pose proof (Math_ceil_quarter (totalCharacterCount request)) as H.
    pose proof (Math_ceil_quarter (totalCharacterCount request')) as H'.
    unfold isCeilingOfQuarter in H, H'. lia.
Qed.

Lemma token_estimate_is_monotone_witness :
  exists n n' : Z,
    tokensOf (KimiClient.countTokens twoLettersRequest) = Some n
    /\ tokensOf (KimiClient.countTokens threeLettersRequest) = Some n'
    /\ tokensOf (DeepSeekProxy.countTokens twoLettersRequest) = Some n
    /\ tokensOf (DeepSeekProxy.countTokens threeLettersRequest) = Some n'
    /\ 0 <= n <= n'.
Proof.
  apply (token_estimate_is_monotone twoLettersRequest threeLettersRequest).
  vm_compute. discriminate.
Defined.

(** ** Requests without streaming *)

(** X11. One call of [generateContent] of the Kimi client sends exactly
    one request, to the chat-completions endpoint, through the dispatcher
    of the process, which it leaves as it was. A response that is not ok
    makes the call throw the error with the status; a response without a
    choice makes it throw; otherwise the call returns the text of the
    first choice with the finish reason and the model that the provider
    named, unmapped. *)
Theorem Kimi_generateContent_outcomes
    (json : HttpResponse -> Completion KimiClient.KimiChatCompletionResponse)
    (server : HttpRequest -> HttpResponse) (self : KimiClient.Instance)
    (request : GenerateContentParameters) (w : Process) :
  exists sentRequest : HttpRequest,
    let result := fst (KimiClient.generateContent json server self request w) in
    let w' := snd (KimiClient.generateContent json server self request w) in
    let response := server sentRequest in
    globalDispatcher w' = globalDispatcher w
    /\ sent w' = sent w ++ [(sentRequest, globalDispatcher w)]
    /\ url sentRequest = KimiClient.baseUrl self +:+ "/chat/completions"
    /\ (ok response = false ->
        result = Throw ("Kimi API error: " +:+ pretty (status response) +:+ " "
                        +:+ statusText response +:+ " - " +:+ errorText response))
    /\ (ok response = true ->
        match json response with
        | Throw e => result = Throw e
        | Normal kimiResponse =>
            match KimiClient.responseChoices kimiResponse with
            | [] => result = Throw "No choice in Kimi API response"
            | choice :: _ =>
                exists r,
                  result = Normal r
                  /\ responseText r = msgContent (KimiClient.choiceMessage choice)
                  /\ firstFinishReason r = Some (KimiClient.choiceFinishReason choice)
                  /\ modelVersion r = Some (KimiClient.responseModel kimiResponse)
            end
        end).
Proof.
  set (sentRequest :=
         {| url := KimiClient.baseUrl self +:+ "/chat/completions";
            headers := [ ("Content-Type", "application/json");
                         ("Authorization", "Bearer " +:+ KimiClient.apiKey self) ]
                       ++ default [] (KimiClient.httpOptions self) ++ [] |}).
  exists sentRequest. cbv zeta.
  assert (KimiClient.generateContent json server self request w
          = (if negb (ok (server sentRequest)) then
               Throw ("Kimi API error: " +:+ pretty (status (server sentRequest))
                      +:+ " " +:+ statusText (server sentRequest) +:+ " - "
                      +:+ errorText (server sentRequest))
             else match json (server sentRequest) with
                  | Normal kimiResponse =>
                      KimiClient.convertKimiResponseToGemini kimiResponse
                        (reqModel request)
                  | Throw e => Throw e
                  end,
             {| globalDispatcher := globalDispatcher w;
                sent := sent w ++ [(sentRequest, globalDispatcher w)] |})) as ->.
  { unfold KimiClient.generateContent, KimiClient.makeRequest, fetch, mbind,
      Eff_bind, mthrow, Eff_throw, lift.
    fold sentRequest. destruct (ok (server sentRequest)); [|done]. simpl.
    by destruct (json (server sentRequest)). }
  simpl. repeat split.
  - by intros ->.
  - intros ->. simpl. destruct (json (server sentRequest)) as [kimiResponse|]; [|done].
    unfold KimiClient.convertKimiResponseToGemini.
    destruct (KimiClient.responseChoices kimiResponse) as [|choice rest]; [done|].
    simpl. eexists. split; [reflexivity|]. repeat split.
    unfold responseText, partsText, JS.orString, JS.truthy. simpl.
    case_decide as He; simpl; [by rewrite He|]. reflexivity.
Qed.

Lemma nonEmptyTexts_contentAsPart (contents : list Content) :
  nonEmptyTexts (map HunyuanContentGenerator.contentAsPart contents) = [].
Proof. by induction contents. Qed.

(** X12. What the Hunyuan adapter makes of the forms of [contents]. A
    bare string becomes one user message that carries it, and none when
    it is empty. A list of parts is converted like one user turn with
    these parts. A list that holds a bare string makes the conversion
    throw. A list of turns whose first turn has no role gives no message
    at all, whatever the other turns are. *)
Theorem Hunyuan_contents_forms :
  (forall s : string,
     HunyuanContentGenerator.convertContentListUnion
       (HunyuanContentGenerator.CLString s)
     = Normal (if decide (s = "") then [] else [MkMessage user s]))
  /\ (forall ps : list Part,
        HunyuanContentGenerator.convertContentListUnion
          (HunyuanContentGenerator.CLPartUnions (map inr ps))
        = HunyuanContentGenerator.convertContentListUnion
            (HunyuanContentGenerator.CLContent (turn "user" ps)))
  /\ (forall (items : list (string + Part)) (s : string),
        inl s ∈ items ->
        exists message : string,
          HunyuanContentGenerator.convertContentListUnion
            (HunyuanContentGenerator.CLPartUnions items)
          = Throw message)
  /\ (forall (first : Content) (others : list Content),
        role first = None ->
        HunyuanContentGenerator.convertContentListUnion
          (HunyuanContentGenerator.CLContents (first :: others))
        = Normal []).
Proof.
  repeat split.
  - intros s. unfold HunyuanContentGenerator.convertContentListUnion,
      HunyuanContentGenerator.contentsArray,
      HunyuanContentGenerator.convertToOpenAIMessages.
    cbn [foldl]. rewrite Hunyuan_pushTurn_turnMessage.
    unfold turnMessage, nonEmptyTexts. simpl.
    destruct (decide (s = "")) as [->|Hs]; simpl; [done|]. by rewrite decide_False.
  - intros ps.
    assert (HunyuanContentGenerator.firstString (map inr ps) = None
            /\ HunyuanContentGenerator.partsOf (map inr ps) = ps) as [Hnone Hparts].
    { unfold HunyuanContentGenerator.firstString, HunyuanContentGenerator.partsOf.
      induction ps as [|p ps [IHa IHb]]; [done|].
      split; [exact IHa | exact (f_equal (cons p) IHb)]. }
    unfold HunyuanContentGenerator.convertContentListUnion,
      HunyuanContentGenerator.contentsArray.
    by rewrite Hnone, Hparts.
  - intros items s Hin.
    assert (is_Some (HunyuanContentGenerator.firstString items)) as [s' Hs'].
    { unfold HunyuanContentGenerator.firstString.
      induction items as [|item items IH]; [by apply elem_of_nil in Hin|].
      destruct item as [s0|p]; [by exists s0|].
      apply elem_of_cons in Hin as [[=]|Hin]. exact (IH Hin). }
    unfold HunyuanContentGenerator.convertContentListUnion,
      HunyuanContentGenerator.contentsArray.
    rewrite Hs'. by eexists.
  - intros first others Hrole.
    unfold HunyuanContentGenerator.convertContentListUnion,
      HunyuanContentGenerator.contentsArray,
      HunyuanContentGenerator.convertToOpenAIMessages.
    rewrite decide_False by (rewrite Hrole; by intros [? [=]]).
    cbn [foldl]. rewrite Hunyuan_pushTurn_turnMessage.
    unfold turnMessage. cbn -[nonEmptyTexts map].
    by rewrite (nonEmptyTexts_contentAsPart (first :: others)).
Qed.

(** X13. [generateContent] of the Hunyuan adapter never fails on the
    response of the provider: once the messages are converted and the
    client has answered, the call returns a response whose text is the
    content of the first choice, or the empty text when the response has
    no choice, no message or no content, and whose usage counts are those
    of the provider, or zero when it reported none. *)
Theorem Hunyuan_generateContent_total
    (create : string -> list ChatMessage
              -> Completion HunyuanContentGenerator.ChatCompletion)
    (model : string) (contents : HunyuanContentGenerator.ContentListUnion)
    (messages : list ChatMessage)
    (response : HunyuanContentGenerator.ChatCompletion) :
  HunyuanContentGenerator.convertContentListUnion contents = Normal messages ->
  create model messages = Normal response ->
  exists r : GenerateContentResponse,
    HunyuanContentGenerator.generateContent create model contents = Normal r
    /\ responseText r
       = default ""
           (c ← HunyuanContentGenerator.completionChoices response !! 0%nat;
            m ← HunyuanContentGenerator.message c;
            HunyuanContentGenerator.messageContent m)
    /\ usageMetadata r
       = Some match HunyuanContentGenerator.completionUsage response with
              | Some u =>
                  MkUsage (HunyuanContentGenerator.prompt_tokens u)
                          (HunyuanContentGenerator.completion_tokens u)
                          (HunyuanContentGenerator.total_tokens u)
              | None => MkUsage 0 0 0
              end
    /\ modelVersion r = Some model.
Proof.
  intros Hm Hc. unfold HunyuanContentGenerator.generateContent. rewrite Hm, Hc.
  eexists. split; [reflexivity|]. repeat split.
  - unfold HunyuanContentGenerator.convertFromOpenAIResponse. cbv zeta.
    unfold responseText, partsText. simpl. unfold JS.join. simpl.
    destruct (HunyuanContentGenerator.completionChoices response !! 0%nat) as [c|];
      [|done]. simpl.
    destruct (HunyuanContentGenerator.message c) as [m|]; [|done]. simpl.
    unfold JS.orString, JS.truthy.
    destruct (HunyuanContentGenerator.messageContent m) as [t|]; [|done].
    case_decide; by subst.
  - unfold HunyuanContentGenerator.convertFromOpenAIResponse. simpl.
    destruct (HunyuanContentGenerator.completionUsage response) as [u|]; simpl;
      by rewrite ?orNumber_0_r.
Qed.

Lemma Hunyuan_generateContent_total_witness :
  exists r : GenerateContentResponse,
    HunyuanContentGenerator.generateContent
      (fun _ _ => Normal (HunyuanContentGenerator.MkCompletion [] None))
      "hunyuan-lite" (HunyuanContentGenerator.CLString "Hello")
    = Normal r
    /\ responseText r = ""
    /\ usageMetadata r = Some (MkUsage 0 0 0)
    /\ modelVersion r = Some "hunyuan-lite".
Proof.
  apply (Hunyuan_generateContent_total
           (fun _ _ => Normal (HunyuanContentGenerator.MkCompletion [] None))
           "hunyuan-lite" (HunyuanContentGenerator.CLString "Hello")
           [MkMessage user "Hello"]
           (HunyuanContentGenerator.MkCompletion [] None)); reflexivity.
Defined.

(** ** Requests of the DeepSeek adapter with the proxy *)

Lemma DeepSeek_pushTurn_plain (JSON_stringify : Json -> string)
    (JSON_stringify_functionResponse : FunctionResponse -> string)
    (messages : list ChatMessage) (c : Content) :
  Forall plainPart (default [] (parts c)) ->
  DeepSeekProxy.pushTurn JSON_stringify JSON_stringify_functionResponse messages c
  = HunyuanContentGenerator.pushTurn messages c.
Proof.
  intros Hplain.
  unfold DeepSeekProxy.pushTurn, HunyuanContentGenerator.pushTurn,
    HunyuanContentGenerator.turnText.
  destruct (parts c) as [ps|]; [|done]. simpl in Hplain |- *.
  assert (omap (DeepSeekProxy.userPartText JSON_stringify_functionResponse) ps
          = omap (fun p => JS.truthy (text p)) ps
          /\ omap (DeepSeekProxy.modelPartText JSON_stringify) ps
             = omap (fun p => JS.truthy (text p)) ps) as [-> ->]; [|done].
  induction Hplain as [|p ps [Hcall Hresponse] _ [IHu IHm]]; [done|].
  cbn [omap list_omap]. fold (@omap list _ _ _ (fun p => JS.truthy (text p)) ps).
  unfold DeepSeekProxy.userPartText at 1, DeepSeekProxy.modelPartText at 1.
  rewrite Hcall, Hresponse.
  split.
  - change (list_omap _ _ ?f ps) with (omap f ps). rewrite IHu.
    by destruct (text p).
  - change (list_omap _ _ ?f ps) with (omap f ps). rewrite IHm.
    by destruct (text p).
Qed.

(** X14. On a conversation whose parts are neither function calls nor
    function responses, whose first turn has a role, and without a system
    instruction, the DeepSeek adapter with the proxy builds the messages
    that the Hunyuan adapter builds from the same list of turns. *)
Theorem DeepSeek_messages_agree_with_Hunyuan
    (JSON_stringify : Json -> string)
    (JSON_stringify_functionResponse : FunctionResponse -> string)
    (contents : list Content) :
  plainContents contents ->
  firstTurnHasRole contents ->
  HunyuanContentGenerator.convertContentListUnion
    (HunyuanContentGenerator.CLContents contents)
  = Normal (DeepSeekProxy.convertContentsToDeepSeekMessages JSON_stringify
              JSON_stringify_functionResponse contents None).
Proof.
  intros Hplain Hrole.
  assert (DeepSeekProxy.convertContentsToDeepSeekMessages JSON_stringify
            JSON_stringify_functionResponse contents None
          = HunyuanContentGenerator.convertToOpenAIMessages contents) as ->.
  { unfold DeepSeekProxy.convertContentsToDeepSeekMessages,
      HunyuanContentGenerator.convertToOpenAIMessages. simpl.
    generalize (@nil ChatMessage). clear Hrole.
    induction Hplain as [|c contents Hc _ IH]; intros acc; [done|].
    simpl. by rewrite DeepSeek_pushTurn_plain, IH. }
  unfold HunyuanContentGenerator.convertContentListUnion,
    HunyuanContentGenerator.contentsArray.
  destruct contents as [|first others]; [done|].
  simpl in Hrole. by rewrite decide_True.
Qed.

Lemma DeepSeek_messages_agree_with_Hunyuan_witness :
  HunyuanContentGenerator.convertContentListUnion
    (HunyuanContentGenerator.CLContents [twoTextParts])
  = Normal (DeepSeekProxy.convertContentsToDeepSeekMessages sampleStringify
              sampleStringifyResponse [twoTextParts] None).
Proof.
  apply DeepSeek_messages_agree_with_Hunyuan.
  - repeat constructor.
  - by exists "user".
Defined.

Lemma DeepSeek_pushTurn_roles (JSON_stringify : Json -> string)
    (JSON_stringify_functionResponse : FunctionResponse -> string)
    (contents : list Content) (messages : list ChatMessage) :
  Forall (fun m => msgRole m <> system) messages ->
  Forall (fun m => msgRole m <> system)
    (foldl (DeepSeekProxy.pushTurn JSON_stringify JSON_stringify_functionResponse)
       messages contents).
Proof.
  revert messages. induction contents as [|c contents IH]; intros messages H; [done|].
  simpl. apply IH. unfold DeepSeekProxy.pushTurn.
  repeat case_decide; try done;
    destruct (JS.truthy _); try done; apply Forall_app; by repeat constructor.
Qed.

(** X15. A system instruction that is a single part with a text reaches
    the provider through the Kimi client, as the first message, and is
    dropped by the DeepSeek adapter with the proxy, whose request then
    has no system message at all. *)
Theorem single_part_system_instruction
    (JSON_stringify : Json -> string)
    (JSON_stringify_functionResponse : FunctionResponse -> string)
    (contents : list Content) (p : Part) (t : string) :
  text p = Some t -> t <> "" ->
  head (KimiClient.convertContentsToKimiMessages contents (Some (SIPart p)))
  = Some (MkMessage system t)
  /\ Forall (fun m => msgRole m <> system)
       (DeepSeekProxy.convertContentsToDeepSeekMessages JSON_stringify
          JSON_stringify_functionResponse contents (Some (SIPart p))).
Proof.
  intros Ht Hne. split.
  - assert (KimiClient.systemText (SIPart p) = t) as Hs.
    { unfold KimiClient.systemText, JS.orString, JS.truthy. rewrite Ht.
      by rewrite decide_False. }
    unfold KimiClient.convertContentsToKimiMessages. cbv zeta.
    rewrite (foldl_push_flat_map _ _ _ _ Kimi_pushTurn_turnMessage).
    by rewrite Hs, truthy_Some, decide_False.
  - by apply DeepSeek_pushTurn_roles.
Qed.

Lemma single_part_system_instruction_witness :
  head (KimiClient.convertContentsToKimiMessages [twoTextParts]
          (Some (SIPart (textPart "Be brief"))))
  = Some (MkMessage system "Be brief")
  /\ Forall (fun m => msgRole m <> system)
       (DeepSeekProxy.convertContentsToDeepSeekMessages sampleStringify
          sampleStringifyResponse [twoTextParts]
          (Some (SIPart (textPart "Be brief")))).
Proof.
  apply (single_part_system_instruction sampleStringify sampleStringifyResponse
           [twoTextParts] (textPart "Be brief") "Be brief"); [reflexivity|done].
Defined.

Lemma DeepSeek_convertTools_names (tools : list DeepSeekProxy.Tool)
    (converted : list DeepSeekProxy.DeepSeekTool) :
  DeepSeekProxy.convertTools tools = Normal converted ->
  map DeepSeekProxy.toolName converted = map firstDeclarationName tools.
Proof.
  revert converted. induction tools as [|tool tools IH]; intros converted.
  - by intros [= <-].
  - cbn [DeepSeekProxy.convertTools]. unfold DeepSeekProxy.convertTool at 1.
    destruct (DeepSeekProxy.functionDeclarations tool) as [declarations|] eqn:Hd;
      [|done].
    destruct (DeepSeekProxy.convertTools tools) as [others|]; [|done].
    intros [= <-]. cbn [map]. rewrite (IH others eq_refl).
    unfold firstDeclarationName. by rewrite Hd.
Qed.

Lemma DeepSeek_convertTools_throws (tools : list DeepSeekProxy.Tool)
    (tool : DeepSeekProxy.Tool) :
  tool ∈ tools -> DeepSeekProxy.functionDeclarations tool = None ->
  exists e : string, DeepSeekProxy.convertTools tools = Throw e.
Proof.
  intros Hin Hnone. induction tools as [|first tools IH];
    [by apply elem_of_nil in Hin|].
  cbn [DeepSeekProxy.convertTools]. unfold DeepSeekProxy.convertTool at 1.
  apply elem_of_cons in Hin as [<-|Hin].
  - rewrite Hnone. by eexists.
  - destruct (DeepSeekProxy.functionDeclarations first); [|by eexists].
    destruct (IH Hin) as [e ->]. by eexists.
Qed.

(** X16. The tools of a request of the DeepSeek adapter with the proxy.
    A request without tools carries neither tools nor a tool choice,
    whatever its tool configuration says. A request with tools carries
    one function per tool, named after the first declaration of the
    tool, so that the other declarations of a tool are not sent; and its
    tool choice is [auto] for the mode ANY as for the mode AUTO. *)
Theorem DeepSeek_request_tools
    (JSON_stringify : Json -> string)
    (JSON_stringify_functionResponse : FunctionResponse -> string)
    (request : GenerateContentParameters) (config : DeepSeekProxy.ToolSettings)
    (stream : bool) (body : DeepSeekProxy.DeepSeekChatCompletionRequest) :
  DeepSeekProxy.deepseekRequest JSON_stringify JSON_stringify_functionResponse
    request config stream = Normal body ->
  (default [] (DeepSeekProxy.tools config) = [] ->
   DeepSeekProxy.requestTools body = None /\ DeepSeekProxy.tool_choice body = None)
  /\ (default [] (DeepSeekProxy.tools config) <> [] ->
      exists sentTools,
        DeepSeekProxy.requestTools body = Some sentTools
        /\ map DeepSeekProxy.toolName sentTools
           = map firstDeclarationName (default [] (DeepSeekProxy.tools config))
        /\ (DeepSeekProxy.toolConfig config = Some (Some "ANY") ->
            DeepSeekProxy.tool_choice body = Some DeepSeekProxy.auto)
        /\ (DeepSeekProxy.toolConfig config = Some (Some "AUTO") ->
            DeepSeekProxy.tool_choice body = Some DeepSeekProxy.auto)
        /\ (DeepSeekProxy.toolConfig config = Some (Some "NONE") ->
            DeepSeekProxy.tool_choice body = Some DeepSeekProxy.none)
        /\ (DeepSeekProxy.toolConfig config = None ->
            DeepSeekProxy.tool_choice body = None)).
Proof.
  unfold DeepSeekProxy.deepseekRequest. cbv zeta.
  destruct (DeepSeekProxy.tools config) as [[|tool rest]|] eqn:Htools.
  - intros [= <-]. simpl. by split.
  - destruct (DeepSeekProxy.convertTools (tool :: rest)) as [converted|] eqn:Hc;
      [|done].
    intros [= <-]. simpl. split; [done|]. intros _. exists converted.
    split; [done|]. split; [exact (DeepSeek_convertTools_names _ _ Hc)|].
    repeat split; by intros ->.
  - intros [= <-]. simpl. by split.
Qed.

Lemma DeepSeek_request_tools_witness :
  exists sentTools,
    map DeepSeekProxy.toolName sentTools = ["lookup"]
    /\ DeepSeekProxy.deepseekRequest sampleStringify sampleStringifyResponse
         sampleRequest
         (DeepSeekProxy.MkToolSettings (Some [twoDeclarationsTool]) (Some (Some "ANY")))
         false
       = Normal (DeepSeekProxy.MkDsRequest "kimi-pro" [MkMessage user "Hello"] false
                   (Some sentTools) (Some DeepSeekProxy.auto)).
Proof.
  destruct (DeepSeek_request_tools sampleStringify sampleStringifyResponse
              sampleRequest
              (DeepSeekProxy.MkToolSettings (Some [twoDeclarationsTool])
                 (Some (Some "ANY")))
              false _ eq_refl) as [_ H].
  destruct H as (sentTools & Htools & Hnames & _); [done|].
  exists sentTools. split; [exact Hnames|]. simpl in Htools.
  injection Htools as <-. reflexivity.
Defined.

(** X17. When one of the tools of a request declares no function,
    [generateContent] of the DeepSeek adapter with the proxy throws before
    it sends anything: the state of the process is unchanged. *)
Theorem DeepSeek_generateContent_tool_without_declarations
    (JSON_stringify : Json -> string)
    (JSON_stringify_functionResponse : FunctionResponse -> string)
    (JSON_parse : string -> option Json)
    (json : HttpResponse -> Completion DeepSeekProxy.DeepSeekChatCompletionResponse)
    (server : HttpRequest -> HttpResponse) (self : DeepSeekProxy.Instance)
    (request : GenerateContentParameters) (config : DeepSeekProxy.ToolSettings)
    (tools : list DeepSeekProxy.Tool) (tool : DeepSeekProxy.Tool) (w : Process) :
  DeepSeekProxy.tools config = Some tools ->
  tool ∈ tools ->
  DeepSeekProxy.functionDeclarations tool = None ->
  exists e : string,
    DeepSeekProxy.generateContent JSON_stringify JSON_stringify_functionResponse
      JSON_parse json server self request config w
    = (Throw e, w).
Proof.
  intros Htools Hin Hnone.
  destruct (DeepSeek_convertTools_throws tools tool Hin Hnone) as [e He].
  exists e. unfold DeepSeekProxy.generateContent, DeepSeekProxy.deepseekRequest.
  cbv zeta. rewrite Htools.
  destruct tools as [|first rest]; [by apply elem_of_nil in Hin|].
  by rewrite He.
Qed.

Lemma DeepSeek_generateContent_tool_without_declarations_witness :
  exists e : string,
    DeepSeekProxy.generateContent sampleStringify sampleStringifyResponse
      noArguments noResponseJson emptyServer directInstance sampleRequest
      (DeepSeekProxy.MkToolSettings (Some [twoDeclarationsTool; searchTool]) None)
      idleProcess
    = (Throw e, idleProcess).
Proof.
  apply (DeepSeek_generateContent_tool_without_declarations _ _ _ _ _ _ _ _
           [twoDeclarationsTool; searchTool] searchTool); [reflexivity| |reflexivity].
  apply elem_of_cons. right. apply elem_of_cons. by left.
Defined.

(** X18. The conversion of a complete DeepSeek response loses no tool
    call. The parts of the candidate are a text part with the content,
    when there is some, followed by one part for every tool call, in
    order: the function call with the name and the parsed arguments when
    the arguments are JSON, and otherwise a text part that shows the name
    and the arguments as they came. Without a choice the conversion
    throws. *)
Theorem DeepSeek_response_keeps_every_tool_call
    (JSON_parse : string -> option Json)
    (deepseekResponse : DeepSeekProxy.DeepSeekChatCompletionResponse)
    (model : string) :
  match DeepSeekProxy.choices deepseekResponse with
  | [] =>
      DeepSeekProxy.convertDeepSeekResponseToGemini JSON_parse deepseekResponse model
      = Throw "No choice in DeepSeek response"
  | choice :: _ =>
      let calls :=
        default [] (DeepSeekProxy.messageToolCalls (DeepSeekProxy.message choice)) in
      exists (r : DeepSeekProxy.Converted) (callParts : list Part),
        DeepSeekProxy.convertDeepSeekResponseToGemini JSON_parse deepseekResponse
          model = Normal r
        /\ convertedPartCount r
           = (match JS.truthy (DeepSeekProxy.messageContent
                                 (DeepSeekProxy.message choice)) with
              | Some _ => 1
              | None => 0
              end + length calls)%nat
        /\ convertedParts r
           = match JS.truthy (DeepSeekProxy.messageContent
                                (DeepSeekProxy.message choice)) with
             | Some t => [textPart t]
             | None => []
             end ++ callParts
        /\ Forall2
             (fun call part =>
                match JSON_parse (DeepSeekProxy.callArguments call) with
                | Some args =>
                    part = functionCallPart (DeepSeekProxy.callName call) args
                | None =>
                    part = textPart ("[Tool Call: " +:+ DeepSeekProxy.callName call
                                     +:+ "(" +:+ DeepSeekProxy.callArguments call
                                     +:+ ")]")
                end)
             calls callParts
  end.
Proof.
  unfold DeepSeekProxy.convertDeepSeekResponseToGemini.
  destruct (DeepSeekProxy.choices deepseekResponse) as [|choice rest]; [done|].
  cbv zeta. cbn [lookup list_lookup].
  eexists _, (map (DeepSeekProxy.toolCallPart JSON_parse) _).
  split; [reflexivity|].
  unfold convertedPartCount, convertedParts.
  cbn [DeepSeekProxy.responseCandidates lookup list_lookup content parts turn
       default from_option id].
  split; [|split; [reflexivity|]].
  - rewrite length_app, length_map. by destruct (JS.truthy _).
  - generalize (default [] (DeepSeekProxy.messageToolCalls
                               (DeepSeekProxy.message choice))).
    intros calls. induction calls as [|call calls IH]; [constructor|].
    cbn [map]. constructor; [|exact IH].
    unfold DeepSeekProxy.toolCallPart.
    by destruct (JSON_parse (DeepSeekProxy.callArguments call)).
Qed.

(** ** The stream of the DeepSeek adapter with the finish-reason table *)

Lemma Table_processLine_payload (JSON_parse : string -> Completion Json)
    (JSON_parse_chunk : string -> option DeepSeekTable.DeepSeekStreamChunk)
    (st : DeepSeekTable.StreamState) (line : string) :
  DeepSeekTable.processLine JSON_parse JSON_parse_chunk st line
  = match (match tablePayload line with
           | Some payload => JSON_parse_chunk payload
           | None => None
           end) with
    | Some chunk => DeepSeekTable.processChunk JSON_parse st chunk
    | None => st
    end.
Proof.
  unfold DeepSeekTable.processLine, tablePayload.
  destruct (JS.startsWith line "data: "); [|done]. cbv zeta.
  by case_decide.
Qed.

Lemma Table_stream_state (JSON_parse : string -> Completion Json)
    (JSON_parse_chunk : string -> option DeepSeekTable.DeepSeekStreamChunk)
    (self : DeepSeekTable.Instance) (request : GenerateContentParameters)
    (pieces : list string) :
  DeepSeekTable.generateContentStream JSON_parse JSON_parse_chunk self request
    (okResponse pieces)
  = MkRun (DeepSeekTable.yields
             (foldl (DeepSeekTable.processChunk JSON_parse)
                (DeepSeekTable.initialState (DeepSeekTable.modelOf self request))
                (chunksOf tablePayload JSON_parse_chunk
                   (completeLines (received pieces)))))
          (Normal tt).
Proof.
  unfold DeepSeekTable.generateContentStream. simpl.
  rewrite readLines_lines, string_app_nil_l by done. simpl.
  unfold chunksOf.
  by rewrite <- (foldl_omap (DeepSeekTable.processLine JSON_parse JSON_parse_chunk))
    by (intros; apply Table_processLine_payload).
Qed.

Lemma orString_nonempty (t : string) : t <> "" -> JS.orString (Some t) "" = t.
Proof. intros H. unfold JS.orString, JS.truthy. by rewrite decide_False. Qed.

Lemma orString_None : JS.orString None "" = "".
Proof. reflexivity. Qed.

Lemma string_app_nonempty_r (s t : string) : t <> "" -> s +:+ t <> "".
Proof.
  intros Ht H. apply (f_equal String.length) in H.
  rewrite string_app_length in H. destruct t; [done|]. simpl in H. lia.
Qed.

Lemma Table_processChunk_text (JSON_parse : string -> Completion Json)
    (version fragment : string) (st : DeepSeekTable.StreamState) :
  fragment <> "" ->
  DeepSeekTable.processChunk JSON_parse st (tableTextChunk version fragment)
  = DeepSeekTable.MkState
      (DeepSeekTable.accumulatedText st +:+ fragment)
      (DeepSeekTable.accumulatedToolCalls st) version false
      (DeepSeekTable.yields st ++
       [ {| candidates :=
              [ {| content :=
                     turn "model"
                       [textPart (DeepSeekTable.accumulatedText st +:+ fragment)];
                   finishReason := None;
                   index := None |} ];
            usageMetadata := None;
            modelVersion := Some version |} ]).
Proof.
  intros Hf. unfold DeepSeekTable.processChunk, tableTextChunk.
  cbn [DeepSeekTable.chunkChoices DeepSeekTable.delta DeepSeekTable.deltaContent
       DeepSeekTable.deltaToolCalls DeepSeekTable.chunk_finish_reason
       DeepSeekTable.chunkModel default from_option id foldl].
  cbv zeta. rewrite orString_nonempty by done.
  rewrite truthy_Some, decide_False by by apply string_app_nonempty_r.
  reflexivity.
Qed.

Lemma Table_text_chunks (JSON_parse : string -> Completion Json)
    (version : string) (fragments : list string) (st : DeepSeekTable.StreamState) :
  Forall (fun fragment => fragment <> "") fragments ->
  let st' := foldl (DeepSeekTable.processChunk JSON_parse) st
               (map (tableTextChunk version) fragments) in
  DeepSeekTable.accumulatedText st'
  = DeepSeekTable.accumulatedText st +:+ concatenation fragments
  /\ DeepSeekTable.accumulatedToolCalls st' = DeepSeekTable.accumulatedToolCalls st
  /\ map responseText (DeepSeekTable.yields st')
     = map responseText (DeepSeekTable.yields st)
       ++ snapshots (DeepSeekTable.accumulatedText st) fragments
  /\ map firstFinishReason (DeepSeekTable.yields st')
     = map firstFinishReason (DeepSeekTable.yields st)
       ++ map (fun _ => None) fragments.
Proof.
  intros Hne. revert st. induction Hne as [|fragment fragments Hf _ IH]; intros st.
  - simpl. by rewrite string_app_nil_r, !app_nil_r.
  - cbn [map foldl]. cbv zeta in IH |- *.
    destruct (IH (DeepSeekTable.processChunk JSON_parse st
                    (tableTextChunk version fragment))) as (-> & -> & -> & ->).
    clear IH. rewrite Table_processChunk_text by done.
    cbn [DeepSeekTable.accumulatedText DeepSeekTable.accumulatedToolCalls
         DeepSeekTable.yields snapshots].
    unfold concatenation. cbn [foldr].
    rewrite !map_app, <- !app_assoc, string_app_assoc.
    repeat split.
Qed.

(** X19. A stream of text for the DeepSeek adapter with the finish-reason
    table. When the frames carry the content fragments [fragments] and
    then a finish signal, the adapter emits one response per fragment,
    each with all the text so far and no finish reason, and then one
    response with the whole text and the finish reason that the table
    gives for the signal. *)
Theorem Table_stream_of_text
    (JSON_parse : string -> Completion Json)
    (JSON_parse_chunk : string -> option DeepSeekTable.DeepSeekStreamChunk)
    (self : DeepSeekTable.Instance) (request : GenerateContentParameters)
    (pieces : list string) (version reason : string) (fragments : list string) :
  Forall (fun fragment => fragment <> "") fragments ->
  reason <> "" ->
  chunksOf tablePayload JSON_parse_chunk (completeLines (received pieces))
  = map (tableTextChunk version) fragments ++ [tableFinishChunk version reason] ->
  let run :=
    DeepSeekTable.generateContentStream JSON_parse JSON_parse_chunk self request
      (okResponse pieces) in
  outcome run = Normal tt
  /\ map responseText (emitted run)
     = snapshots "" fragments ++ [concatenation fragments]
  /\ map firstFinishReason (emitted run)
     = map (fun _ => None) fragments
       ++ [Some (FinishReason_value (DeepSeekTable.convertFinishReason reason))].
Proof.
  intros Hne Hreason Hchunks. cbv zeta. rewrite Table_stream_state, Hchunks.
  simpl. split; [done|]. rewrite foldl_app.
  destruct (Table_text_chunks JSON_parse version fragments
              (DeepSeekTable.initialState (DeepSeekTable.modelOf self request)) Hne)
    as (Hacc & Hcalls & Htexts & Hreasons).
  cbv zeta in Hacc, Hcalls, Htexts, Hreasons.
  set (st := foldl _ _ (map _ fragments)) in *. simpl in Hacc, Hcalls, Htexts, Hreasons.
  rewrite string_app_nil_l in Hacc.
  simpl. unfold DeepSeekTable.processChunk, tableFinishChunk. simpl.
  rewrite Hcalls. unfold JS.orString. simpl. rewrite decide_False by done. simpl.
  rewrite !map_app, Htexts, Hreasons, string_app_nil_r, Hacc. simpl.
  split; [|done]. do 2 f_equal.
  unfold responseText, partsText, JS.join. simpl.
  case_decide as He; simpl; [by rewrite He|]. reflexivity.
Qed.

Lemma Table_stream_of_text_witness :
  map responseText
    (emitted (DeepSeekTable.generateContentStream sampleArgumentsParse
                sampleTableParse tableInstance sampleRequest
                (okResponse helloStream)))
  = ["He"; "Hello"; "Hello"].
Proof.
  refine (proj1 (proj2 (Table_stream_of_text sampleArgumentsParse sampleTableParse
                          tableInstance sampleRequest helloStream "moonshot-v1-8k"
                          "stop" ["He"; "llo"] _ _ _))).
  - by repeat constructor.
  - done.
  - vm_compute. reflexivity.
Defined.

Lemma orString_Some_id (t : string) : JS.orString (Some t) "" = t.
Proof. unfold JS.orString, JS.truthy. by case_decide. Qed.

Lemma Table_processChunk_tool (JSON_parse : string -> Completion Json)
    (version fragment : string) (index : nat) (name : option string)
    (st : DeepSeekTable.StreamState) :
  DeepSeekTable.accumulatedText st = "" ->
  DeepSeekTable.processChunk JSON_parse st
    (tableToolChunk version index name fragment)
  = DeepSeekTable.MkState ""
      (DeepSeekTable.accumulate (DeepSeekTable.accumulatedToolCalls st)
         (DeepSeekTable.MkToolCallDelta index None name (Some fragment)))
      version false
      (DeepSeekTable.yields st ++
       if DeepSeekTable.isFirstChunk st then
         [ {| candidates :=
                [ {| content := turn "model" [textPart ""];
                     finishReason := None;
                     index := None |} ];
              usageMetadata := None;
              modelVersion := Some version |} ]
       else []).
Proof.
  intros Htext. unfold DeepSeekTable.processChunk, tableToolChunk. simpl.
  rewrite Htext. simpl. destruct (DeepSeekTable.isFirstChunk st); simpl;
    by rewrite ?app_nil_r.
Qed.

Lemma Table_processChunk_finish (JSON_parse : string -> Completion Json)
    (version reason : string) (st : DeepSeekTable.StreamState) :
  reason <> "" ->
  DeepSeekTable.accumulatedText st = "" ->
  DeepSeekTable.processChunk JSON_parse st (tableFinishChunk version reason)
  = match DeepSeekTable.accumulatedParts JSON_parse
            (DeepSeekTable.accumulatedToolCalls st) with
    | Some callParts =>
        DeepSeekTable.MkState "" [] version (DeepSeekTable.isFirstChunk st)
          (DeepSeekTable.yields st ++
           [ {| candidates :=
                  [ {| content := turn "model" (DeepSeekTable.orEmptyText callParts);
                       finishReason :=
                         Some (FinishReason_value
                                 (DeepSeekTable.convertFinishReason reason));
                       index := None |} ];
                usageMetadata := None;
                modelVersion := Some version |} ])
    | None =>
        DeepSeekTable.MkState "" (DeepSeekTable.accumulatedToolCalls st) version
          (DeepSeekTable.isFirstChunk st) (DeepSeekTable.yields st)
    end.
Proof.
  intros Hreason Htext. unfold DeepSeekTable.processChunk, tableFinishChunk. simpl.
  rewrite Htext. simpl. rewrite decide_False by done.
  by destruct (DeepSeekTable.accumulatedParts _ _).
Qed.

Lemma Table_tool_chunks (JSON_parse : string -> Completion Json)
    (version callId name arguments : string) (fragments : list string)
    (responses : list GenerateContentResponse) :
  foldl (DeepSeekTable.processChunk JSON_parse)
    (DeepSeekTable.MkState ""
       [Some (DeepSeekTable.MkAccumulated callId name arguments)] version false
       responses)
    (map (tableToolChunk version 0 None) fragments)
  = DeepSeekTable.MkState ""
      [Some (DeepSeekTable.MkAccumulated callId name
               (arguments +:+ concatenation fragments))]
      version false responses.
Proof.
  revert arguments. induction fragments as [|fragment fragments IH]; intros arguments.
  - simpl. by rewrite string_app_nil_r.
  - cbn [map foldl]. rewrite Table_processChunk_tool by done.
    unfold DeepSeekTable.accumulate. simpl. rewrite orString_Some_id, app_nil_r.
    rewrite IH. unfold concatenation. simpl. by rewrite string_app_assoc.
Qed.

(** X20. A tool call that arrives in fragments. When the frames of a
    stream of the DeepSeek adapter with the finish-reason table open one
    tool call, continue its arguments and end with a finish signal, the
    adapter first emits a response with an empty text, for the first
    chunk, and then, if the fragments of the arguments, concatenated in
    the order of their arrival, are JSON, one response whose only part is
    the function call with these arguments, with the finish reason of the
    table. If they are not JSON, nothing is emitted for the finish
    signal: no response of the stream carries a finish reason. *)
Theorem Table_stream_of_tool_call
    (JSON_parse : string -> Completion Json)
    (JSON_parse_chunk : string -> option DeepSeekTable.DeepSeekStreamChunk)
    (self : DeepSeekTable.Instance) (request : GenerateContentParameters)
    (pieces : list string) (version name reason first : string)
    (rest : list string) :
  name <> "" ->
  reason <> "" ->
  chunksOf tablePayload JSON_parse_chunk (completeLines (received pieces))
  = tableToolChunk version 0 (Some name) first
    :: map (tableToolChunk version 0 None) rest
    ++ [tableFinishChunk version reason] ->
  let run :=
    DeepSeekTable.generateContentStream JSON_parse JSON_parse_chunk self request
      (okResponse pieces) in
  match DeepSeekTable.parseArguments JSON_parse
          (Some (concatenation (first :: rest))) with
  | Normal args =>
      map responseParts (emitted run)
      = [[textPart ""]; [functionCallPart name args]]
      /\ map firstFinishReason (emitted run)
         = [None; Some (FinishReason_value
                          (DeepSeekTable.convertFinishReason reason))]
  | Throw _ =>
      map responseParts (emitted run) = [[textPart ""]]
      /\ map firstFinishReason (emitted run) = [None]
  end.
Proof.
  intros Hname Hreason Hchunks. cbv zeta. rewrite Table_stream_state, Hchunks.
  cbn [foldl emitted]. rewrite foldl_app.
  rewrite Table_processChunk_tool by done.
  unfold DeepSeekTable.accumulate. simpl. rewrite !orString_Some_id.
  change (DeepSeekTable.setAt [] 0 ?v) with [Some v].
  rewrite Table_tool_chunks. cbn [foldl].
  rewrite Table_processChunk_finish by done. simpl.
  rewrite decide_False by done.
  change (concatenation (first :: rest)) with (first +:+ concatenation rest).
  by destruct (DeepSeekTable.parseArguments JSON_parse
                 (Some (first +:+ concatenation rest))).
Qed.

Lemma Table_stream_of_tool_call_witness :
  map responseParts
    (emitted (DeepSeekTable.generateContentStream sampleArgumentsParse
                sampleTableParse tableInstance sampleRequest
                (okResponse toolCallStream)))
  = [[textPart ""]; [functionCallPart "lookup" (JObject [])]].
Proof.
  refine (proj1 (Table_stream_of_tool_call sampleArgumentsParse sampleTableParse
                   tableInstance sampleRequest toolCallStream "moonshot-v1-8k"
                   "lookup" "stop" "{" ["}"] _ _ _)); [done|done|].
  vm_compute. reflexivity.
Defined.

(** X21. A tool call whose index leaves a gap. When the only tool call of
    a stream of the DeepSeek adapter with the finish-reason table has an
    index above zero, the finish signal emits nothing: the stream ends
    normally with the response of the first chunk alone, which has an
    empty text and no finish reason, and the tool call is lost. *)
Theorem Table_stream_tool_call_gap
    (JSON_parse : string -> Completion Json)
    (JSON_parse_chunk : string -> option DeepSeekTable.DeepSeekStreamChunk)
    (self : DeepSeekTable.Instance) (request : GenerateContentParameters)
    (pieces : list string) (version reason fragment : string)
    (name : option string) (index : nat) :
  reason <> "" ->
  chunksOf tablePayload JSON_parse_chunk (completeLines (received pieces))
  = [ tableToolChunk version (S index) name fragment;
      tableFinishChunk version reason ] ->
  let run :=
    DeepSeekTable.generateContentStream JSON_parse JSON_parse_chunk self request
      (okResponse pieces) in
  outcome run = Normal tt
  /\ map responseParts (emitted run) = [[textPart ""]]
  /\ map firstFinishReason (emitted run) = [None].
Proof.
  intros Hreason Hchunks. cbv zeta. rewrite Table_stream_state, Hchunks.
  split; [done|]. cbn [foldl emitted].
  rewrite Table_processChunk_tool by done.
  rewrite Table_processChunk_finish by done.
  unfold DeepSeekTable.accumulate, DeepSeekTable.setAt. simpl. done.
Qed.

Lemma Table_stream_tool_call_gap_witness :
  outcome (DeepSeekTable.generateContentStream sampleArgumentsParse
             sampleTableParse tableInstance sampleRequest
             (okResponse lateToolCallStream)) = Normal tt
  /\ map responseParts
       (emitted (DeepSeekTable.generateContentStream sampleArgumentsParse
                   sampleTableParse tableInstance sampleRequest
                   (okResponse lateToolCallStream)))
     = [[textPart ""]]
  /\ map firstFinishReason
       (emitted (DeepSeekTable.generateContentStream sampleArgumentsParse
                   sampleTableParse tableInstance sampleRequest
                   (okResponse lateToolCallStream)))
     = [None].
Proof.
  apply (Table_stream_tool_call_gap sampleArgumentsParse sampleTableParse
           tableInstance sampleRequest lateToolCallStream "moonshot-v1-8k" "stop"
           "{}" (Some "lookup") 0); [done|].
  vm_compute. reflexivity.
Defined.

(** ** Messages and responses of the DeepSeek adapter with the
       finish-reason table *)

Lemma Table_pushTurn_app (JSON_stringify_response : string -> Json -> string)
    (messages : list DeepSeekTable.DeepSeekMessage) (c : Content) :
  DeepSeekTable.pushTurn JSON_stringify_response messages c
  = messages ++ DeepSeekTable.pushTurn JSON_stringify_response [] c.
Proof.
  unfold DeepSeekTable.pushTurn. repeat case_decide; cbv zeta;
    repeat (match goal with |- context [match ?l with [] => _ | _ :: _ => _ end] =>
              destruct l end);
    by rewrite ?app_nil_r.
Qed.

Lemma Table_pushTurn_assistant (JSON_stringify_response : string -> Json -> string)
    (c : Content) :
  List.filter isAssistant (DeepSeekTable.pushTurn JSON_stringify_response [] c)
  = if isModelTurn c then
      [DeepSeekTable.MkDsMessage assistant
         (DeepSeekTable.TextContent
            (String.concat JS.LINE_FEED (nonEmptyTexts (default [] (parts c)))))]
    else [].
Proof.
  unfold DeepSeekTable.pushTurn, isModelTurn.
  case_decide as Huser.
  - rewrite bool_decide_eq_false_2 by (rewrite Huser; by intros [=]). cbv zeta.
    repeat (match goal with |- context [match ?l with [] => _ | _ :: _ => _ end] =>
              destruct l end); done.
  - case_decide as Hmodel.
    + rewrite bool_decide_eq_true_2 by done. cbv zeta. simpl.
      by rewrite orString_Some_id.
    + by rewrite bool_decide_eq_false_2.
Qed.

(** X22. The DeepSeek adapter with the finish-reason table answers every
    model turn with exactly one assistant message, in the order of the
    turns, whose content is the non-empty texts of the turn joined with a
    line feed: the empty string for a model turn without text. No other
    turn, and no system instruction, gives an assistant message. *)
Theorem Table_model_turns_always_give_a_message
    (JSON_stringify_response : string -> Json -> string)
    (contents : list Content) (systemInstruction : option string) :
  List.filter isAssistant
    (DeepSeekTable.convertContentToMessages JSON_stringify_response contents
       systemInstruction)
  = map (fun c =>
           DeepSeekTable.MkDsMessage assistant
             (DeepSeekTable.TextContent
                (String.concat JS.LINE_FEED (nonEmptyTexts (default [] (parts c))))))
      (List.filter isModelTurn contents).
Proof.
  unfold DeepSeekTable.convertContentToMessages. cbv zeta.
  rewrite (foldl_push_flat_map _ _ _ _ (Table_pushTurn_app JSON_stringify_response)).
  rewrite List.filter_app.
  replace (List.filter isAssistant
             match JS.truthy systemInstruction with
             | Some t => [DeepSeekTable.MkDsMessage system (DeepSeekTable.TextContent t)]
             | None => []
             end) with (@nil DeepSeekTable.DeepSeekMessage)
    by by destruct (JS.truthy systemInstruction).
  rewrite app_nil_l. induction contents as [|c contents IH]; [done|].
  cbn [flat_map List.filter]. rewrite List.filter_app, IH, Table_pushTurn_assistant.
  by destruct (isModelTurn c).
Qed.

Lemma Table_toolCallParts_throws (JSON_parse : string -> Completion Json)
    (calls : list DeepSeekTable.ToolCall) (call : DeepSeekTable.ToolCall)
    (e : string) :
  call ∈ calls ->
  DeepSeekTable.parseArguments JSON_parse (DeepSeekTable.callArguments call)
  = Throw e ->
  exists e' : string, DeepSeekTable.toolCallParts JSON_parse calls = Throw e'.
Proof.
  intros Hin Hcall. induction calls as [|first calls IH];
    [by apply elem_of_nil in Hin|].
  cbn [DeepSeekTable.toolCallParts].
  apply elem_of_cons in Hin as [<-|Hin].
  - rewrite Hcall. by eexists.
  - destruct (DeepSeekTable.parseArguments JSON_parse
                (DeepSeekTable.callArguments first)); [|by eexists].
    destruct (IH Hin) as [e' ->]. by eexists.
Qed.

Lemma Table_toolCallParts_parts (JSON_parse : string -> Completion Json)
    (calls : list DeepSeekTable.ToolCall) :
  Forall (fun call =>
            exists args,
              DeepSeekTable.parseArguments JSON_parse
                (DeepSeekTable.callArguments call) = Normal args) calls ->
  exists callParts,
    DeepSeekTable.toolCallParts JSON_parse calls = Normal callParts
    /\ Forall2
         (fun call part =>
            exists args,
              DeepSeekTable.parseArguments JSON_parse
                (DeepSeekTable.callArguments call) = Normal args
              /\ part = functionCallPart (DeepSeekTable.callName call) args)
         calls callParts.
Proof.
  induction 1 as [|call calls [args Hargs] _ (callParts & Hparts & Hall)].
  - exists []. split; [done|constructor].
  - cbn [DeepSeekTable.toolCallParts]. rewrite Hargs, Hparts.
    eexists. split; [done|]. constructor; [|done]. by exists args.
Qed.

(** X23. The conversion of a complete response by the DeepSeek adapter
    with the finish-reason table. When the arguments of one tool call of
    the first choice are not JSON, the conversion throws and the whole
    response is lost, its text included. When the arguments of all are
    JSON, the parts of the candidate are a text part with the content,
    when there is some, followed by one function call for every tool call,
    in order, with the name and the parsed arguments of that call; and the
    finish reason of the candidate is the one of the table. *)
Theorem Table_response_needs_json_arguments
    (JSON_parse : string -> Completion Json)
    (response : DeepSeekTable.DeepSeekChatCompletionResponse) (model : string)
    (choice : DeepSeekTable.Choice) :
  DeepSeekTable.choices response !! 0%nat = Some choice ->
  let calls :=
    default [] (DeepSeekTable.messageToolCalls (DeepSeekTable.message choice)) in
  let result :=
    DeepSeekTable.convertResponseToGenerateContentResponse JSON_parse response
      model in
  (forall call e,
     call ∈ calls ->
     DeepSeekTable.parseArguments JSON_parse (DeepSeekTable.callArguments call)
     = Throw e ->
     exists e' : string, result = Throw e')
  /\ (Forall (fun call =>
                exists args,
                  DeepSeekTable.parseArguments JSON_parse
                    (DeepSeekTable.callArguments call) = Normal args) calls ->
      exists (r : GenerateContentResponse) (callParts : list Part),
        result = Normal r
        /\ length (responseParts r)
           = (match JS.truthy (DeepSeekTable.messageContent
                                 (DeepSeekTable.message choice)) with
              | Some _ => 1
              | None => 0
              end + length calls)%nat
        /\ firstFinishReason r
           = Some (FinishReason_value
                     (DeepSeekTable.convertFinishReason
                        (DeepSeekTable.finish_reason choice)))
        /\ responseParts r
           = match JS.truthy (DeepSeekTable.messageContent
                                (DeepSeekTable.message choice)) with
             | Some t => [textPart t]
             | None => []
             end ++ callParts
        /\ Forall2
             (fun call part =>
                exists args,
                  DeepSeekTable.parseArguments JSON_parse
                    (DeepSeekTable.callArguments call) = Normal args
                  /\ part = functionCallPart (DeepSeekTable.callName call) args)
             calls callParts).
Proof.
  intros Hchoice. cbv zeta.
  unfold DeepSeekTable.convertResponseToGenerateContentResponse. rewrite Hchoice.
  split.
  - intros call e Hin Hcall.
    destruct (Table_toolCallParts_throws JSON_parse _ call e Hin Hcall) as [e' ->].
    by eexists.
  - intros Hall.
    destruct (Table_toolCallParts_parts JSON_parse _ Hall)
      as (callParts & -> & Hparts).
    eexists _, callParts. split; [reflexivity|].
    unfold responseParts.
    cbn [candidates lookup list_lookup content parts turn default from_option id].
    split; [|split; [done|split; [done|exact Hparts]]].
    rewrite length_app, <- (Forall2_length _ _ _ Hparts).
    by destruct (JS.truthy _).
Qed.

Lemma Table_response_needs_json_arguments_witness :
  exists e' : string,
    DeepSeekTable.convertResponseToGenerateContentResponse sampleArgumentsParse
      brokenToolCallResponse "deepseek-chat"
    = Throw e'.
Proof.
  refine (proj1 (Table_response_needs_json_arguments sampleArgumentsParse
                   brokenToolCallResponse "deepseek-chat" _ eq_refl)
            (DeepSeekTable.MkToolCall "lookup" (Some "{"))
            "Unexpected end of JSON input" _ eq_refl).
  apply elem_of_cons. by left.
Defined.

(** ** The DeepSeek adapter that stops at the sentinel *)

Lemma Deepseek_returned_stays (JSON_parse : string -> option DeepseekContentGenerator.StreamData)
    (lines : list string) (responses : list GenerateContentResponse) :
  foldl (DeepseekContentGenerator.processLine JSON_parse)
    (DeepseekContentGenerator.MkState true responses) lines
  = DeepseekContentGenerator.MkState true responses.
Proof. by induction lines. Qed.

Lemma done_line (line : string) :
  line = "data: [DONE]"
  <-> JS.startsWith line "data: " = true /\ JS.slice line 6 = "[DONE]".
Proof.
  split; [by intros ->|]. intros [Hp Hs]. apply startsWith_slice in Hp.
  rewrite Hp. change (String.length "data: ") with 6%nat. by rewrite Hs.
Qed.

Lemma Deepseek_lines_before_done
    (JSON_parse : string -> option DeepseekContentGenerator.StreamData)
    (lines : list string) (responses : list GenerateContentResponse) :
  DeepseekContentGenerator.yields
    (foldl (DeepseekContentGenerator.processLine JSON_parse)
       (DeepseekContentGenerator.MkState false responses) lines)
  = responses
    ++ map DeepseekContentGenerator.convertStreamResponse
         (chunksOf tablePayload JSON_parse (beforeDone lines)).
Proof.
  revert responses. induction lines as [|line lines IH]; intros responses.
  - simpl. by rewrite app_nil_r.
  - cbn [foldl beforeDone]. unfold DeepseekContentGenerator.processLine at 2.
    cbn [DeepseekContentGenerator.returned DeepseekContentGenerator.yields].
    destruct (decide (line = "data: [DONE]")) as [Hdone|Hdone].
    + apply done_line in Hdone as [-> Hs]. cbv zeta.
      rewrite decide_True by done. rewrite Deepseek_returned_stays. simpl.
      by rewrite app_nil_r.
    + unfold chunksOf. cbn [omap list_omap]. unfold tablePayload at 1.
      destruct (JS.startsWith line "data: ") eqn:Hp; [|apply IH]. cbv zeta.
      case_decide as Hs; [destruct Hdone; by apply done_line|].
      destruct (JSON_parse (JS.slice line 6)) as [parsed|]; [|apply IH].
      rewrite IH. cbn [map]. by rewrite <- app_assoc.
Qed.

(** X24. The stream of the DeepSeek adapter that stops at the sentinel
    emits one response for every well-formed frame before the first
    end-of-stream sentinel, each the conversion of that frame alone, and
    nothing for what follows the sentinel. *)
Theorem Deepseek_stream_stops_at_done
    (JSON_parse : string -> option DeepseekContentGenerator.StreamData)
    (pieces : list string) :
  DeepseekContentGenerator.generateContentStream JSON_parse (okResponse pieces)
  = MkRun (map DeepseekContentGenerator.convertStreamResponse
             (chunksOf tablePayload JSON_parse
                (beforeDone (completeLines (received pieces)))))
          (Normal tt).
Proof.
  unfold DeepseekContentGenerator.generateContentStream. simpl.
  rewrite readLines_lines, string_app_nil_l by done. simpl.
  by rewrite Deepseek_lines_before_done.
Qed.

(** X25. The proxy of the DeepSeek adapter that stops at the sentinel has
    no effect on a request. With a proxy that undici accepts,
    [makeRequest] does what it does without a proxy: the request goes out
    through the dispatcher of the process, which is left as it was. *)
Theorem Deepseek_proxy_has_no_effect
    (newProxyAgent : string -> Completion Dispatcher)
    (server : HttpRequest -> HttpResponse)
    (self : DeepseekContentGenerator.Instance) (path uri : string)
    (agent : Dispatcher) (w : Process) :
  DeepseekContentGenerator.proxy self = Some uri ->
  newProxyAgent uri = Normal agent ->
  let run := DeepseekContentGenerator.makeRequest newProxyAgent server self path w in
  run
  = DeepseekContentGenerator.makeRequest newProxyAgent server
      (DeepseekContentGenerator.MkInstance
         (DeepseekContentGenerator.apiKey self)
         (DeepseekContentGenerator.baseUrl self) None)
      path w
  /\ globalDispatcher (snd run) = globalDispatcher w
  /\ exists request,
       sent (snd run) = sent w ++ [(request, globalDispatcher w)].
Proof.
  intros Hproxy Hagent. cbv zeta.
  unfold DeepseekContentGenerator.makeRequest. rewrite Hproxy.
  cbn [DeepseekContentGenerator.proxy DeepseekContentGenerator.apiKey
       DeepseekContentGenerator.baseUrl].
  unfold JS.truthy. case_decide as Hempty.
  - split; [done|]. unfold mbind, Eff_bind, mret, Eff_ret, fetch. simpl.
    destruct (ok (server _)); simpl; eauto.
  - unfold mbind, Eff_bind, mret, Eff_ret, fetch, lift. rewrite Hagent. simpl.
    split; [done|]. destruct (ok (server _)); simpl; eauto.
Qed.

Lemma Deepseek_proxy_has_no_effect_witness :
  DeepseekContentGenerator.makeRequest acceptingProxyAgent sampleServer
    proxiedInstance "/v1/chat/completions" idleProcess
  = DeepseekContentGenerator.makeRequest acceptingProxyAgent sampleServer
      unproxiedInstance "/v1/chat/completions" idleProcess.
Proof.
  refine (proj1 (Deepseek_proxy_has_no_effect acceptingProxyAgent sampleServer
                   proxiedInstance "/v1/chat/completions"
                   "http://proxy.example:8080"
                   (ProxyAgent "http://proxy.example:8080") idleProcess
                   eq_refl eq_refl)).
Defined.

(** X26. The DeepSeek adapter that stops at the sentinel keeps the parts
    whose field [type] is [text]. The parts of @google/genai have no such
    field, so a conversation of such parts gives one message per turn,
    and the content of every message is empty. *)
Theorem Deepseek_messages_of_untyped_parts (contents : list Content) :
  map DeepseekContentGenerator.messageContent
    (DeepseekContentGenerator.convertContents (map typedContent contents))
  = map (fun _ => "") contents.
Proof.
  unfold DeepseekContentGenerator.convertContents. rewrite !map_map.
  apply map_ext. intros c. simpl.
  destruct (parts c) as [ps|]; [|done]. simpl.
  replace (filter _ (map _ ps)) with (@nil DeepseekContentGenerator.TypedPart);
    [done|].
  induction ps as [|p ps IH]; [done|]. cbn [map].
  by rewrite filter_cons, decide_False.
Qed.

(** ** The end-of-stream sentinel *)

Lemma chunksOf_without_sentinel {Chunk : Type}
    (payloadOf : string -> option string) (JSON_parse : string -> option Chunk)
    (before after : list string) :
  payloadOf "data: [DONE]" = None ->
  chunksOf payloadOf JSON_parse (before ++ "data: [DONE]" :: after)
  = chunksOf payloadOf JSON_parse (before ++ after).
Proof.
  intros Hnone. unfold chunksOf. rewrite !omap_app. cbn [omap list_omap].
  by rewrite Hnone.
Qed.

(** X27. The end-of-stream sentinel does not end the streams of the Kimi
    client and of the DeepSeek adapter with the finish-reason table: both
    skip the sentinel and go on reading, so a stream emits what it would
    emit without the sentinel line, the frames after it included. *)
Theorem sentinel_does_not_end_the_stream
    (JSON_parse_kimi : string -> option KimiClient.KimiStreamChunk)
    (JSON_parse : string -> Completion Json)
    (JSON_parse_chunk : string -> option DeepSeekTable.DeepSeekStreamChunk)
    (self : DeepSeekTable.Instance) (request : GenerateContentParameters)
    (pieces pieces' before after : list string) :
  completeLines (received pieces) = before ++ "data: [DONE]" :: after ->
  completeLines (received pieces') = before ++ after ->
  KimiClient.generateContentStream JSON_parse_kimi request (okResponse pieces)
  = KimiClient.generateContentStream JSON_parse_kimi request (okResponse pieces')
  /\ DeepSeekTable.generateContentStream JSON_parse JSON_parse_chunk self request
       (okResponse pieces)
     = DeepSeekTable.generateContentStream JSON_parse JSON_parse_chunk self request
         (okResponse pieces').
Proof.
  intros Hlines Hlines'. split.
  - unfold KimiClient.generateContentStream. simpl.
    by rewrite !Kimi_stream_state, Hlines, Hlines', chunksOf_without_sentinel.
  - by rewrite !Table_stream_state, Hlines, Hlines', chunksOf_without_sentinel.
Qed.

Lemma sentinel_does_not_end_the_stream_witness :
  KimiClient.generateContentStream sampleKimiParse sampleRequest
    (okResponse streamPastDone)
  = KimiClient.generateContentStream sampleKimiParse sampleRequest
      (okResponse [frameHe +:+ JS.LINE_FEED +:+ frameLlo +:+ JS.LINE_FEED])
  /\ DeepSeekTable.generateContentStream sampleArgumentsParse sampleTableParse
       tableInstance sampleRequest (okResponse streamPastDone)
     = DeepSeekTable.generateContentStream sampleArgumentsParse sampleTableParse
         tableInstance sampleRequest
         (okResponse [frameHe +:+ JS.LINE_FEED +:+ frameLlo +:+ JS.LINE_FEED]).
Proof.
  apply (sentinel_does_not_end_the_stream sampleKimiParse sampleArgumentsParse
           sampleTableParse tableInstance sampleRequest streamPastDone
           [frameHe +:+ JS.LINE_FEED +:+ frameLlo +:+ JS.LINE_FEED]
           [frameHe] [frameLlo]); vm_compute; reflexivity.
Defined.
